(** * Federated DRL training logger and console monitor

    A shallow embedding of [training_logger.py] (the [TrainingLogger] that
    appends metric rows to CSV files) and of [monitor_training.py] (the
    [TrainingMonitor] that re-reads per-agent CSV files and renders a console
    dashboard), together with the parts of the Python runtime both rely on:
    binary64 floats, [float()] / [int()] / [repr] / format specifiers, the
    [csv] reader and writer, and a small file system.

    Embedded from [training_logger.py]: [__init__], [_init_metrics_csv],
    [_init_actions_csv], [_log_event], [log_round],
    [log_action_distribution], [log_episode], [log_error], [log_checkpoint]
    and [create_logger].  Embedded from [monitor_training.py]:
    [__init__], [check_files_exist], [load_metrics], [load_summary],
    [get_latest_metrics], [get_statistics], the four [display_*] methods,
    [run] and [main].

    Conventions of the embedding.
    - A Python [str] is a [string] whose characters are code points below
      256; a file holds its decoded text.
    - A Python [int] is a [Z]; [str(n)] is its decimal numeral, whatever
      its length (the interpreter's optional limit on the digits of such a
      conversion is left out).
    - A Python [float] is an IEEE 754 binary64 value, represented by the
      standard library's [spec_float] with [prec = 53] and [emax = 1024]; all
      arithmetic goes through the correctly rounded operations of [SpecFloat].
      [x ** 2] is the correctly rounded square and [x ** 0.5] the correctly
      rounded square root; [sum] adds from left to right.
    - Side effects (files, the console) are threaded through a [world];
      Python exceptions are the [Raise] results of the [io] monad.  Line
      ends are written as given (POSIX).
    - Every reading of the clock is an argument of the operation that
      reads it. *)

From Stdlib Require Import ZArith List String Ascii Bool Lia.
From Stdlib Require Import Decimal DecimalString SpecFloat.
From stdpp Require Import gmap strings list.

Local Open Scope string_scope.
Local Open Scope list_scope.
Local Open Scope Z_scope.

(* ===================================================================== *)
(** * Exceptions *)
(* ===================================================================== *)

Inductive exn : Type :=
  | ValueError
  | TypeError
  | OverflowError
  | FileNotFoundError
  | FileExistsError
  | IsADirectoryError
  | NotADirectoryError
  | CsvError.

Inductive result (A : Type) : Type :=
  | Ok (a : A)
  | Raise (e : exn).

Arguments Ok {A} a.
Arguments Raise {A} e.

Definition rbind {A B} (r : result A) (k : A -> result B) : result B :=
  match r with
  | Ok a => k a
  | Raise e => Raise e
  end.

Definition is_ok {A} (r : result A) : bool :=
  match r with Ok _ => true | Raise _ => false end.

#[global] Instance result_ret : MRet result := fun A a => Ok a.
#[global] Instance result_bind : MBind result := fun A B k r => rbind r k.

(* ===================================================================== *)
(** * Characters and text helpers *)
(* ===================================================================== *)

Module Text.

Definition chr (n : nat) : ascii := ascii_of_nat n.
Definition code (c : ascii) : Z := Z.of_nat (nat_of_ascii c).

Definition LF : ascii := chr 10.
Definition CR : ascii := chr 13.
Definition ESC : ascii := chr 27.
Definition DQUOTE : ascii := chr 34.
Definition COMMA : ascii := chr 44.

Definition chars (s : string) : list ascii := list_ascii_of_string s.
Definition text (l : list ascii) : string := string_of_list_ascii l.

Definition nl : string := String LF EmptyString.
Definition crlf : string := String CR (String LF EmptyString).

Definition is_digit (c : ascii) : bool := (48 <=? code c) && (code c <=? 57).
Definition digit_val (c : ascii) : Z := code c - 48.

(** The white space [float()] strips from both ends of its argument, among
    the code points below 256. *)
Definition is_space (c : ascii) : bool :=
  let n := code c in
  ((9 <=? n) && (n <=? 13)) || (n =? 32) || (n =? 133) || (n =? 160).

(** ASCII lower-casing, as used by the case-insensitive [inf]/[nan] match. *)
Definition lower (c : ascii) : ascii :=
  if (65 <=? code c) && (code c <=? 90) then chr (nat_of_ascii c + 32) else c.

(** [s * n] for a string. *)
Fixpoint repeat_str (s : string) (n : nat) : string :=
  match n with
  | O => EmptyString
  | S n' => s +:+ repeat_str s n'
  end.

(** The format spec [:<w] : left-justify in a field of width [w]. *)
Definition ljust (w : nat) (s : string) : string :=
  s +:+ repeat_str " " (w - String.length s).

(** [sep.join(l)]. *)
Fixpoint join (sep : string) (l : list string) : string :=
  match l with
  | [] => EmptyString
  | [x] => x
  | x :: rest => x +:+ sep +:+ join sep rest
  end.

(** Decimal digits of a non-negative integer, and [str(int)]. *)
Definition digits_of_Z (z : Z) : string :=
  NilZero.string_of_uint (N.to_uint (Z.to_N z)).

Definition str_of_Z (z : Z) : string :=
  if z <? 0 then String "-" (digits_of_Z (- z)) else digits_of_Z z.

(** Number of decimal digits of a positive integer. *)
Definition ndigits (z : Z) : Z := Z.of_nat (String.length (digits_of_Z z)).

(** Zero-padding on the left, as in [%02d]. *)
Definition zfill (w : nat) (s : string) : string :=
  repeat_str "0" (w - String.length s) +:+ s.

Definition Z_of_digits (l : list ascii) : Z :=
  fold_left (fun acc c => 10 * acc + digit_val c) l 0.

End Text.
Import Text.

(* ===================================================================== *)
(** * Python floats: binary64 arithmetic, [float()], [int()], [repr],
      and the fixed-point format specifier *)
(* ===================================================================== *)

Module PyFloat.

Definition float : Type := spec_float.

Definition prec : Z := 53.
Definition emax : Z := 1024.

Definition fadd : float -> float -> float := SFadd prec emax.
Definition fsub : float -> float -> float := SFsub prec emax.
Definition fmul : float -> float -> float := SFmul prec emax.
Definition fdiv : float -> float -> float := SFdiv prec emax.
Definition fsqrt : float -> float := SFsqrt prec emax.
Definition flt : float -> float -> bool := SFltb.
Definition feq : float -> float -> bool := SFeqb.

Definition fzero : float := S754_zero false.

Definition is_finite (x : float) : bool :=
  match x with
  | S754_zero _ | S754_finite _ _ _ => true
  | S754_infinity _ | S754_nan => false
  end.

Definition is_nan (x : float) : bool :=
  match x with S754_nan => true | _ => false end.

(** Structural equality; on canonical values it is identity of the
    binary64 datum (so [+0.0] and [-0.0] differ, unlike [feq]). *)
Definition same (x y : float) : bool :=
  match x, y with
  | S754_zero a, S754_zero b => Bool.eqb a b
  | S754_infinity a, S754_infinity b => Bool.eqb a b
  | S754_nan, S754_nan => true
  | S754_finite a m e, S754_finite b m' e' =>
      Bool.eqb a b && (m =? m')%positive && (e =? e')
  | _, _ => false
  end.

(** [float(n)] for an integer [n] (correctly rounded; the integers the
    programs convert are list lengths and literal zeros). *)
Definition of_Z (z : Z) : float := binary_normalize prec emax z 0 false.

(** The binary64 value nearest to [(-1)^neg * m * 10^e] for [m >= 0], ties
    to even: what [strtod] computes from a decimal numeral with digits [m]
    and decimal exponent [e]. *)
Definition of_decimal (neg : bool) (m : Z) (e : Z) : float :=
  if m <=? 0 then S754_zero neg
  else if 0 <=? e then
    match m * 10 ^ e with
    | Zpos q => binary_round prec emax neg q 0
    | _ => S754_zero neg
    end
  else
    let '(q, e', l) := SFdiv_core_binary prec emax m 0 (10 ^ (- e)) 0 in
    binary_round_aux prec emax neg q e' l.

(** ** [float(s)] for a string *)

(** Underscores may only separate digits (PEP 515); they are removed
    before the numeral is scanned.  [prev] is the previous character. *)
Fixpoint strip_underscores (prev : option ascii) (l : list ascii)
  : option (list ascii) :=
  match l with
  | [] =>
      match prev with
      | Some c => if Ascii.eqb c "_" then None else Some []
      | None => Some []
      end
  | c :: rest =>
      let prev_digit := match prev with Some p => is_digit p | None => false end in
      let prev_us := match prev with Some p => Ascii.eqb p "_" | None => false end in
      if Ascii.eqb c "_" then
        if prev_digit then strip_underscores (Some c) rest else None
      else if prev_us && negb (is_digit c) then None
      else option_map (cons c) (strip_underscores (Some c) rest)
  end.

Fixpoint lstrip (l : list ascii) : list ascii :=
  match l with
  | c :: rest => if is_space c then lstrip rest else l
  | [] => []
  end.

(** [s.strip()], as [float()] applies it. *)
Definition strip (l : list ascii) : list ascii :=
  rev (lstrip (rev (lstrip l))).

(** Longest prefix of decimal digits, and the rest. *)
Fixpoint span_digits (l : list ascii) : list ascii * list ascii :=
  match l with
  | c :: rest =>
      if is_digit c then
        let '(ds, tl) := span_digits rest in (c :: ds, tl)
      else ([], l)
  | [] => ([], [])
  end.

(** Optional sign: [true] for a minus. *)
Definition take_sign (l : list ascii) : bool * list ascii :=
  match l with
  | c :: rest =>
      if Ascii.eqb c "-" then (true, rest)
      else if Ascii.eqb c "+" then (false, rest)
      else (false, l)
  | [] => (false, [])
  end.

(** The exponent part.  [Some e] when [l] is empty ([e = 0]) or is exactly
    [e]/[E], an optional sign and at least one digit; anything else leaves
    characters unconsumed, which [float()] rejects. *)
Definition parse_exponent (l : list ascii) : option Z :=
  match l with
  | [] => Some 0
  | c :: rest =>
      if Ascii.eqb (lower c) "e" then
        let '(neg, rest1) := take_sign rest in
        match span_digits rest1 with
        | (d :: ds, []) =>
            let v := Z_of_digits (d :: ds) in
            Some (if neg then - v else v)
        | _ => None
        end
      else None
  end.

(** A decimal numeral: digits with an optional point, at least one digit,
    then the exponent part. *)
Definition parse_numeral (neg : bool) (l : list ascii) : option float :=
  let '(ip, rest) := span_digits l in
  let '(fp, rest1) :=
    match rest with
    | c :: rest' => if Ascii.eqb c "." then span_digits rest' else ([], rest)
    | [] => ([], [])
    end in
  match ip ++ fp with
  | [] => None
  | ds =>
      match parse_exponent rest1 with
      | Some e => Some (of_decimal neg (Z_of_digits ds) (e - Z.of_nat (length fp)))
      | None => None
      end
  end.

(** [inf], [infinity] and [nan], in any letter case. *)
Definition parse_inf_nan (neg : bool) (l : list ascii) : option float :=
  let w := text (map lower l) in
  if String.eqb w "inf" || String.eqb w "infinity" then Some (S754_infinity neg)
  else if String.eqb w "nan" then Some S754_nan
  else None.

(** [float(s)]: [ValueError] on anything that is not a numeral. *)
Definition float_of_str (s : string) : result float :=
  match strip_underscores None (chars s) with
  | None => Raise ValueError
  | Some l =>
      let '(neg, body) := take_sign (strip l) in
      match parse_numeral neg body with
      | Some x => Ok x
      | None =>
          match parse_inf_nan neg body with
          | Some x => Ok x
          | None => Raise ValueError
          end
      end
  end.

(** ** [int(x)] for a float: truncation toward zero *)
Definition int_of_float (x : float) : result Z :=
  match x with
  | S754_nan => Raise ValueError
  | S754_infinity _ => Raise OverflowError
  | S754_zero _ => Ok 0
  | S754_finite s m e =>
      let a := if 0 <=? e then Zpos m * 2 ^ e else Zpos m / 2 ^ (- e) in
      Ok (if s then - a else a)
  end.

(** ** [x ** 2]: raises [OverflowError] when a finite operand overflows *)
Definition pow2 (x : float) : result float :=
  let y := fmul x x in
  if is_finite x && negb (is_finite y) then Raise OverflowError else Ok y.

(** ** [x ** 0.5], applied by the program to a variance only (a sum of
    squares divided by a count: never negative), where it is the square
    root and raises nothing. *)
Definition pow_half (x : float) : float := fsqrt x.

(** ** Decimal rendering *)

(** The exact value of a positive finite float, as a fraction. *)
Definition fraction (m : positive) (e : Z) : Z * Z :=
  if 0 <=? e then (Zpos m * 2 ^ e, 1) else (Zpos m, 2 ^ (- e)).

(** [n / d] rounded to the nearest integer, ties to even ([0 <= n], [0 < d]). *)
Definition round_half_even (n d : Z) : Z :=
  let q := n / d in
  match 2 * (n mod d) ?= d with
  | Lt => q
  | Gt => q + 1
  | Eq => if Z.even q then q else q + 1
  end.

Definition sign_str (s : bool) : string := if s then "-" else EmptyString.

(** The format specifier [.pf]: fixed notation with [p] decimals, the exact
    binary value rounded half-even. *)
Definition format_fixed (p : nat) (x : float) : string :=
  match x with
  | S754_nan => "nan"
  | S754_infinity s => sign_str s +:+ "inf"
  | _ =>
      let '(s, n, d) :=
        match x with
        | S754_finite s m e => let '(n, d) := fraction m e in (s, n, d)
        | S754_zero s => (s, 0, 1)
        | _ => (false, 0, 1)
        end in
      let ds := zfill (S p) (digits_of_Z (round_half_even (n * 10 ^ Z.of_nat p) d)) in
      let k := (String.length ds - p)%nat in
      sign_str s +:+ substring 0 k ds
        +:+ match p with O => EmptyString | _ => "." +:+ substring k p ds end
  end.

(** Position of the decimal point of [n / d > 0]: the [k] with
    [10^(k-1) <= n/d < 10^k]. *)
Definition decimal_point (n d : Z) : Z :=
  if d <=? n then ndigits (n / d)
  else 1 - ndigits ((d + n - 1) / n - 1).

(** The [p]-digit decimal that reads back as [x] (positive, finite, equal
    to [n/d], decimal point at [k]), if there is one; of two, the nearer. *)
Definition candidate (x : float) (n d k p : Z) : option Z :=
  let s := p - k in
  let '(N, D) := if 0 <=? s then (n * 10 ^ s, d) else (n, d * 10 ^ (- s)) in
  let lo := N / D in
  let reads_back c := same (of_decimal false c (- s)) x in
  if N mod D =? 0 then
    if reads_back lo then Some lo else None
  else
    match reads_back lo, reads_back (lo + 1) with
    | true, true => Some (round_half_even N D)
    | true, false => Some lo
    | false, true => Some (lo + 1)
    | false, false => None
    end.

(** Shortest digit string that reads back as [x]: tries 1, 2, ... digits
    (17 always suffice for binary64).  Returns the digits as an integer and
    the number of digits asked for. *)
Fixpoint shortest (fuel : nat) (x : float) (n d k p : Z) : Z * Z :=
  match fuel with
  | O => (round_half_even (n * 10 ^ (p - k)) d, p)
  | S fuel' =>
      match candidate x n d k p with
      | Some c => (c, p)
      | None => shortest fuel' x n d k (p + 1)
      end
  end.

Fixpoint drop_zeros (l : list ascii) : list ascii :=
  match l with
  | c :: rest => if Ascii.eqb c "0" then drop_zeros rest else l
  | [] => []
  end.

Definition strip_trailing_zeros (s : string) : string :=
  text (rev (drop_zeros (rev (chars s)))).

(** Layout of [repr]: digits [ds] with the decimal point after [decpt]
    digits; exponent notation when [decpt <= -4] or [decpt > 16]. *)
Definition repr_layout (ds : string) (decpt : Z) : string :=
  let n := String.length ds in
  if (decpt <=? -4) || (16 <? decpt) then
    let e := decpt - 1 in
    substring 0 1 ds
      +:+ (if (n =? 1)%nat then EmptyString else "." +:+ substring 1 (n - 1) ds)
      +:+ "e" +:+ (if e <? 0 then "-" else "+")
      +:+ zfill 2 (digits_of_Z (Z.abs e))
  else if decpt <=? 0 then
    "0." +:+ repeat_str "0" (Z.to_nat (- decpt)) +:+ ds
  else if decpt <? Z.of_nat n then
    substring 0 (Z.to_nat decpt) ds +:+ "."
      +:+ substring (Z.to_nat decpt) (n - Z.to_nat decpt) ds
  else ds +:+ repeat_str "0" (Z.to_nat (decpt - Z.of_nat n)) +:+ ".0".

(** [repr(x)], which is also [str(x)] and what [csv.writer] writes. *)
Definition repr (x : float) : string :=
  match x with
  | S754_nan => "nan"
  | S754_infinity s => sign_str s +:+ "inf"
  | S754_zero s => sign_str s +:+ "0.0"
  | S754_finite s m e =>
      let '(n, d) := fraction m e in
      let k := decimal_point n d in
      let '(c, p) := shortest 17 (S754_finite false m e) n d k 1 in
      sign_str s +:+ repr_layout (strip_trailing_zeros (digits_of_Z c))
                                 (ndigits c - (p - k))
  end.

End PyFloat.
Import PyFloat.

(* ===================================================================== *)
(** * The world: a file system and the console *)
(* ===================================================================== *)

Module World.

(** A path is its list of components below the working directory;
    [Path(d) / name] is [d ++ [name]], and [[]] is the working directory. *)
Definition path : Type := list string.

Definition path_str (p : path) : string :=
  match p with
  | [] => "."
  | _ => join "/" p
  end.

Inductive node : Type :=
  | File (content : string)
  | Dir.

Record world : Type := mkWorld {
  files : gmap path node;
  stdout : list string
}.

(** [io A]: a computation that changes the world and returns an [A] or
    raises.  The world reached when an exception is raised is kept: what
    was written or printed before stays. *)
Definition io (A : Type) : Type := world -> world * result A.

#[global] Instance io_ret : MRet io := fun A a w => (w, Ok a).
#[global] Instance io_bind : MBind io := fun A B k m w =>
  match m w with
  | (w', Ok a) => k a w'
  | (w', Raise e) => (w', Raise e)
  end.

Definition raise {A} (e : exn) : io A := fun w => (w, Raise e).
Definition lift {A} (r : result A) : io A := fun w => (w, r).

(** [try: body except Exception as e: handler e]. *)
Definition try_except {A} (body : io A) (handler : exn -> io A) : io A :=
  fun w =>
    match body w with
    | (w', Raise e) => handler e w'
    | r => r
    end.

Definition print (s : string) : io unit :=
  fun w => (mkWorld (files w) (stdout w ++ [s]), Ok tt).

(** ** Paths *)

Definition parent (p : path) : path := removelast p.

Definition lookup_node (fs : gmap path node) (p : path) : option node :=
  match p with
  | [] => Some Dir
  | _ => fs !! p
  end.

(** [Path.exists()]. *)
Definition path_exists (fs : gmap path node) (p : path) : bool :=
  match lookup_node fs p with Some _ => true | None => false end.

Definition exists_ (p : path) : io bool :=
  fun w => (w, Ok (path_exists (files w) p)).

(** [os.mkdir(p)]. *)
Definition os_mkdir (p : path) : io unit :=
  fun w =>
    match lookup_node (files w) p with
    | Some _ => (w, Raise FileExistsError)
    | None =>
        match lookup_node (files w) (parent p) with
        | Some Dir => (mkWorld (<[p := Dir]> (files w)) (stdout w), Ok tt)
        | Some (File _) => (w, Raise NotADirectoryError)
        | None => (w, Raise FileNotFoundError)
        end
    end.

(** [Path.mkdir(parents=True, exist_ok=True)], by recursion on the
    components from the last one: [rp] is the path reversed.  It tries
    [os.mkdir]; on [FileNotFoundError] it makes the parent first; any other
    [OSError] is swallowed exactly when the path is a directory. *)
Fixpoint mkdir_parents_rev (rp : list string) : io unit :=
  fun w =>
    let p := rev rp in
    match os_mkdir p w with
    | (w', Ok tt) => (w', Ok tt)
    | (w', Raise FileNotFoundError) =>
        match rp with
        | [] => (w', Raise FileNotFoundError)
        | _ :: rparent =>
            match mkdir_parents_rev rparent w' with
            | (w'', Ok tt) =>
                match os_mkdir p w'' with
                | (w3, Raise e) =>
                    match lookup_node (files w3) p with
                    | Some Dir => (w3, Ok tt)
                    | _ => (w3, Raise e)
                    end
                | r => r
                end
            | r => r
            end
        end
    | (w', Raise e) =>
        match lookup_node (files w') p with
        | Some Dir => (w', Ok tt)
        | _ => (w', Raise e)
        end
    end.

Definition mkdir_parents (p : path) : io unit := mkdir_parents_rev (rev p).

(** ** Files *)

(** Text mode with [newline=None]: on reading, [\r\n] and [\r] become [\n]. *)
Fixpoint universal_newlines (after_cr : bool) (l : list ascii) : list ascii :=
  match l with
  | [] => []
  | c :: rest =>
      if Ascii.eqb c CR then LF :: universal_newlines true rest
      else if Ascii.eqb c LF then
        if after_cr then universal_newlines false rest
        else LF :: universal_newlines false rest
      else c :: universal_newlines false rest
  end.

(** [open(p, 'r').read()]. *)
Definition read_text (p : path) : io string :=
  fun w =>
    match lookup_node (files w) p with
    | Some (File c) => (w, Ok (text (universal_newlines false (chars c))))
    | Some Dir => (w, Raise IsADirectoryError)
    | None => (w, Raise FileNotFoundError)
    end.

(** Opening [p] for writing: the file is created when its directory exists. *)
Definition open_for_write (fs : gmap path node) (p : path) : result string :=
  match lookup_node fs p with
  | Some (File c) => Ok c
  | Some Dir => Raise IsADirectoryError
  | None =>
      match lookup_node fs (parent p) with
      | Some Dir => Ok EmptyString
      | Some (File _) => Raise NotADirectoryError
      | None => Raise FileNotFoundError
      end
  end.

(** [with open(p, 'a') as f: f.write(s)] (line ends written as given). *)
Definition append_text (p : path) (s : string) : io unit :=
  fun w =>
    match open_for_write (files w) p with
    | Ok c => (mkWorld (<[p := File (c +:+ s)]> (files w)) (stdout w), Ok tt)
    | Raise e => (w, Raise e)
    end.

(** [with open(p, 'w') as f: f.write(s)]. *)
Definition write_text (p : path) (s : string) : io unit :=
  fun w =>
    match open_for_write (files w) p with
    | Ok _ => (mkWorld (<[p := File s]> (files w)) (stdout w), Ok tt)
    | Raise e => (w, Raise e)
    end.

End World.
Import World.

(* ===================================================================== *)
(** * The [csv] module, default ([excel]) dialect *)
(* ===================================================================== *)

Module Csv.

(** ** Writer *)

(** What a row holds before it is written. *)
Inductive pyval : Type :=
  | PStr (s : string)
  | PInt (z : Z)
  | PFloat (x : float)
  | PNone.

(** The text of a cell: [str(v)], and the empty string for [None]. *)
Definition py_str (v : pyval) : string :=
  match v with
  | PStr s => s
  | PInt z => str_of_Z z
  | PFloat x => repr x
  | PNone => EmptyString
  end.

Definition is_special (c : ascii) : bool :=
  Ascii.eqb c COMMA || Ascii.eqb c DQUOTE || Ascii.eqb c CR || Ascii.eqb c LF.

Definition needs_quote (s : string) : bool := existsb is_special (chars s).

Fixpoint double_quotes (l : list ascii) : list ascii :=
  match l with
  | [] => []
  | c :: rest =>
      if Ascii.eqb c DQUOTE then DQUOTE :: DQUOTE :: double_quotes rest
      else c :: double_quotes rest
  end.

(** [QUOTE_MINIMAL]: a field is quoted only when it holds a delimiter, a
    quote or a line end. *)
Definition quote_field (s : string) : string :=
  if needs_quote s then
    text (DQUOTE :: double_quotes (chars s) ++ [DQUOTE])
  else s.

(** [csv.writer(f).writerow(row)]: the line handed to [f.write]. *)
Definition writerow (row : list pyval) : string :=
  let body := join "," (map (fun v => quote_field (py_str v)) row) in
  match row, body with
  | _ :: _, EmptyString => text [DQUOTE; DQUOTE] +:+ crlf
  | _, _ => body +:+ crlf
  end.

(** ** Reader *)

Inductive pstate : Type :=
  | START_RECORD
  | START_FIELD
  | IN_FIELD
  | IN_QUOTED_FIELD
  | QUOTE_IN_QUOTED_FIELD
  | EAT_CRNL.

(** The parser: its state, the field being read (characters reversed) and
    the fields already saved (reversed). *)
Record parser : Type := mkParser {
  state : pstate;
  field : list ascii;
  fields : list string
}.

Definition parse_reset : parser := mkParser START_RECORD [] [].

Definition field_limit : Z := 131072.

Definition parse_add_char (p : parser) (st : pstate) (c : ascii) : result parser :=
  if field_limit <=? Z.of_nat (length (field p)) then Raise CsvError
  else Ok (mkParser st (c :: field p) (fields p)).

Definition parse_save_field (p : parser) (st : pstate) : parser :=
  mkParser st [] (text (rev (field p)) :: fields p).

Definition is_newline (c : ascii) : bool := Ascii.eqb c LF || Ascii.eqb c CR.

(** One step of the reader's automaton; [None] is the end-of-line event
    the reader raises after the last character of every line. *)
Definition parse_process_char (p : parser) (c : option ascii) : result parser :=
  let start_field (p : parser) : result parser :=
    match c with
    | None => Ok (parse_save_field p START_RECORD)
    | Some ch =>
        if is_newline ch then Ok (parse_save_field p EAT_CRNL)
        else if Ascii.eqb ch DQUOTE then Ok (mkParser IN_QUOTED_FIELD (field p) (fields p))
        else if Ascii.eqb ch COMMA then Ok (parse_save_field p START_FIELD)
        else parse_add_char p IN_FIELD ch
    end in
  match state p with
  | START_RECORD =>
      match c with
      | None => Ok p
      | Some ch =>
          if is_newline ch then Ok (mkParser EAT_CRNL (field p) (fields p))
          else start_field p
      end
  | START_FIELD => start_field p
  | IN_FIELD =>
      match c with
      | None => Ok (parse_save_field p START_RECORD)
      | Some ch =>
          if is_newline ch then Ok (parse_save_field p EAT_CRNL)
          else if Ascii.eqb ch COMMA then Ok (parse_save_field p START_FIELD)
          else parse_add_char p IN_FIELD ch
      end
  | IN_QUOTED_FIELD =>
      match c with
      | None => Ok p
      | Some ch =>
          if Ascii.eqb ch DQUOTE then Ok (mkParser QUOTE_IN_QUOTED_FIELD (field p) (fields p))
          else parse_add_char p IN_QUOTED_FIELD ch
      end
  | QUOTE_IN_QUOTED_FIELD =>
      match c with
      | None => Ok (parse_save_field p START_RECORD)
      | Some ch =>
          if Ascii.eqb ch DQUOTE then parse_add_char p IN_QUOTED_FIELD ch
          else if Ascii.eqb ch COMMA then Ok (parse_save_field p START_FIELD)
          else if is_newline ch then Ok (parse_save_field p EAT_CRNL)
          else parse_add_char p IN_FIELD ch
      end
  | EAT_CRNL =>
      match c with
      | None => Ok (mkParser START_RECORD (field p) (fields p))
      | Some ch => if is_newline ch then Ok p else Raise CsvError
      end
  end.

(** The characters of one line, then the end-of-line event. *)
Fixpoint parse_line (p : parser) (line : list ascii) : result parser :=
  match line with
  | [] => parse_process_char p None
  | c :: rest =>
      match parse_process_char p (Some c) with
      | Ok p' => parse_line p' rest
      | Raise e => Raise e
      end
  end.

(** Iterating over a text file: lines, each with its [\n]. *)
Fixpoint lines_from (cur : list ascii) (l : list ascii) : list (list ascii) :=
  match l with
  | [] => match cur with [] => [] | _ => [rev cur] end
  | c :: rest =>
      if Ascii.eqb c LF then rev (c :: cur) :: lines_from [] rest
      else lines_from (c :: cur) rest
  end.

Definition readlines (s : string) : list (list ascii) := lines_from [] (chars s).

Definition is_nil {A} (l : list A) : bool :=
  match l with [] => true | _ => false end.

Definition in_quoted (st : pstate) : bool :=
  match st with IN_QUOTED_FIELD => true | _ => false end.

(** [list(csv.reader(f))]: every record of the file.  A record ends with
    the line on which the automaton is back in [START_RECORD]; at the end
    of the input a record still open (inside a quoted field) is returned
    as it stands. *)
Fixpoint read_records (p : parser) (lines : list (list ascii))
  : result (list (list string)) :=
  match lines with
  | [] =>
      if negb (is_nil (field p)) || in_quoted (state p)
      then Ok [rev (fields (parse_save_field p (state p)))]
      else Ok []
  | line :: rest =>
      match parse_line p line with
      | Raise e => Raise e
      | Ok p' =>
          match state p' with
          | START_RECORD =>
              match read_records parse_reset rest with
              | Ok recs => Ok (rev (fields p') :: recs)
              | Raise e => Raise e
              end
          | _ => read_records p' rest
          end
      end
  end.

Definition reader (s : string) : result (list (list string)) :=
  read_records parse_reset (readlines s).

(** ** DictReader *)

(** A value of a row: a field of the file, [None] for a field the line is
    too short for, or the list of the surplus fields of a long line. *)
Inductive cell : Type :=
  | CStr (s : string)
  | CNone
  | CList (l : list string).

(** A row is a dict from column names to cells; the surplus fields of a
    long line sit under the key [None]. *)
Abbreviation row := (gmap (option string) cell).

(** [dict(zip(fieldnames, rec))]. *)
Fixpoint zip_insert (fieldnames rec : list string) (d : row) : row :=
  match fieldnames, rec with
  | k :: ks, v :: vs => zip_insert ks vs (<[Some k := CStr v]> d)
  | _, _ => d
  end.

Definition make_row (fieldnames rec : list string) : row :=
  let d := zip_insert fieldnames rec ∅ in
  let lf := length fieldnames in
  let lr := length rec in
  if (lf <? lr)%nat then <[None := CList (drop lf rec)]> d
  else if (lr <? lf)%nat then
    fold_left (fun d k => <[Some k := CNone]> d) (drop lr fieldnames) d
  else d.

(** [list(csv.DictReader(f))]: the first record names the columns, blank
    records are skipped. *)
Definition DictReader (s : string) : result (list row) :=
  match reader s with
  | Raise e => Raise e
  | Ok [] => Ok []
  | Ok (fieldnames :: recs) =>
      Ok (map (make_row fieldnames) (List.filter (fun r => negb (is_nil r)) recs))
  end.

End Csv.
Import Csv.

(* ===================================================================== *)
(** * Readings of the clock *)
(* ===================================================================== *)

Module Clock.

(** What [datetime.now()] returns. *)
Record datetime : Type := mkDatetime {
  year : nat; month : nat; day : nat;
  hour : nat; minute : nat; second : nat; microsecond : nat
}.

Definition pad (w n : nat) : string := zfill w (digits_of_Z (Z.of_nat n)).

Definition date_part (sep : string) (d : datetime) : string :=
  pad 4 (year d) +:+ sep +:+ pad 2 (month d) +:+ sep +:+ pad 2 (day d).

Definition time_part (sep : string) (d : datetime) : string :=
  pad 2 (hour d) +:+ sep +:+ pad 2 (minute d) +:+ sep +:+ pad 2 (second d).

(** [d.isoformat()]. *)
Definition isoformat (d : datetime) : string :=
  date_part "-" d +:+ "T" +:+ time_part ":" d
    +:+ match microsecond d with
        | O => EmptyString
        | us => "." +:+ pad 6 us
        end.

(** [d.strftime('%Y-%m-%d %H:%M:%S')]. *)
Definition strftime_human (d : datetime) : string :=
  date_part "-" d +:+ " " +:+ time_part ":" d.

(** [d.strftime('%Y%m%d_%H%M%S')]. *)
Definition strftime_compact (d : datetime) : string :=
  date_part EmptyString d +:+ "_" +:+ time_part EmptyString d.

End Clock.
Import Clock.

(* ===================================================================== *)
(** * training_logger.py : [TrainingLogger] *)
(* ===================================================================== *)

Module TrainingLogger.

Record logger : Type := mkLogger {
  output_dir : path;
  experiment_name : string;
  metrics_file : path;
  actions_file : path;
  events_file : path;
  config_file : path;
  metrics_buffer : list (list pyval);
  actions_buffer : list (list pyval);
  events_buffer : list string
}.

Definition metrics_columns : list string :=
  ["timestamp"; "round"; "client_id"; "mean_reward";
   "std_reward"; "episode_length"; "loss"; "global_reward"].

Definition actions_columns : list string :=
  ["timestamp"; "round"; "client_id";
   "skip_0"; "skip_1"; "skip_2"; "skip_3"; "skip_4";
   "bitrate_low"; "bitrate_med"; "bitrate_high"; "bitrate_auto";
   "prefetch_off"; "prefetch_short"; "prefetch_long"].

(** [_init_metrics_csv]: the header row, only when the file is not there. *)
Definition _init_metrics_csv (self : logger) : io unit :=
  present ← exists_ (metrics_file self);
  if present : bool then mret tt
  else write_text (metrics_file self) (writerow (map PStr metrics_columns)).

(** [_init_actions_csv]. *)
Definition _init_actions_csv (self : logger) : io unit :=
  present ← exists_ (actions_file self);
  if present : bool then mret tt
  else write_text (actions_file self) (writerow (map PStr actions_columns)).

(** [_log_event(message, level)]; [now] is the clock when it is called. *)
Definition _log_event (self : logger) (message level : string) (now : datetime)
  : io logger :=
  let timestamp := strftime_human now in
  let log_line := "[" +:+ timestamp +:+ "] [" +:+ level +:+ "] " +:+ message +:+ nl in
  _ ← append_text (events_file self) log_line;
  mret (mkLogger (output_dir self) (experiment_name self) (metrics_file self)
          (actions_file self) (events_file self) (config_file self)
          (metrics_buffer self) (actions_buffer self)
          (events_buffer self ++ [log_line])).

(** [TrainingLogger(output_dir, experiment_name)].  [now_name] is the clock
    read for the default experiment name, [now_event] the one read by the
    first event. *)
Definition __init__ (output_dir : path) (experiment_name : option string)
    (now_name now_event : datetime) : io logger :=
  _ ← mkdir_parents output_dir;
  let experiment_name :=
    match experiment_name with
    | None => strftime_compact now_name
    | Some n => n
    end in
  let self :=
    mkLogger output_dir experiment_name
      (output_dir ++ ["metrics.csv"]) (output_dir ++ ["actions.csv"])
      (output_dir ++ ["training_log.txt"]) (output_dir ++ ["config.json"])
      [] [] [] in
  _ ← _init_metrics_csv self;
  _ ← _init_actions_csv self;
  _log_event self "Logger initialized" "INFO" now_event.

(** The defaults of [log_round]'s optional parameters. *)
Definition default_std_reward : float := fzero.
Definition default_episode_length : Z := 0.
Definition default_loss : float := fzero.

(** The list [row] that [log_round] builds: a missing global reward is the
    empty string. *)
Definition round_row (timestamp : string) (round_num client_id : Z)
    (mean_reward std_reward : float) (episode_length : Z) (loss : float)
    (global_reward : option float) : list pyval :=
  [PStr timestamp; PInt round_num; PInt client_id; PFloat mean_reward;
   PFloat std_reward; PInt episode_length; PFloat loss;
   match global_reward with
   | Some g => PFloat g
   | None => PStr EmptyString
   end].

(** [log_round(round_num, client_id, mean_reward, std_reward,
    episode_length, loss, global_reward)]. *)
Definition log_round (self : logger) (round_num client_id : Z) (mean_reward : float)
    (std_reward : float) (episode_length : Z) (loss : float)
    (global_reward : option float) (now now_event : datetime) : io logger :=
  let timestamp := isoformat now in
  let row :=
    round_row timestamp round_num client_id mean_reward std_reward
      episode_length loss global_reward in
  _ ← append_text (metrics_file self) (writerow row);
  self' ← _log_event self
    ("Round " +:+ str_of_Z round_num +:+ " | Client " +:+ str_of_Z client_id
       +:+ " | Reward: " +:+ format_fixed 4 mean_reward
       +:+ " | Loss: " +:+ format_fixed 4 loss)
    "METRIC" now_event;
  mret (mkLogger (output_dir self') (experiment_name self') (metrics_file self')
          (actions_file self') (events_file self') (config_file self')
          (metrics_buffer self' ++ [row]) (actions_buffer self')
          (events_buffer self')).

(** [log_action_distribution(round_num, client_id, action_counts)]. *)
Definition log_action_distribution (self : logger) (round_num client_id : Z)
    (action_counts : list Z) (now : datetime) : io logger :=
  let timestamp := isoformat now in
  let action_counts :=
    if (length action_counts =? 12)%nat then action_counts
    else action_counts ++ replicate (12 - length action_counts) 0 in
  let row := [PStr timestamp; PInt round_num; PInt client_id] ++ map PInt action_counts in
  _ ← append_text (actions_file self) (writerow row);
  mret (mkLogger (output_dir self) (experiment_name self) (metrics_file self)
          (actions_file self) (events_file self) (config_file self)
          (metrics_buffer self) (actions_buffer self ++ [row])
          (events_buffer self)).

(** [log_episode(round_num, client_id, episode_num, total_reward, length)]:
    one line of the event log. *)
Definition log_episode (self : logger) (round_num client_id episode_num : Z)
    (total_reward : float) (length : Z) (now : datetime) : io logger :=
  _log_event self
    ("Round " +:+ str_of_Z round_num +:+ " | Client " +:+ str_of_Z client_id
       +:+ " | Episode " +:+ str_of_Z episode_num
       +:+ " | Reward: " +:+ format_fixed 4 total_reward
       +:+ " | Length: " +:+ str_of_Z length)
    "EPISODE" now.

(** [log_error(message, exception)]; of the exception only [str(exception)]
    is used, so it is given as that text. *)
Definition log_error (self : logger) (message : string) (exception : option string)
    (now : datetime) : io logger :=
  let error_msg :=
    match exception with
    | Some text_of_exception => message +:+ " | Exception: " +:+ text_of_exception
    | None => message
    end in
  _log_event self error_msg "ERROR" now.

(** [log_checkpoint(round_num, checkpoint_path)]. *)
Definition log_checkpoint (self : logger) (round_num : Z) (checkpoint_path : string)
    (now : datetime) : io logger :=
  _log_event self
    ("Round " +:+ str_of_Z round_num +:+ " | Checkpoint saved: " +:+ checkpoint_path)
    "CHECKPOINT" now.

(** [create_logger(output_dir, experiment_name)]. *)
Definition create_logger (output_dir : path) (experiment_name : option string)
    (now_name now_event : datetime) : io logger :=
  __init__ output_dir experiment_name now_name now_event.

End TrainingLogger.

(* ===================================================================== *)
(** * monitor_training.py : [TrainingMonitor] *)
(* ===================================================================== *)

Module TrainingMonitor.

Definition REFRESH_INTERVAL : Z := 2.

(** The agents, in the order in which every loop of the monitor visits them. *)
Definition AGENTS : list string := ["PPO"; "SAC"; "TD3"; "Random"].

Record monitor : Type := mkMonitor {
  results_dir : path;
  metric_files : gmap string path;
  summary_file : path;
  start_time : float;
  iteration : Z
}.

(** [TrainingMonitor(results_dir)]; [now] is what [time.time()] returns. *)
Definition __init__ (results_dir : path) (now : float) : io monitor :=
  present ← exists_ results_dir;
  _ ← (if present : bool then mret tt
       else
         _ ← print ("Warning: Results directory '" +:+ path_str results_dir
                      +:+ "' not found");
         _ ← print "Creating directory...";
         mkdir_parents results_dir);
  mret (mkMonitor results_dir
          (<["PPO" := results_dir ++ ["PPO_metrics.csv"]]>
             (<["SAC" := results_dir ++ ["SAC_metrics.csv"]]>
                (<["TD3" := results_dir ++ ["TD3_metrics.csv"]]>
                   (<["Random" := results_dir ++ ["Random_metrics.csv"]]> ∅))))
          (results_dir ++ ["summary.csv"])
          now 0).

(** [check_files_exist]. *)
Definition check_files_exist (self : monitor) : io (gmap string bool) :=
  fun w => (w, Ok (path_exists (files w) <$> metric_files self)).

(** The text of an exception in a message, cut down to its class. *)
Definition exn_text (e : exn) : string :=
  match e with
  | ValueError => "ValueError"
  | TypeError => "TypeError"
  | OverflowError => "OverflowError"
  | FileNotFoundError => "FileNotFoundError"
  | FileExistsError => "FileExistsError"
  | IsADirectoryError => "IsADirectoryError"
  | NotADirectoryError => "NotADirectoryError"
  | CsvError => "csv.Error"
  end.

(** [load_metrics(agent_name)]: the rows of the agent's file, or [None]. *)
Definition load_metrics (self : monitor) (agent_name : string)
  : io (option (list row)) :=
  match metric_files self !! agent_name with
  | None => mret None
  | Some filepath =>
      present ← exists_ filepath;
      if present : bool then
        try_except
          (content ← read_text filepath;
           data ← lift (DictReader content);
           if (0 <? length data)%nat then mret (Some data) else mret None)
          (fun e =>
             _ ← print ("Error loading " +:+ agent_name +:+ ": " +:+ exn_text e);
             mret None)
      else mret None
  end.

(** [load_summary]. *)
Definition load_summary (self : monitor) : io (option (list row)) :=
  present ← exists_ (summary_file self);
  if present : bool then
    try_except
      (content ← read_text (summary_file self);
       data ← lift (DictReader content);
       mret (Some data))
      (fun _ => mret None)
  else mret None.

(** [float(v)] for what a row can hold. *)
Definition float_of_cell (c : cell) : result float :=
  match c with
  | CStr s => float_of_str s
  | CNone | CList _ => Raise TypeError
  end.

(** [float(row.get(key, default))]. *)
Definition get_float (r : row) (key : string) (default : float) : result float :=
  match r !! Some key with
  | Some c => float_of_cell c
  | None => Ok default
  end.

Record latest_metrics : Type := mkLatest {
  round : Z;
  accuracy : float;
  reward : float
}.

(** [get_latest_metrics(data)]. *)
Definition get_latest_metrics (data : option (list row)) : result latest_metrics :=
  match data with
  | None => Ok (mkLatest 0 fzero fzero)
  | Some d =>
      match last d with
      | None => Ok (mkLatest 0 fzero fzero)
      | Some latest =>
          r ← get_float latest "round" (of_Z 0);
          round ← int_of_float r;
          accuracy ← get_float latest "accuracy" fzero;
          reward ← get_float latest "reward" fzero;
          mret (mkLatest round accuracy reward)
      end
  end.

Record statistics : Type := mkStats {
  mean : float;
  std : float;
  max : float;
  min : float
}.

Definition zero_stats : statistics := mkStats fzero fzero fzero fzero.

(** Truth value of a cell, as in [... and row[column]]. *)
Definition truthy (c : cell) : bool :=
  match c with
  | CStr EmptyString => false
  | CStr _ => true
  | CNone => false
  | CList l => negb (is_nil l)
  end.

(** The cells [row[column]] of the rows that pass
    [column in row and row[column]]. *)
Definition selected (data : list row) (column : string) : list cell :=
  omap (fun r : row =>
          match r !! Some column with
          | Some c => if truthy c then Some c else None
          | None => None
          end) data.

(** [sum(values)]: the integer zero, then the floats from left to right. *)
Definition py_sum (values : list float) : float := fold_left fadd values (of_Z 0).

(** [max(values)] and [min(values)]: the first element, replaced by every
    later one that compares strictly greater (smaller). *)
Definition py_max (values : list float) : float :=
  match values with
  | [] => fzero
  | x :: rest => fold_left (fun cur y => if flt cur y then y else cur) rest x
  end.

Definition py_min (values : list float) : float :=
  match values with
  | [] => fzero
  | x :: rest => fold_left (fun cur y => if flt y cur then y else cur) rest x
  end.

(** The body of the [try] block of [get_statistics]. *)
Definition statistics_body (data : list row) (column : string) : result statistics :=
  values ← mapM float_of_cell (selected data column);
  match values with
  | [] => Ok zero_stats
  | _ =>
      let n := of_Z (Z.of_nat (length values)) in
      let mean_val := fdiv (py_sum values) n in
      squares ← mapM (fun x => pow2 (fsub x mean_val)) values;
      let variance := fdiv (py_sum squares) n in
      let std_val := pow_half variance in
      mret (mkStats mean_val std_val (py_max values) (py_min values))
  end.

(** [get_statistics(data, column)]: any exception of the body is caught. *)
Definition get_statistics (data : option (list row)) (column : string) : statistics :=
  match data with
  | None | Some [] => zero_stats
  | Some d =>
      match statistics_body d column with
      | Ok s => s
      | Raise _ => zero_stats
      end
  end.

(** ** Rendering *)

Definition rule (c : string) : string := repeat_str c 90.

(** What [display_header] reads from the clock: the whole minutes and the
    remaining whole seconds of [time.time() - start_time], and
    [datetime.now()]. *)
Record clock_view : Type := mkClockView {
  elapsed_min : Z;
  elapsed_sec : Z;
  current_time : datetime
}.

(** [display_header]. *)
Definition display_header (self : monitor) (clk : clock_view) : io unit :=
  _ ← print (text [ESC] +:+ "[H" +:+ text [ESC] +:+ "[J");
  _ ← print (rule "=");
  _ ← print (repeat_str " " 20 +:+ "FEDERATED DRL TRAINING MONITOR");
  _ ← print (rule "=");
  _ ← print ("Results Directory: " +:+ path_str (results_dir self));
  _ ← print ("Monitor Runtime: " +:+ str_of_Z (elapsed_min clk) +:+ "m "
               +:+ str_of_Z (elapsed_sec clk) +:+ "s");
  _ ← print ("Current Time: " +:+ strftime_human (current_time clk));
  _ ← print ("Refresh Rate: " +:+ str_of_Z REFRESH_INTERVAL +:+ "s");
  print (rule "=").

(** The row of an agent without data. *)
Definition na_row (agent : string) : string :=
  ljust 10 agent +:+ " " +:+ ljust 8 "N/A" +:+ " " +:+ ljust 12 "N/A" +:+ " "
    +:+ ljust 12 "N/A" +:+ " " +:+ ljust 12 "N/A" +:+ " " +:+ ljust 15 "N/A".

(** The row of an agent with data. *)
Definition agent_row (agent : string) (latest : latest_metrics) (stats : statistics)
  : string :=
  ljust 10 agent +:+ " "
    +:+ ljust 8 (str_of_Z (round latest)) +:+ " "
    +:+ ljust 12 (format_fixed 4 (accuracy latest)) +:+ " "
    +:+ ljust 12 (format_fixed 4 (mean stats)) +:+ " "
    +:+ ljust 12 (format_fixed 4 (max stats)) +:+ " "
    +:+ ljust 15 (format_fixed 4 (reward latest)).

(** The dict [all_metrics], as the list of its items in insertion order. *)
Definition metrics_table : Type := list (string * (latest_metrics * statistics)).

(** [all_metrics[agent]['latest']['accuracy']]; the key is always one of
    the table's when the program evaluates it. *)
Definition latest_accuracy (all_metrics : metrics_table) (agent : string) : float :=
  match list_find (fun entry => fst entry = agent) all_metrics with
  | Some (_, entry) => accuracy (fst (snd entry))
  | None => fzero
  end.

(** [max(iterable, key=key)]: the first item, replaced by every later one
    whose key compares strictly greater. *)
Definition py_max_by {A} (key : A -> float) (l : list A) : option A :=
  match l with
  | [] => None
  | x :: rest =>
      Some (fold_left (fun cur y => if flt (key cur) (key y) then y else cur) rest x)
  end.

(** [max(all_metrics.keys(), key=lambda x: all_metrics[x]['latest']['accuracy'])],
    under the guard [if all_metrics]. *)
Definition best_agent (all_metrics : metrics_table) : option string :=
  py_max_by (latest_accuracy all_metrics) (map fst all_metrics).

(** One turn of the loop over the agents in [display_training_progress]. *)
Definition progress_step (self : monitor) (available : gmap string bool)
    (all_metrics : metrics_table) (agent : string) : io metrics_table :=
  if negb (default false (available !! agent)) then
    _ ← print (na_row agent);
    mret all_metrics
  else
    df ← load_metrics self agent;
    match df with
    | None | Some [] =>
        _ ← print (na_row agent);
        mret all_metrics
    | Some _ =>
        latest ← lift (get_latest_metrics df);
        let stats := get_statistics df "accuracy" in
        _ ← print (agent_row agent latest stats);
        mret (all_metrics ++ [(agent, (latest, stats))])
    end.

(** The loop itself: [all_metrics] after the agents of [agents]. *)
Fixpoint progress_loop (self : monitor) (available : gmap string bool)
    (all_metrics : metrics_table) (agents : list string) : io metrics_table :=
  match agents with
  | [] => mret all_metrics
  | agent :: rest =>
      all_metrics' ← progress_step self available all_metrics agent;
      progress_loop self available all_metrics' rest
  end.

(** [any(available.values())]. *)
Definition any_available (available : gmap string bool) : bool :=
  existsb (fun kv => snd kv) (map_to_list available).

(** [display_training_progress]. *)
Definition display_training_progress (self : monitor) : io unit :=
  _ ← print (nl +:+ "TRAINING PROGRESS");
  _ ← print (rule "-");
  available ← check_files_exist self;
  if negb (any_available available) then
    print "No training data found. Waiting for training to start..."
  else
    _ ← print (ljust 10 "Agent" +:+ " " +:+ ljust 8 "Round" +:+ " "
                 +:+ ljust 12 "Latest Acc" +:+ " " +:+ ljust 12 "Mean Acc" +:+ " "
                 +:+ ljust 12 "Best Acc" +:+ " " +:+ ljust 15 "Latest Reward");
    _ ← print (rule "-");
    all_metrics ← progress_loop self available [] AGENTS;
    match best_agent all_metrics with
    | None => mret tt
    | Some best =>
        _ ← print (nl +:+ rule "-");
        print ("Best Current Performance: " +:+ best +:+ " (Accuracy: "
                 +:+ format_fixed 4 (latest_accuracy all_metrics best) +:+ ")")
    end.

(** [row[key]] for a key known to be in the row, then [float(...)]. *)
Definition item_float (r : row) (key : string) : result float :=
  match r !! Some key with
  | Some c => float_of_cell c
  | None => Raise ValueError
  end.

(** One token [R{round}:{accuracy:.3f}] of the history line. *)
Definition history_token (r : row) : result string :=
  x ← item_float r "round";
  n ← int_of_float x;
  a ← item_float r "accuracy";
  mret ("R" +:+ str_of_Z n +:+ ":" +:+ format_fixed 3 a).

Definition has_key (r : row) (key : string) : bool :=
  match r !! Some key with Some _ => true | None => false end.

(** [data[-5:] if len(data) >= 5 else data]. *)
Definition last5 (data : list row) : list row :=
  if (5 <=? length data)%nat then drop (length data - 5) data else data.

(** One turn of the loop of [display_recent_history]. *)
Definition history_step (self : monitor) (agent : string) : io unit :=
  data ← load_metrics self agent;
  match data with
  | None | Some [] => print (ljust 10 agent +:+ " No data available")
  | Some d =>
      let recent := last5 d in
      match mapM history_token
              (List.filter (fun r => has_key r "round" && has_key r "accuracy") recent) with
      | Ok tokens => print (ljust 10 agent +:+ " " +:+ join ", " tokens)
      | Raise _ => print (ljust 10 agent +:+ " Data format error")
      end
  end.

Fixpoint for_each {A} (f : A -> io unit) (l : list A) : io unit :=
  match l with
  | [] => mret tt
  | x :: rest => _ ← f x; for_each f rest
  end.

(** [display_recent_history]. *)
Definition display_recent_history (self : monitor) : io unit :=
  _ ← print (nl +:+ rule "=");
  _ ← print "RECENT ACCURACY HISTORY (Last 5 Rounds)";
  _ ← print (rule "-");
  for_each (history_step self) AGENTS.

(** [f"{agent:<10}"] where [agent = row.get('agent', 'Unknown')]: a
    [None] has no such format. *)
Definition agent_label (r : row) : result string :=
  match r !! Some "agent" with
  | Some (CStr s) => Ok (ljust 10 s)
  | Some _ => Raise TypeError
  | None => Ok (ljust 10 "Unknown")
  end.

(** One line of the final summary. *)
Definition summary_line (r : row) : result string :=
  final_acc ← get_float r "final_accuracy" fzero;
  mean_acc ← get_float r "mean_accuracy" fzero;
  std_acc ← get_float r "std_accuracy" fzero;
  time_taken ← get_float r "training_time_seconds" fzero;
  label ← agent_label r;
  mret (label +:+ " Final: " +:+ format_fixed 4 final_acc
          +:+ " | Mean: " +:+ format_fixed 4 mean_acc
          +:+ " | Std: " +:+ format_fixed 4 std_acc
          +:+ " | Time: " +:+ format_fixed 1 time_taken +:+ "s").

(** [display_summary]. *)
Definition display_summary (self : monitor) : io unit :=
  summary_data ← load_summary self;
  match summary_data with
  | None | Some [] => mret tt
  | Some rows =>
      _ ← print (nl +:+ rule "=");
      _ ← print "FINAL SUMMARY STATISTICS";
      _ ← print (rule "-");
      for_each (fun r => line ← lift (summary_line r); print line) rows
  end.

(** The body of the loop of [run]: one display cycle, up to the sleep. *)
Definition display_cycle (self : monitor) (clk : clock_view) : io monitor :=
  let self := mkMonitor (results_dir self) (metric_files self) (summary_file self)
                (start_time self) (iteration self + 1) in
  _ ← display_header self clk;
  _ ← display_training_progress self;
  _ ← display_recent_history self;
  _ ← display_summary self;
  _ ← print (nl +:+ rule "=");
  _ ← print ("Refresh #" +:+ str_of_Z (iteration self) +:+ " | Press Ctrl+C to exit");
  _ ← print (rule "=");
  mret self.

(** The loop of [run], for as many cycles as there are clock readings. *)
Fixpoint run_loop (self : monitor) (clocks : list clock_view) : io monitor :=
  match clocks with
  | [] => mret self
  | clk :: rest =>
      self' ← display_cycle self clk;
      run_loop self' rest
  end.

(** [run], interrupted from the keyboard during the sleep that follows the
    last of the cycles of [clocks]; [total_runtime] is the whole number of
    seconds the monitor has run by then.  Only the interrupt is caught: any
    other exception leaves [run]. *)
Definition run (self : monitor) (clocks : list clock_view) (total_runtime : Z)
  : io monitor :=
  _ ← print "Starting training monitor...";
  _ ← print ("Monitoring: " +:+ path_str (results_dir self));
  _ ← print ("Press Ctrl+C to stop" +:+ nl);
  self' ← run_loop self clocks;
  _ ← print (nl +:+ nl +:+ "Monitoring stopped by user");
  _ ← print ("Total runtime: " +:+ str_of_Z total_runtime +:+ "s");
  _ ← print "Monitor terminated successfully";
  mret self'.


End TrainingMonitor.

(* ===================================================================== *)
(** * Vocabulary of the statements *)
(* ===================================================================== *)

Module Vocabulary.

Import TrainingLogger.

(** What [log_action_distribution] leaves behind when it has appended [row]:
    the line of [row] at the end of the actions file, [row] at the end of
    the buffer, nothing else touched. *)
Definition appended_action_row (self : logger) (w : world) (old : string)
    (row : list pyval) : world * result logger :=
  (mkWorld (<[actions_file self := File (old +:+ writerow row)]> (files w)) (stdout w),
   Ok (mkLogger (output_dir self) (experiment_name self) (metrics_file self)
         (actions_file self) (events_file self) (config_file self)
         (metrics_buffer self) (actions_buffer self ++ [row]) (events_buffer self))).

(** The rows [csv.DictReader] yields for a file with content [c], opened
    in text mode. *)
Definition data_rows (c : string) : result (list row) :=
  DictReader (text (universal_newlines false (chars c))).

(** A file that holds a header row and nothing else: the reader finds
    exactly one record in it. *)
Definition header_only (c : string) : Prop :=
  exists header : list string,
    reader (text (universal_newlines false (chars c))) = Ok [header].

Definition is_file (n : option node) : bool :=
  match n with Some (File _) => true | _ => false end.

(** Walking down from [done] through [rest], no regular file is met. *)
Fixpoint no_file_on_way (fs : gmap path node) (done : path) (rest : list string)
  : bool :=
  negb (is_file (lookup_node fs done))
  && match rest with
     | [] => true
     | x :: rest' => no_file_on_way fs (done ++ [x]) rest'
     end.

(** No component on the way to [p] (nor [p] itself) is a regular file: the
    directory [p] can be created. *)
Definition creatable (fs : gmap path node) (p : path) : bool :=
  no_file_on_way fs [] p.

(** The paths on which [creatable] forbids a regular file. *)
Definition no_file_prefix (fs : gmap path node) (p : path) : Prop :=
  forall (q : path) (c : string), q `prefix_of` p -> lookup_node fs q <> Some (File c).

(** What a successful [mkdir] leaves: the directory, and every other path
    as it was, except the missing ancestors, which are now directories. *)
Definition made (fs fs' : gmap path node) (p : path) : Prop :=
  lookup_node fs' p = Some Dir
  /\ forall q, lookup_node fs' q = lookup_node fs q
               \/ (q `prefix_of` p /\ lookup_node fs q = None
                   /\ lookup_node fs' q = Some Dir).

(** [x <= y] on floats. *)
Definition fle (x y : float) : bool := SFleb x y.

(** The place of a float in the order of [<]: the sign class first
    (infinities outermost), then exponent and mantissa; [nan] has none. *)
Definition rank (x : float) : option (Z * Z * Z) :=
  match x with
  | S754_nan => None
  | S754_infinity s => Some (if s then -3 else 3, 0, 0)
  | S754_zero _ => Some (0, 0, 0)
  | S754_finite false m e => Some (1, e, Zpos m)
  | S754_finite true m e => Some (-1, - e, Zneg m)
  end.

Definition rank_lt (r1 r2 : Z * Z * Z) : Prop :=
  let '(x1, y1, z1) := r1 in
  let '(x2, y2, z2) := r2 in
  x1 < x2 \/ (x1 = x2 /\ (y1 < y2 \/ (y1 = y2 /\ z1 < z2))).

(** [x] comes before [y] in the enumeration order of the agents. *)
Definition before (x y : string) : Prop :=
  exists i j : nat,
    TrainingMonitor.AGENTS !! i = Some x
    /\ TrainingMonitor.AGENTS !! j = Some y
    /\ (i < j)%nat.

(** The running maximum [cur] of a scan, found at index [i] of the items
    seen so far: none of them is greater, none before [i] is equal. *)
Definition running_max {A} (key : A -> float) (seen : list A) (cur : A) (i : nat)
  : Prop :=
  seen !! i = Some cur
  /\ (forall j y, seen !! j = Some y -> flt (key cur) (key y) = false)
  /\ (forall j y, seen !! j = Some y -> (j < i)%nat -> feq (key y) (key cur) = false).

(** ** The statistics of the specification *)

(** Left-to-right sum of floats. *)
Definition float_sum (values : list float) : float := fold_left fadd values fzero.

(** The count of the values, as a float. *)
Definition count (values : list float) : float := of_Z (Z.of_nat (length values)).

(** Arithmetic mean: the sum divided by the number of values. *)
Definition arithmetic_mean (values : list float) : float :=
  fdiv (float_sum values) (count values).

Definition squared_deviation (m x : float) : float := fmul (fsub x m) (fsub x m).

(** Population variance: the squared deviations from the mean, summed and
    divided by N (not by N-1). *)
Definition population_variance (values : list float) : float :=
  fdiv (float_sum (map (squared_deviation (arithmetic_mean values)) values))
       (count values).

(** Population standard deviation. *)
Definition population_std (values : list float) : float :=
  fsqrt (population_variance values).

(** The statistics the specification asks for: the all-zero defaults
    without values, else mean, population deviation, largest and smallest. *)
Definition spec_statistics (values : list float) : TrainingMonitor.statistics :=
  match values with
  | [] => TrainingMonitor.zero_stats
  | _ =>
      TrainingMonitor.mkStats (arithmetic_mean values) (population_std values)
        (TrainingMonitor.py_max values) (TrainingMonitor.py_min values)
  end.

(** A cell that [float()] does not accept. *)
Definition malformed (c : cell) : Prop :=
  is_ok (TrainingMonitor.float_of_cell c) = false.

(** A cell that [float()] accepts. *)
Definition numeric (c : cell) : Prop :=
  is_ok (TrainingMonitor.float_of_cell c) = true.

(** The valid values of a column: the floats of the fields that are
    present, not empty and numeric; the other rows are left out. *)
Definition valid_values (data : list row) (column : string) : list float :=
  omap (fun c => match TrainingMonitor.float_of_cell c with
                 | Ok x => Some x
                 | Raise _ => None
                 end)
       (TrainingMonitor.selected data column).

(** ** Files as the logger writes them *)

(** A text without delimiter, quote or line end: the writer leaves it
    unquoted. *)
Definition plain_chars (l : list ascii) : Prop := Forall (fun c => is_special c = false) l.
Definition plain (s : string) : Prop := plain_chars (chars s).

(** The line of a record of plain fields. *)
Definition line_of (fields : list string) : string := join "," fields +:+ crlf.

(** The file made of the lines of some records. *)
Definition file_of (records : list (list string)) : string :=
  fold_right (fun fields rest => line_of fields +:+ rest) EmptyString records.

(** A field the reader takes whole: plain, and within the field size limit. *)
Definition readable_field (f : string) : Prop :=
  plain f /\ Z.of_nat (String.length f) <= field_limit.

(** A record of at least two readable fields. *)
Definition readable_record (fields : list string) : Prop :=
  (2 <= length fields)%nat /\ Forall readable_field fields.

(** Every cell of a row fits in a field of the reader. *)
Definition cells_fit (row : list pyval) : bool :=
  forallb (fun v => Z.of_nat (String.length (py_str v)) <=? field_limit) row.

End Vocabulary.
Import Vocabulary.

(* ===================================================================== *)
(** * Scenarios *)
(* ===================================================================== *)

Module Scenario.

Import TrainingLogger.

(** An empty working directory and a silent console. *)
Definition empty_world : world := mkWorld ∅ [].

Definition t0 : datetime := mkDatetime 2026 11 4 9 5 7 123.
Definition t1 : datetime := mkDatetime 2026 11 4 9 5 8 0.

(** The float a literal denotes. *)
Definition lit (s : string) : float :=
  match float_of_str s with
  | Ok x => x
  | Raise _ => S754_nan
  end.

(** A logger just constructed on [drl_outputs], and the world it leaves. *)
Definition fresh : world * result logger :=
  __init__ ["drl_outputs"] (Some "exp") t0 t0 empty_world.

Definition fresh_world : world := fst fresh.

Definition fresh_logger : logger :=
  match snd fresh with
  | Ok l => l
  | Raise _ => mkLogger [] EmptyString [] [] [] [] [] [] []
  end.

(** The two calls of the specification's scenario, on a fresh log. *)
Definition two_rounds : io logger :=
  l ← __init__ ["drl_outputs"] (Some "exp") t0 t0;
  l ← log_round l 1 0 (lit "0.42") default_std_reward default_episode_length
        (lit "0.05") None t0 t0;
  log_round l 2 0 (lit "0.55") default_std_reward default_episode_length
    (lit "0.03") None t1 t1.

(** The rows read back from the metrics file the scenario leaves. *)
Definition two_rounds_rows : option (list row) :=
  match files (fst (two_rounds empty_world)) !! ["drl_outputs"; "metrics.csv"] with
  | Some (File c) =>
      match data_rows c with
      | Ok rows => Some rows
      | Raise _ => None
      end
  | _ => None
  end.

(** A results directory in which the file of PPO holds [content]. *)
Definition results_with_ppo (content : string) : world :=
  mkWorld (<[ ["results"; "PPO_metrics.csv"] := File content ]>
             (<[ ["results"] := Dir ]> ∅)) [].

(** The monitor on [results]. *)
Definition the_monitor : TrainingMonitor.monitor :=
  TrainingMonitor.mkMonitor ["results"]
    (<["PPO" := ["results"; "PPO_metrics.csv"]]>
       (<["SAC" := ["results"; "SAC_metrics.csv"]]>
          (<["TD3" := ["results"; "TD3_metrics.csv"]]>
             (<["Random" := ["results"; "Random_metrics.csv"]]> ∅))))
    ["results"; "summary.csv"] fzero 0.

(** Rows with one column. *)
Definition one_column (column : string) (values : list string) : list row :=
  map (fun v => make_row [column] [v]) values.


Definition header_line : string := "round,accuracy,reward" +:+ nl.

(** A metrics file whose only data row has an accuracy that is no number. *)
Definition malformed_accuracy : string := header_line +:+ "1,n/a,0.1" +:+ nl.

Definition a_clock : TrainingMonitor.clock_view :=
  TrainingMonitor.mkClockView 1 5 t0.

End Scenario.


(* ===================================================================== *)
(** * Vocabulary of the further properties *)
(* ===================================================================== *)

Module Behaviour.

Import TrainingLogger.

(** Every path that is there in [fs] is there in [fs'], and holds the same. *)
Definition kept (fs fs' : gmap path node) : Prop :=
  forall (q : path) (n : node), lookup_node fs q = Some n -> lookup_node fs' q = Some n.

(** ** A session of the logger *)

(** The arguments of one call of [log_round], with the two readings of the
    clock it makes. *)
Record round_call : Type := mkRoundCall {
  call_round_num : Z;
  call_client_id : Z;
  call_mean_reward : float;
  call_std_reward : float;
  call_episode_length : Z;
  call_loss : float;
  call_global_reward : option float;
  call_now : datetime;
  call_now_event : datetime
}.

(** The row such a call builds. *)
Definition call_row (c : round_call) : list pyval :=
  round_row (isoformat (call_now c)) (call_round_num c) (call_client_id c)
    (call_mean_reward c) (call_std_reward c) (call_episode_length c) (call_loss c)
    (call_global_reward c).

(** [log_round] called once for each of [calls], in order, each time on
    the logger the call before has left. *)
Fixpoint log_rounds (self : logger) (calls : list round_call) : io logger :=
  match calls with
  | [] => mret self
  | c :: rest =>
      self' ← log_round self (call_round_num c) (call_client_id c)
                (call_mean_reward c) (call_std_reward c) (call_episode_length c)
                (call_loss c) (call_global_reward c) (call_now c) (call_now_event c);
      log_rounds self' rest
  end.

(** The row [log_action_distribution] builds. *)
Definition action_row (now : datetime) (round_num client_id : Z)
    (action_counts : list Z) : list pyval :=
  [PStr (isoformat now); PInt round_num; PInt client_id]
    ++ map PInt (if (length action_counts =? 12)%nat then action_counts
                 else action_counts ++ replicate (12 - length action_counts) 0).

(** What an operation that only logs an event leaves, in [r], when it is
    run by [self] in [w]: every file but the event log as it was, nothing
    printed; and when it succeeds, the two other buffers as they were and
    one line more both in the event log and in the event buffer, the same
    in both. *)
Definition only_event_log (self : logger) (w : world) (r : world * result logger)
  : Prop :=
  (forall q : path, q <> events_file self ->
     lookup_node (files (fst r)) q = lookup_node (files w) q)
  /\ stdout (fst r) = stdout w
  /\ forall self' : logger, snd r = Ok self' ->
       metrics_buffer self' = metrics_buffer self
       /\ actions_buffer self' = actions_buffer self
       /\ exists line old : string,
            events_buffer self' = events_buffer self ++ [line]
            /\ open_for_write (files w) (events_file self) = Ok old
            /\ lookup_node (files (fst r)) (events_file self)
               = Some (File (old +:+ line)).

(** ** What the monitor reads *)

(** A computation that only reads the files: it leaves them as they are,
    and what it returns or raises depends on nothing else in the world. *)
Definition reads_only {A} (m : io A) : Prop :=
  (forall w : world, files (fst (m w)) = files w)
  /\ (forall w1 w2 : world, files w1 = files w2 -> snd (m w1) = snd (m w2)).


(** The rows of an agent in the files [fs]: those of its metrics file when
    it is a readable table with at least one row. *)
Definition stored_rows (self : TrainingMonitor.monitor) (agent_name : string)
    (fs : gmap path node) : option (list row) :=
  match TrainingMonitor.metric_files self !! agent_name with
  | None => None
  | Some filepath =>
      match lookup_node fs filepath with
      | Some (File c) =>
          match data_rows c with
          | Ok (r :: data) => Some (r :: data)
          | _ => None
          end
      | _ => None
      end
  end.

(** The rows of the summary file in [fs], none when it cannot be read. *)
Definition summary_rows (self : TrainingMonitor.monitor) (fs : gmap path node)
  : list row :=
  match lookup_node fs (TrainingMonitor.summary_file self) with
  | Some (File c) =>
      match data_rows c with
      | Ok rows => rows
      | Raise _ => []
      end
  | _ => []
  end.

(** The latest metrics of the agent can be extracted: it has no rows, or
    the fields of its last row are numbers. *)
Definition latest_readable (self : TrainingMonitor.monitor) (fs : gmap path node)
    (agent_name : string) : bool :=
  is_ok (TrainingMonitor.get_latest_metrics (stored_rows self agent_name fs)).

(** Every row of the summary can be rendered. *)
Definition summary_readable (self : TrainingMonitor.monitor) (fs : gmap path node)
  : bool :=
  forallb (fun r => is_ok (TrainingMonitor.summary_line r)) (summary_rows self fs).

(** What decides whether a display cycle runs to its end: the latest
    metrics of every agent can be extracted and every row of the summary
    can be rendered. *)
Definition cycle_completes (self : TrainingMonitor.monitor) (fs : gmap path node)
  : bool :=
  forallb (latest_readable self fs) TrainingMonitor.AGENTS && summary_readable self fs.

(** The agent has at least one row in its file. *)
Definition has_rows (self : TrainingMonitor.monitor) (fs : gmap path node)
    (agent_name : string) : bool :=
  match stored_rows self agent_name fs with
  | Some _ => true
  | None => false
  end.

(** A row without a value in the column: no such key, or an empty cell. *)
Definition blank (r : row) (column : string) : Prop :=
  match r !! Some column with
  | Some c => TrainingMonitor.truthy c = false
  | None => True
  end.

End Behaviour.
Import Behaviour.

(* ===================================================================== *)
(** * Further scenarios *)
(* ===================================================================== *)

Module Examples.

Import TrainingLogger.

(** A working directory in which [drl_outputs] is a regular file. *)
Definition blocked_world : world :=
  mkWorld (<[ ["drl_outputs"] := File "not a directory" ]> ∅) [].

(** Two rounds, the second with a global reward. *)
Definition first_call : round_call :=
  mkRoundCall 1 0 (Scenario.lit "0.42") default_std_reward default_episode_length
    (Scenario.lit "0.05") None Scenario.t0 Scenario.t0.

Definition second_call : round_call :=
  mkRoundCall 2 1 (Scenario.lit "0.55") (Scenario.lit "0.1") 120
    (Scenario.lit "0.03") (Some (Scenario.lit "0.5")) Scenario.t1 Scenario.t1.

(** The world of the fresh logger, but with a directory where its event
    log should be. *)
Definition event_log_is_directory : world :=
  mkWorld (<[ ["drl_outputs"; "training_log.txt"] := Dir ]> (files Scenario.fresh_world))
    [].

Definition twelve_counts : list Z := [5; 0; 2; 7; 1; 0; 3; 9; 4; 4; 6; 8].

Definition fourteen_counts : list Z := [5; 0; 2; 7; 1; 0; 3; 9; 4; 4; 6; 8; 11; 13].

(** A results directory without any file. *)
Definition empty_results : world := mkWorld (<[ ["results"] := Dir ]> ∅) [].

End Examples.
(* ===================================================================== *)
(** * Properties of the logger *)
(* ===================================================================== *)

Section LoggerActions.

Import TrainingLogger.

Variables (self : logger) (round_num client_id : Z) (now : datetime).

Lemma log_action_distribution_appends (action_counts : list Z) (w : world) (old : string) :
  open_for_write (files w) (actions_file self) = Ok old ->
  log_action_distribution self round_num client_id action_counts now w
  = appended_action_row self w old
      ([PStr (isoformat now); PInt round_num; PInt client_id]
         ++ map PInt (if (length action_counts =? 12)%nat then action_counts
                      else action_counts ++ replicate (12 - length action_counts) 0)).
Proof.
  intros Hopen.
  unfold log_action_distribution, appended_action_row, append_text.
  unfold mbind, io_bind, mret, io_ret.
  now rewrite Hopen.
Qed.

(** C7. A sequence of fewer than 12 action counts is padded with zeros on
    the right: the appended row is the timestamp, the round and the client
    followed by exactly 12 action entries, the input and then zeros. *)
Theorem log_action_distribution_pads_short
    (action_counts : list Z) (w : world) (old : string) :
  (length action_counts < 12)%nat ->
  open_for_write (files w) (actions_file self) = Ok old ->
  exists row : list pyval,
    log_action_distribution self round_num client_id action_counts now w
    = appended_action_row self w old row
    /\ take 3 row = [PStr (isoformat now); PInt round_num; PInt client_id]
    /\ drop 3 row
       = map PInt (action_counts ++ replicate (12 - length action_counts) 0)
    /\ length (drop 3 row) = 12%nat.
Proof.
  intros Hlen Hopen.
  eexists. split; [apply log_action_distribution_appends, Hopen|].
  assert (Hne : (length action_counts =? 12)%nat = false)
    by (apply Nat.eqb_neq; lia).
  rewrite Hne. simpl. rewrite drop_0.
  repeat split.
  rewrite length_map, length_app, length_replicate. lia.
Qed.

End LoggerActions.

(** The 8-element input of the specification, on a fresh logger. *)
Lemma log_action_distribution_pads_short_witness :
  (length [5; 0; 2; 7; 1; 0; 3; 9] < 12)%nat
  /\ open_for_write (files Scenario.fresh_world)
       (TrainingLogger.actions_file Scenario.fresh_logger)
     = Ok (writerow (map PStr TrainingLogger.actions_columns))
  /\ exists row : list pyval,
       TrainingLogger.log_action_distribution Scenario.fresh_logger 3 1
         [5; 0; 2; 7; 1; 0; 3; 9] Scenario.t1 Scenario.fresh_world
       = appended_action_row Scenario.fresh_logger Scenario.fresh_world
           (writerow (map PStr TrainingLogger.actions_columns)) row
       /\ take 3 row = [PStr (isoformat Scenario.t1); PInt 3; PInt 1]
       /\ drop 3 row
          = map PInt ([5; 0; 2; 7; 1; 0; 3; 9]
                        ++ replicate (12 - length [5; 0; 2; 7; 1; 0; 3; 9]) 0)
       /\ length (drop 3 row) = 12%nat.
Proof.
  split; [simpl; lia|].
  split; [vm_compute; reflexivity|].
  apply (log_action_distribution_pads_short Scenario.fresh_logger 3 1 Scenario.t1);
    [simpl; lia | vm_compute; reflexivity].
Defined.

(** The same call, seen from the file: the stored row has the three leading
    columns and twelve action entries, the last four of them zero. *)
Lemma stored_action_row_of_eight :
  match files (fst (TrainingLogger.log_action_distribution Scenario.fresh_logger 3 1
                      [5; 0; 2; 7; 1; 0; 3; 9] Scenario.t1 Scenario.fresh_world))
          !! ["drl_outputs"; "actions.csv"] with
  | Some (File c) =>
      reader (text (universal_newlines false (chars c)))
      = Ok [TrainingLogger.actions_columns;
            ["2026-11-04T09:05:08"; "3"; "1";
             "5"; "0"; "2"; "7"; "1"; "0"; "3"; "9"; "0"; "0"; "0"; "0"]]
  | _ => False
  end.
Proof. vm_compute. reflexivity. Qed.

(** Unfolding of the monadic plumbing. *)
Ltac io_unfold :=
  unfold mbind, io_bind, result_bind, rbind, mret, io_ret, result_ret, lift,
    try_except, exists_, print, raise in *.

Section LoggerOversized.

Import TrainingLogger.

Variables (self : logger) (round_num client_id : Z) (now : datetime).

(** C2, as the code has it. A sequence of more than 12 action counts is not
    rejected: the call returns normally and has appended exactly one row to
    the actions file and to the buffer. *)
Theorem log_action_distribution_accepts_long
    (action_counts : list Z) (w : world) (old : string) :
  (12 < length action_counts)%nat ->
  open_for_write (files w) (actions_file self) = Ok old ->
  exists row : list pyval,
    log_action_distribution self round_num client_id action_counts now w
    = appended_action_row self w old row.
Proof.
  intros _ Hopen. eexists. apply log_action_distribution_appends, Hopen.
Qed.

End LoggerOversized.

Lemma log_action_distribution_accepts_long_witness :
  (12 < length [1; 2; 3; 4; 5; 6; 7; 8; 9; 10; 11; 12; 13])%nat
  /\ open_for_write (files Scenario.fresh_world)
       (TrainingLogger.actions_file Scenario.fresh_logger)
     = Ok (writerow (map PStr TrainingLogger.actions_columns))
  /\ exists row : list pyval,
       TrainingLogger.log_action_distribution Scenario.fresh_logger 3 1
         [1; 2; 3; 4; 5; 6; 7; 8; 9; 10; 11; 12; 13] Scenario.t1 Scenario.fresh_world
       = appended_action_row Scenario.fresh_logger Scenario.fresh_world
           (writerow (map PStr TrainingLogger.actions_columns)) row.
Proof.
  split; [simpl; lia|].
  split; [vm_compute; reflexivity|].
  apply (log_action_distribution_accepts_long Scenario.fresh_logger 3 1 Scenario.t1);
    [simpl; lia | vm_compute; reflexivity].
Defined.

(** C2 fails as stated: with 13 counts on a fresh logger the call raises
    nothing, the buffer has one more row and the actions file one more
    line. *)
Lemma log_action_distribution_long_not_rejected :
  let '(w', r) :=
    TrainingLogger.log_action_distribution Scenario.fresh_logger 3 1
      [1; 2; 3; 4; 5; 6; 7; 8; 9; 10; 11; 12; 13] Scenario.t1 Scenario.fresh_world in
  (exists l', r = Ok l'
              /\ length (TrainingLogger.actions_buffer l')
                 = S (length (TrainingLogger.actions_buffer Scenario.fresh_logger)))
  /\ files w' !! ["drl_outputs"; "actions.csv"]
     <> files Scenario.fresh_world !! ["drl_outputs"; "actions.csv"].
Proof.
  vm_compute. split; [eexists; split; reflexivity | discriminate].
Qed.

(* ===================================================================== *)
(** * Creating the results directory *)
(* ===================================================================== *)

Section Mkdir.

Implicit Types (fs : gmap path node) (p q : path) (w : world).

Lemma lookup_node_insert_dir fs p q :
  p <> [] ->
  lookup_node (<[p := Dir]> fs) q
  = if decide (p = q) then Some Dir else lookup_node fs q.
Proof.
  intros Hp. unfold lookup_node. destruct q as [|x q'].
  - destruct (decide (p = [])); [contradiction | reflexivity].
  - rewrite lookup_insert. destruct (decide (p = x :: q')); reflexivity.
Qed.

Lemma parent_snoc p (x : string) : parent (p ++ [x]) = p.
Proof. unfold parent. apply removelast_last. Qed.

Lemma no_file_on_way_prefix fs (rest : list string) : forall done q c,
  no_file_on_way fs done rest = true ->
  done `prefix_of` q -> q `prefix_of` done ++ rest ->
  lookup_node fs q <> Some (File c).
Proof.
  induction rest as [|x rest IH]; intros done q c Hway Hdq Hq; simpl in Hway;
    apply andb_true_iff in Hway as [Hhere Hway].
  - rewrite app_nil_r in Hq.
    assert (q = done) as -> by (apply (anti_symm prefix); assumption).
    intros Hf. rewrite Hf in Hhere. discriminate.
  - destruct Hdq as [k ->]. destruct k as [|y k].
    + rewrite app_nil_r. intros Hf. rewrite Hf in Hhere. discriminate.
    + apply prefix_app_inv in Hq.
      pose proof (prefix_cons_inv_1 _ _ _ _ Hq) as ->.
      apply prefix_cons_inv_2 in Hq.
      replace (done ++ x :: k) with ((done ++ [x]) ++ k)
        by (now rewrite <- app_assoc).
      apply (IH (done ++ [x])); [assumption | |].
      * now apply prefix_app_r.
      * now apply prefix_app.
Qed.

Lemma creatable_no_file_prefix fs p : creatable fs p = true -> no_file_prefix fs p.
Proof.
  intros Hc q c Hq. apply (no_file_on_way_prefix fs p [] q c); auto using prefix_nil.
Qed.

Lemma no_file_prefix_mono fs p q :
  q `prefix_of` p -> no_file_prefix fs p -> no_file_prefix fs q.
Proof.
  intros Hqp Hc r c Hr. apply Hc. etransitivity; eassumption.
Qed.

Lemma mkdir_parents_rev_ok (rp : list string) : forall w,
  no_file_prefix (files w) (rev rp) ->
  exists fs', mkdir_parents_rev rp w = (mkWorld fs' (stdout w), Ok tt)
              /\ made (files w) fs' (rev rp).
Proof.
  induction rp as [|name rparent IH]; intros [fs out] Hc; simpl in *.
  - exists fs. split; [reflexivity|]. split; [reflexivity|]. intros q. now left.
  - set (p := rev rparent ++ [name]) in *.
    assert (Hp : p <> []) by (unfold p; destruct (rev rparent); discriminate).
    unfold os_mkdir at 1. simpl.
    destruct (lookup_node fs p) as [[c|]|] eqn:Hlook.
    + exfalso. now apply (Hc p c).
    + simpl. rewrite Hlook. exists fs. split; [reflexivity|].
      split; [assumption|]. intros q. now left.
    + unfold p at 1. rewrite parent_snoc.
      assert (Hpre : rev rparent `prefix_of` p) by (unfold p; now apply prefix_app_r).
      destruct (lookup_node fs (rev rparent)) as [[c|]|] eqn:Hpar.
      * exfalso. now apply (Hc (rev rparent) c).
      * exists (<[p := Dir]> fs). split; [reflexivity|]. split.
        -- rewrite lookup_node_insert_dir by assumption. now rewrite decide_True.
        -- intros q. rewrite lookup_node_insert_dir by assumption.
           case_decide as Hq; [right | now left].
           subst q. repeat split; [reflexivity | assumption].
      * destruct (IH (mkWorld fs out)) as (fs1 & Hrun & Hdir & Hframe).
        { simpl. eapply no_file_prefix_mono; eassumption. }
        rewrite Hrun. simpl in *.
        assert (Hlook1 : lookup_node fs1 p = None).
        { destruct (Hframe p) as [-> | (Hpp & _)]; [assumption|].
          exfalso. apply prefix_length in Hpp. unfold p in Hpp.
          rewrite length_app in Hpp. simpl in Hpp. lia. }
        unfold os_mkdir. simpl. rewrite Hlook1.
        unfold p at 1. rewrite parent_snoc, Hdir.
        exists (<[p := Dir]> fs1). split; [reflexivity|]. split.
        -- rewrite lookup_node_insert_dir by assumption. now rewrite decide_True.
        -- intros q. rewrite lookup_node_insert_dir by assumption.
           case_decide as Hq.
           ++ subst q. right. repeat split; [reflexivity | assumption].
           ++ destruct (Hframe q) as [-> | (Hqp & Hnone & Hd)]; [now left | right].
              repeat split; try assumption. etransitivity; eassumption.
Qed.

Lemma mkdir_parents_ok p w :
  creatable (files w) p = true ->
  exists fs', mkdir_parents p w = (mkWorld fs' (stdout w), Ok tt)
              /\ made (files w) fs' p.
Proof.
  intros Hc%creatable_no_file_prefix. unfold mkdir_parents.
  destruct (mkdir_parents_rev_ok (rev p) w) as (fs' & Hrun & Hmade).
  - now rewrite rev_involutive.
  - rewrite rev_involutive in Hmade. eauto.
Qed.

End Mkdir.



(** When the directory is there already, construction touches nothing. *)
Lemma monitor_init_existing_directory (results_dir : path) (now : float) (w : world) :
  path_exists (files w) results_dir = true ->
  exists m : TrainingMonitor.monitor,
    TrainingMonitor.__init__ results_dir now w = (w, Ok m)
    /\ TrainingMonitor.results_dir m = results_dir.
Proof.
  intros Hthere. unfold TrainingMonitor.__init__. io_unfold. rewrite Hthere.
  eexists. split; reflexivity.
Qed.

(* ===================================================================== *)
(** * Loading the rows of an agent *)
(* ===================================================================== *)

Section LoadMetrics.

Import TrainingMonitor.

Variables (self : monitor) (agent_name : string).

Lemma header_only_no_rows (c : string) : header_only c -> data_rows c = Ok [].
Proof.
  intros [header Hrd]. unfold data_rows, DictReader. now rewrite Hrd.
Qed.

Lemma load_metrics_missing (w : world) (filepath : path) :
  metric_files self !! agent_name = Some filepath ->
  path_exists (files w) filepath = false ->
  load_metrics self agent_name w = (w, Ok None).
Proof.
  intros Hfile Hmissing. unfold load_metrics. rewrite Hfile.
  io_unfold. now rewrite Hmissing.
Qed.

Lemma load_metrics_file (w : world) (filepath : path) (c : string) :
  metric_files self !! agent_name = Some filepath ->
  lookup_node (files w) filepath = Some (File c) ->
  load_metrics self agent_name w
  = match data_rows c with
    | Ok [] => (w, Ok None)
    | Ok data => (w, Ok (Some data))
    | Raise e =>
        (mkWorld (files w)
           (stdout w ++ ["Error loading " +:+ agent_name +:+ ": " +:+ exn_text e]),
         Ok None)
    end.
Proof.
  intros Hfile Hlook. unfold load_metrics. rewrite Hfile.
  io_unfold. unfold path_exists, read_text, data_rows. cbv beta. rewrite !Hlook.
  destruct (DictReader _) as [[|r data]|e]; reflexivity.
Qed.

(** C1, as the code has it. [load_metrics] returns absent when the file
    does not exist, and absent again when the file exists but holds only a
    header row: an empty sequence is never returned. *)
Theorem load_metrics_absent_without_rows (w : world) (filepath : path) :
  metric_files self !! agent_name = Some filepath ->
  lookup_node (files w) filepath = None
  \/ (exists c, lookup_node (files w) filepath = Some (File c) /\ header_only c) ->
  load_metrics self agent_name w = (w, Ok None).
Proof.
  intros Hfile [Hnone | (c & Hlook & Hhdr)].
  - apply (load_metrics_missing w filepath Hfile).
    unfold path_exists. now rewrite Hnone.
  - rewrite (load_metrics_file w filepath c Hfile Hlook).
    now rewrite (header_only_no_rows c Hhdr).
Qed.

(** Whatever the world, the call raises nothing and never returns the
    empty sequence. *)
Lemma load_metrics_never_empty (w : world) :
  exists (w' : world) (o : option (list row)),
    load_metrics self agent_name w = (w', Ok o) /\ o <> Some [].
Proof.
  unfold load_metrics. destruct (metric_files self !! agent_name) as [filepath|].
  - io_unfold. destruct (path_exists (files w) filepath).
    + destruct (read_text filepath w) as [w1 [content|e]]; simpl.
      * destruct (DictReader content) as [[|r data]|e]; simpl;
          eexists _, _; (split; [reflexivity | discriminate]).
      * eexists _, _. split; [reflexivity | discriminate].
    + eexists _, _. split; [reflexivity | discriminate].
  - eexists _, _. split; [reflexivity | discriminate].
Qed.

End LoadMetrics.

Lemma load_metrics_absent_without_rows_witness :
  TrainingMonitor.metric_files Scenario.the_monitor !! "PPO"
  = Some ["results"; "PPO_metrics.csv"]
  /\ (lookup_node (files (Scenario.results_with_ppo Scenario.header_line))
        ["results"; "PPO_metrics.csv"] = None
      \/ exists c,
           lookup_node (files (Scenario.results_with_ppo Scenario.header_line))
             ["results"; "PPO_metrics.csv"] = Some (File c)
           /\ header_only c)
  /\ TrainingMonitor.load_metrics Scenario.the_monitor "PPO"
       (Scenario.results_with_ppo Scenario.header_line)
     = (Scenario.results_with_ppo Scenario.header_line, Ok None).
Proof.
  assert (Hhdr : exists c,
             lookup_node (files (Scenario.results_with_ppo Scenario.header_line))
               ["results"; "PPO_metrics.csv"] = Some (File c)
             /\ header_only c).
  { exists Scenario.header_line. split; [vm_compute; reflexivity|].
    exists ["round"; "accuracy"; "reward"]. vm_compute. reflexivity. }
  split; [vm_compute; reflexivity|].
  split; [right; exact Hhdr|].
  apply (load_metrics_absent_without_rows Scenario.the_monitor "PPO"
           (Scenario.results_with_ppo Scenario.header_line)
           ["results"; "PPO_metrics.csv"]);
    [vm_compute; reflexivity | right; exact Hhdr].
Defined.

(** C1 fails as stated: for a file that holds only the header row the
    result is absent, not the empty sequence. *)
Lemma load_metrics_header_only_is_absent :
  header_only Scenario.header_line
  /\ snd (TrainingMonitor.load_metrics Scenario.the_monitor "PPO"
            (Scenario.results_with_ppo Scenario.header_line))
     = Ok None
  /\ snd (TrainingMonitor.load_metrics Scenario.the_monitor "PPO"
            (Scenario.results_with_ppo Scenario.header_line))
     <> Ok (Some []).
Proof.
  split; [exists ["round"; "accuracy"; "reward"]; vm_compute; reflexivity|].
  split; [vm_compute; reflexivity | vm_compute; discriminate].
Qed.

(* ===================================================================== *)
(** * A display cycle on a malformed field *)
(* ===================================================================== *)

(** C4. The display cycle does not survive a malformed field: with one row
    whose accuracy is no number, [get_latest_metrics] raises [ValueError],
    nothing catches it, and the cycle stops after the head of the table:
    no row, no history, no closing lines are printed. *)
Theorem display_cycle_aborts_on_malformed_accuracy :
  let '(w', r) :=
    TrainingMonitor.display_cycle Scenario.the_monitor Scenario.a_clock
      (Scenario.results_with_ppo Scenario.malformed_accuracy) in
  r = Raise ValueError
  /\ last (stdout w') = Some (TrainingMonitor.rule "-")
  /\ length (stdout w') = 13%nat
  /\ forallb (fun line => negb (String.eqb line "Refresh #1 | Press Ctrl+C to exit"))
       (stdout w') = true.
Proof. vm_compute. repeat split. Qed.

(** The exception comes from [get_latest_metrics]. *)
Lemma get_latest_metrics_raises_on_malformed_accuracy :
  (rows ← data_rows Scenario.malformed_accuracy;
   TrainingMonitor.get_latest_metrics (Some rows))
  = Raise ValueError.
Proof. vm_compute. reflexivity. Qed.

(** And with it the monitor ends: [run] does not reach its closing lines. *)
Lemma run_ends_on_malformed_accuracy :
  let '(w', r) :=
    TrainingMonitor.run Scenario.the_monitor [Scenario.a_clock; Scenario.a_clock] 4
      (Scenario.results_with_ppo Scenario.malformed_accuracy) in
  r = Raise ValueError
  /\ forallb (fun line => negb (String.eqb line "Monitor terminated successfully"))
       (stdout w') = true.
Proof. vm_compute. split; reflexivity. Qed.

(** On a well-formed file the same cycle completes. *)
Lemma display_cycle_completes_on_numeric_fields :
  let '(w', r) :=
    TrainingMonitor.display_cycle Scenario.the_monitor Scenario.a_clock
      (Scenario.results_with_ppo
         (Scenario.header_line +:+ "1,0.5,0.1" +:+ nl +:+ "2,0.75,-0.25" +:+ nl)) in
  is_ok r = true
  /\ stdout w' !! 13%nat
     = Some "PPO        2        0.7500       0.6250       0.7500       -0.2500        "
  /\ last (stdout w') = Some (TrainingMonitor.rule "=").
Proof. vm_compute. repeat split. Qed.

(** The sibling renderer of the history catches the same defect. *)
Lemma display_recent_history_survives_malformed_accuracy :
  let '(w', r) :=
    TrainingMonitor.display_recent_history Scenario.the_monitor
      (Scenario.results_with_ppo Scenario.malformed_accuracy) in
  r = Ok tt
  /\ stdout w' !! 3%nat = Some (ljust 10 "PPO" +:+ " Data format error").
Proof. vm_compute. split; reflexivity. Qed.

(* ===================================================================== *)
(** * The order of floats *)
(* ===================================================================== *)

Section FloatOrder.

Implicit Types a b c : float.

Ltac by_rank :=
  unfold rank_lt, rank; simpl;
  repeat match goal with
         | |- context [Z.compare ?x ?y] => destruct (Z.compare_spec x y)
         | |- context [Pos.compare_cont Eq ?x ?y] =>
             change (Pos.compare_cont Eq x y) with (Pos.compare x y);
             destruct (Pos.compare_spec x y)
         end;
  simpl; split; intros; try discriminate; try reflexivity; try lia.

(** [<] and [==] on floats, read on the ranks. *)
Lemma flt_rank a b :
  flt a b = true
  <-> match rank a, rank b with
      | Some ra, Some rb => rank_lt ra rb
      | _, _ => False
      end.
Proof.
  unfold flt, SFltb.
  destruct a as [[]|[]| |[] m e], b as [[]|[]| |[] m' e']; by_rank.
Qed.

Lemma feq_rank a b :
  feq a b = true
  <-> match rank a, rank b with
      | Some ra, Some rb => ra = rb
      | _, _ => False
      end.
Proof.
  unfold feq, SFeqb.
  destruct a as [[]|[]| |[] m e], b as [[]|[]| |[] m' e']; by_rank;
    try congruence;
    try match goal with H : (_, _, _) = (_, _, _) |- _ => inversion H; lia end.
Qed.

(** [<] on floats is irreflexive... *)
Lemma flt_irrefl a : flt a a = false.
Proof.
  apply not_true_iff_false. rewrite flt_rank.
  destruct (rank a) as [[[x y] z]|]; [unfold rank_lt; lia | tauto].
Qed.

(** ... transitive ... *)
Lemma flt_trans a b c : flt a b = true -> flt b c = true -> flt a c = true.
Proof.
  rewrite !flt_rank.
  destruct (rank a) as [[[x1 y1] z1]|], (rank b) as [[[x2 y2] z2]|],
    (rank c) as [[[x3 y3] z3]|]; unfold rank_lt; try tauto; lia.
Qed.

(** ... and compatible with [==]. *)
Lemma flt_feq_r a b c : flt a b = true -> feq c b = true -> flt a c = true.
Proof.
  rewrite !flt_rank, feq_rank.
  destruct (rank a) as [[[x1 y1] z1]|], (rank b) as [[[x2 y2] z2]|],
    (rank c) as [[[x3 y3] z3]|]; unfold rank_lt; try tauto.
  intros H [= -> -> ->]. exact H.
Qed.

Lemma fle_rank a b :
  fle a b = true
  <-> match rank a, rank b with
      | Some ra, Some rb => rank_lt ra rb \/ ra = rb
      | _, _ => False
      end.
Proof.
  unfold fle, SFleb.
  destruct a as [[]|[]| |[] m e], b as [[]|[]| |[] m' e']; by_rank;
    try tauto; try (right; congruence);
    try match goal with
        | H : _ \/ _ |- _ => destruct H as [H|H]; [lia | inversion H; lia]
        end.
Qed.

Lemma rank_total (r1 r2 : Z * Z * Z) : ~ rank_lt r1 r2 -> rank_lt r2 r1 \/ r2 = r1.
Proof.
  destruct r1 as [[x1 y1] z1], r2 as [[x2 y2] z2]. unfold rank_lt. intros H.
  destruct (Z.eq_dec x1 x2), (Z.eq_dec y1 y2), (Z.eq_dec z1 z2); subst;
    try (left; lia). now right.
Qed.

(** Without [nan], the order is total: not smaller means greater or equal. *)
Lemma flt_false_fle a b :
  is_nan a = false -> is_nan b = false -> flt a b = false -> fle b a = true.
Proof.
  intros Ha Hb Hlt. apply not_true_iff_false in Hlt.
  rewrite flt_rank in Hlt. rewrite fle_rank.
  destruct a as [sa|sa| |[] ma ea], b as [sb|sb| |[] mb eb]; try discriminate;
    cbn [rank] in *; now apply rank_total.
Qed.

End FloatOrder.

(* ===================================================================== *)
(** * The best current performer *)
(* ===================================================================== *)

Section MaxBy.

Context {A : Type} (key : A -> float).

Lemma running_max_step (seen : list A) (cur : A) (i : nat) (y : A) :
  running_max key seen cur i ->
  exists i', running_max key (seen ++ [y])
               (if flt (key cur) (key y) then y else cur) i'.
Proof.
  intros (Hi & Hmax & Hfirst). cbv beta.
  destruct (flt (key cur) (key y)) eqn:Hlt.
  - exists (length seen). split; [|split].
    + now rewrite lookup_app_r, Nat.sub_diag by lia.
    + intros j z Hj. apply lookup_snoc_Some in Hj as [[_ Hj]|[_ <-]].
      * apply not_true_iff_false. intros Hyz.
        pose proof (flt_trans _ _ _ Hlt Hyz) as Habs.
        rewrite (Hmax j z Hj) in Habs. discriminate.
      * apply flt_irrefl.
    + intros j z Hj Hlen. apply lookup_snoc_Some in Hj as [[_ Hj]|[? _]]; [|lia].
      apply not_true_iff_false. intros Heq.
      pose proof (flt_feq_r _ _ _ Hlt Heq) as Habs.
      rewrite (Hmax j z Hj) in Habs. discriminate.
  - exists i. split; [|split].
    + now apply lookup_app_l_Some.
    + intros j z Hj. apply lookup_snoc_Some in Hj as [[_ Hj]|[_ <-]]; eauto.
    + intros j z Hj Hlt'. apply lookup_snoc_Some in Hj as [[_ Hj]|[-> _]]; eauto.
      apply lookup_lt_Some in Hi. lia.
Qed.

Lemma running_max_fold (rest : list A) : forall (seen : list A) (cur : A) (i : nat),
  running_max key seen cur i ->
  exists i', running_max key (seen ++ rest)
               (fold_left (fun cur y => if flt (key cur) (key y) then y else cur)
                  rest cur) i'.
Proof.
  induction rest as [|y rest IH]; intros seen cur i Hinv; simpl.
  - rewrite app_nil_r. eauto.
  - destruct (running_max_step seen cur i y Hinv) as [i1 H1].
    destruct (IH _ _ _ H1) as [i2 H2].
    exists i2. now rewrite <- app_assoc in H2.
Qed.

(** [max(l, key=key)] is an item of [l] than which none is greater, and
    the first among the items equal to it. *)
Lemma py_max_by_first_maximal (l : list A) (best : A) :
  TrainingMonitor.py_max_by key l = Some best ->
  exists i, running_max key l best i.
Proof.
  destruct l as [|x rest]; simpl; [discriminate|]. intros [= <-].
  apply (running_max_fold rest [x] x 0%nat).
  split; [reflexivity|]. split.
  - intros [|j] y Hj; simpl in Hj; [|now destruct j].
    injection Hj as <-. apply flt_irrefl.
  - intros j y _ Hj. lia.
Qed.

End MaxBy.

Section SublistOrder.

Context {A : Type}.



End SublistOrder.





(** With no [nan] among the accuracies, the order is total and the chosen
    agent's accuracy is at least every other one. *)
Lemma best_agent_greatest
    (all_metrics : TrainingMonitor.metrics_table) (best : string) :
  TrainingMonitor.best_agent all_metrics = Some best ->
  (forall a, a ∈ map fst all_metrics ->
     is_nan (TrainingMonitor.latest_accuracy all_metrics a) = false) ->
  forall a, a ∈ map fst all_metrics ->
    fle (TrainingMonitor.latest_accuracy all_metrics a)
        (TrainingMonitor.latest_accuracy all_metrics best) = true.
Proof.
  intros Hbest Hnan a Ha. unfold TrainingMonitor.best_agent in Hbest.
  destruct (py_max_by_first_maximal _ _ _ Hbest) as (i & Hi & Hmax & _).
  assert (Hin : best ∈ map fst all_metrics) by (apply list_elem_of_lookup; eauto).
  apply list_elem_of_lookup in Ha as Hj. destruct Hj as [j Hj].
  apply flt_false_fle; eauto.
Qed.

(** A table is never without a best agent, unless it is empty. *)
Lemma best_agent_exists (all_metrics : TrainingMonitor.metrics_table) :
  all_metrics <> [] -> exists best, TrainingMonitor.best_agent all_metrics = Some best.
Proof.
  destruct all_metrics as [|entry rest]; [contradiction|]. intros _.
  unfold TrainingMonitor.best_agent. simpl. eauto.
Qed.


Section ProgressTable.

Import TrainingMonitor.

Variables (self : monitor) (available : gmap string bool).

Lemma progress_step_table (all_metrics : metrics_table) (agent : string)
    (w w' : world) (t : metrics_table) :
  progress_step self available all_metrics agent w = (w', Ok t) ->
  t = all_metrics \/ exists entry, t = all_metrics ++ [(agent, entry)].
Proof.
  unfold progress_step.
  destruct (negb (default false (available !! agent))).
  - io_unfold. intros [= _ <-]. now left.
  - unfold mbind, io_bind.
    destruct (load_metrics self agent w) as [w1 [[[|r data]|]|e]];
      try (io_unfold; intros [= _ <-]; now left).
    destruct (lift (get_latest_metrics (Some (r :: data))) w1) as [w2 [latest|e]];
      [|discriminate].
    io_unfold. intros [= _ <-]. right. eauto.
Qed.

Lemma progress_loop_table (agents : list string) :
  forall (all_metrics : metrics_table) (w w' : world) (t : metrics_table),
    progress_loop self available all_metrics agents w = (w', Ok t) ->
    exists extra, t = all_metrics ++ extra /\ map fst extra `sublist_of` agents.
Proof.
  induction agents as [|agent rest IH]; intros all_metrics w w' t; simpl.
  - io_unfold. intros [= _ <-]. exists []. rewrite app_nil_r. split; constructor.
  - unfold mbind, io_bind.
    destruct (progress_step self available all_metrics agent w) as [w1 [t1|e]] eqn:Hstep;
      [|discriminate].
    intros Hrest. destruct (IH _ _ _ _ Hrest) as (extra & -> & Hsub).
    destruct (progress_step_table _ _ _ _ _ Hstep) as [-> | [entry ->]].
    + exists extra. split; [reflexivity | now constructor].
    + exists ((agent, entry) :: extra). split; [now rewrite <- app_assoc|].
      simpl. now constructor.
Qed.

(** The table [display_training_progress] hands to [max] lists its agents
    in the enumeration order. *)
Lemma progress_loop_in_agent_order (w w' : world) (t : metrics_table) :
  progress_loop self available [] AGENTS w = (w', Ok t) ->
  map fst t `sublist_of` AGENTS.
Proof.
  intros Hrun. destruct (progress_loop_table _ _ _ _ _ Hrun) as (extra & -> & Hsub).
  exact Hsub.
Qed.

End ProgressTable.

(* ===================================================================== *)
(** * Statistics of a column *)
(* ===================================================================== *)

Section Statistics.

Import TrainingMonitor.

Lemma mapM_result_raise {A B} (f : A -> result B) (l : list A) :
  Exists (fun x => is_ok (f x) = false) l -> exists e, mapM f l = Raise e.
Proof.
  induction 1 as [x l Hx | x l _ [e IH]]; simpl; io_unfold.
  - destruct (f x); [discriminate | eauto].
  - destruct (f x); [|eauto]. rewrite IH. eauto.
Qed.

Lemma mapM_result_ok {A B} (f : A -> result B) (g : A -> B) (l : list A) :
  Forall (fun x => f x = Ok (g x)) l -> mapM f l = Ok (map g l).
Proof.
  induction 1 as [|x l Hx _ IH]; simpl; io_unfold; [reflexivity|].
  now rewrite Hx, IH.
Qed.

Lemma py_sum_float_sum (values : list float) : py_sum values = float_sum values.
Proof. reflexivity. Qed.

(** C5, as the code has it. [get_statistics] raises nothing, but it does not
    leave a malformed row out: as soon as one row holds a non-empty value
    that is no number, the whole computation is abandoned and the all-zero
    defaults are returned, whatever the other rows hold. *)
Theorem get_statistics_malformed_gives_defaults (data : list row) (column : string) :
  Exists malformed (selected data column) ->
  get_statistics (Some data) column = zero_stats.
Proof.
  intros Hbad. unfold get_statistics. destruct data as [|r data]; [reflexivity|].
  unfold statistics_body.
  destruct (mapM_result_raise float_of_cell _ Hbad) as [e ->]. reflexivity.
Qed.

Lemma mapM_valid_values (data : list row) (column : string) :
  Forall numeric (selected data column) ->
  mapM float_of_cell (selected data column) = Ok (valid_values data column).
Proof.
  unfold valid_values. induction 1 as [|c cells Hc _ IH]; [reflexivity|].
  unfold numeric in Hc. simpl. destruct (float_of_cell c) as [x|e]; [|discriminate].
  cbn [mbind result_bind rbind]. now rewrite IH.
Qed.

(** When every non-empty value of the column is numeric and every squared
    deviation from the mean is finite, the result is the statistics of the
    valid values. *)
Lemma get_statistics_valid (data : list row) (column : string) :
  Forall numeric (selected data column) ->
  Forall (fun x => is_finite
                     (squared_deviation (arithmetic_mean (valid_values data column)) x)
                   = true)
    (valid_values data column) ->
  get_statistics (Some data) column = spec_statistics (valid_values data column).
Proof.
  intros Hnumeric Hfinite. unfold get_statistics.
  pose proof (mapM_valid_values data column Hnumeric) as Hvalues.
  destruct data as [|r data]; [reflexivity|].
  unfold statistics_body. rewrite Hvalues.
  destruct (valid_values (r :: data) column) as [|x values]; [reflexivity|].
  set (vs := x :: values) in *.
  cbn [mbind result_bind rbind].
  change (fdiv (py_sum vs) (of_Z (Z.of_nat (length vs))))
    with (arithmetic_mean vs).
  rewrite (mapM_result_ok _ (squared_deviation (arithmetic_mean vs))).
  - reflexivity.
  - eapply Forall_impl; [exact Hfinite|]. intros y Hy. unfold pow2.
    change (fmul (fsub y (arithmetic_mean vs)) (fsub y (arithmetic_mean vs)))
      with (squared_deviation (arithmetic_mean vs) y).
    rewrite Hy. now rewrite andb_false_r.
Qed.

End Statistics.

Lemma get_statistics_malformed_gives_defaults_witness :
  Exists malformed
    (TrainingMonitor.selected (Scenario.one_column "accuracy" ["0.5"; "abc"; "0.7"])
       "accuracy")
  /\ TrainingMonitor.get_statistics
       (Some (Scenario.one_column "accuracy" ["0.5"; "abc"; "0.7"])) "accuracy"
     = TrainingMonitor.zero_stats.
Proof.
  assert (Hbad : Exists malformed
                   (TrainingMonitor.selected
                      (Scenario.one_column "accuracy" ["0.5"; "abc"; "0.7"]) "accuracy")).
  { replace (TrainingMonitor.selected _ _) with [CStr "0.5"; CStr "abc"; CStr "0.7"]
      by (vm_compute; reflexivity).
    apply Exists_cons_tl, Exists_cons_hd. vm_compute. reflexivity. }
  split; [exact Hbad|].
  exact (get_statistics_malformed_gives_defaults _ _ Hbad).
Defined.

(** C5 fails as stated: of three rows, one malformed, the two valid values
    0.5 and 0.7 do not determine the result; it is the all-zero default. *)
Lemma get_statistics_does_not_skip_malformed :
  valid_values (Scenario.one_column "accuracy" ["0.5"; "abc"; "0.7"]) "accuracy"
  = [Scenario.lit "0.5"; Scenario.lit "0.7"]
  /\ TrainingMonitor.get_statistics
       (Some (Scenario.one_column "accuracy" ["0.5"; "abc"; "0.7"])) "accuracy"
     = TrainingMonitor.zero_stats
  /\ TrainingMonitor.get_statistics
       (Some (Scenario.one_column "accuracy" ["0.5"; "abc"; "0.7"])) "accuracy"
     <> spec_statistics
          (valid_values (Scenario.one_column "accuracy" ["0.5"; "abc"; "0.7"])
             "accuracy").
Proof.
  split; [vm_compute; reflexivity|].
  split; [vm_compute; reflexivity | vm_compute; discriminate].
Qed.




(** Squared deviations that overflow are caught too: the result is the
    default, not the statistics of the values. *)
Lemma get_statistics_overflow_gives_defaults :
  valid_values (Scenario.one_column "loss" ["1e200"; "-1e200"]) "loss"
  = [Scenario.lit "1e200"; Scenario.lit "-1e200"]
  /\ TrainingMonitor.get_statistics
       (Some (Scenario.one_column "loss" ["1e200"; "-1e200"])) "loss"
     = TrainingMonitor.zero_stats.
Proof. split; vm_compute; reflexivity. Qed.

(* ===================================================================== *)
(** * Plain text *)
(* ===================================================================== *)

Section PlainText.

Lemma chars_app (a b : string) : chars (a +:+ b) = chars a ++ chars b.
Proof. induction a as [|c a IH]; simpl; [reflexivity | now rewrite IH]. Qed.

Lemma chars_text (l : list ascii) : chars (text l) = l.
Proof. apply list_ascii_of_string_of_list_ascii. Qed.

Lemma text_chars (s : string) : text (chars s) = s.
Proof. apply string_of_list_ascii_of_string. Qed.

Lemma chars_inj (a b : string) : chars a = chars b -> a = b.
Proof. intros H. now rewrite <- (text_chars a), <- (text_chars b), H. Qed.

Lemma chars_length (s : string) : length (chars s) = String.length s.
Proof. induction s as [|c s IH]; simpl; [reflexivity | now rewrite IH]. Qed.

Lemma plain_app (a b : string) : plain a -> plain b -> plain (a +:+ b).
Proof. unfold plain, plain_chars. rewrite chars_app. apply Forall_app_2. Qed.

Lemma plain_empty : plain EmptyString.
Proof. constructor. Qed.

Lemma plain_repeat_str (s : string) (n : nat) : plain s -> plain (repeat_str s n).
Proof.
  intros Hs. induction n as [|n IH]; simpl; [apply plain_empty | now apply plain_app].
Qed.

Lemma plain_substring (s : string) : forall n m, plain s -> plain (substring n m s).
Proof.
  unfold plain, plain_chars.
  induction s as [|c s IH]; intros n m Hs; simpl.
  - destruct n, m; constructor.
  - apply Forall_cons in Hs as [Hc Hs].
    destruct n as [|n]; [destruct m as [|m]|]; simpl; auto.
Qed.

Lemma plain_uint (d : Decimal.uint) : plain (NilEmpty.string_of_uint d).
Proof.
  unfold plain, plain_chars.
  induction d; simpl; constructor; (reflexivity || assumption).
Qed.

Lemma plain_digits_of_Z (z : Z) : plain (digits_of_Z z).
Proof.
  unfold digits_of_Z, NilZero.string_of_uint.
  destruct (N.to_uint (Z.to_N z)); try apply plain_uint.
  repeat constructor.
Qed.

Lemma plain_str_of_Z (z : Z) : plain (str_of_Z z).
Proof.
  unfold str_of_Z. destruct (z <? 0); [|apply plain_digits_of_Z].
  constructor; [reflexivity | apply plain_digits_of_Z].
Qed.

Lemma plain_zfill (w : nat) (s : string) : plain s -> plain (zfill w s).
Proof.
  intros Hs. unfold zfill. apply plain_app; [|assumption].
  apply plain_repeat_str. repeat constructor.
Qed.

End PlainText.

Section PlainCells.

Lemma plain_drop_zeros (l : list ascii) : plain_chars l -> plain_chars (drop_zeros l).
Proof.
  unfold plain_chars. induction 1 as [|c l Hc Hl IH]; simpl; [constructor|].
  destruct (Ascii.eqb c "0"); [assumption | now constructor].
Qed.

Lemma plain_strip_trailing_zeros (s : string) :
  plain s -> plain (strip_trailing_zeros s).
Proof.
  unfold plain, strip_trailing_zeros. rewrite chars_text. intros Hs.
  apply Forall_rev, plain_drop_zeros, Forall_rev, Hs.
Qed.

Ltac plain_closed := unfold plain, plain_chars; simpl; repeat constructor.

Ltac plain_tac :=
  repeat first
    [ apply plain_app
    | apply plain_zfill
    | apply plain_digits_of_Z
    | apply plain_str_of_Z
    | apply plain_substring
    | apply plain_repeat_str
    | apply plain_strip_trailing_zeros
    | apply plain_empty
    | assumption
    | progress plain_closed ].

Lemma plain_sign_str (s : bool) : plain (sign_str s).
Proof. destruct s; plain_closed. Qed.

Lemma plain_repr_layout (ds : string) (decpt : Z) :
  plain ds -> plain (repr_layout ds decpt).
Proof.
  intros Hds. unfold repr_layout.
  destruct ((decpt <=? -4) || (16 <? decpt)).
  - destruct (String.length ds =? 1)%nat, (decpt - 1 <? 0); plain_tac.
  - destruct (decpt <=? 0); [plain_tac|].
    destruct (decpt <? Z.of_nat (String.length ds)); plain_tac.
Qed.

(** What [repr] writes for a float never needs quoting. *)
Lemma plain_repr (x : float) : plain (repr x).
Proof.
  unfold repr. destruct x as [s|s| |s m e].
  - apply plain_app; [apply plain_sign_str | plain_closed].
  - apply plain_app; [apply plain_sign_str | plain_closed].
  - plain_closed.
  - destruct (fraction m e) as [n d].
    destruct (shortest 17 (S754_finite false m e) n d (decimal_point n d) 1) as [c p].
    apply plain_app; [apply plain_sign_str|].
    apply plain_repr_layout, plain_strip_trailing_zeros, plain_digits_of_Z.
Qed.

(** Nor does a timestamp. *)
Lemma plain_isoformat (d : datetime) : plain (isoformat d).
Proof.
  unfold isoformat, date_part, time_part, pad.
  destruct (microsecond d); plain_tac.
Qed.

Lemma plain_round_row (now : datetime) (round_num client_id : Z)
    (mean_reward std_reward : float) (episode_length : Z) (loss : float) :
  Forall plain
    (map py_str
       (TrainingLogger.round_row (isoformat now) round_num client_id mean_reward
          std_reward episode_length loss None)).
Proof.
  simpl. repeat constructor;
    first [apply plain_isoformat | apply plain_str_of_Z | apply plain_repr].
Qed.

End PlainCells.

(* ===================================================================== *)
(** * Reading back what the writer wrote *)
(* ===================================================================== *)

Section ReadBack.

Implicit Types (f : list ascii) (fs : list string).

Lemma special_not_newline (c : ascii) : is_special c = false -> is_newline c = false.
Proof.
  unfold is_special, is_newline. intros H.
  apply orb_false_iff in H as [H Hlf]. apply orb_false_iff in H as [_ Hcr].
  now rewrite Hlf, Hcr.
Qed.

Lemma special_not_comma (c : ascii) : is_special c = false -> Ascii.eqb c COMMA = false.
Proof.
  unfold is_special. intros H.
  apply orb_false_iff in H as [H _]. apply orb_false_iff in H as [H _].
  now apply orb_false_iff in H as [H _].
Qed.

Lemma special_not_quote (c : ascii) : is_special c = false -> Ascii.eqb c DQUOTE = false.
Proof.
  unfold is_special. intros H.
  apply orb_false_iff in H as [H _]. apply orb_false_iff in H as [H _].
  now apply orb_false_iff in H as [_ H].
Qed.

(** One plain character, at the start of a field or inside one, joins the
    field. *)
Lemma parse_plain_char (st : pstate) (acc : list ascii) fs (c : ascii) :
  st = START_FIELD \/ st = IN_FIELD ->
  is_special c = false ->
  Z.of_nat (length acc) < field_limit ->
  parse_process_char (mkParser st acc fs) (Some c)
  = Ok (mkParser IN_FIELD (c :: acc) fs).
Proof.
  intros Hst Hc Hlen.
  assert (Hadd : parse_add_char (mkParser st acc fs) IN_FIELD c
                 = Ok (mkParser IN_FIELD (c :: acc) fs)).
  { unfold parse_add_char. simpl.
    destruct (field_limit <=? Z.of_nat (length acc)) eqn:E; [lia | reflexivity]. }
  unfold parse_process_char.
  destruct Hst as [-> | ->]; simpl;
    rewrite (special_not_newline c Hc), ?(special_not_quote c Hc),
      (special_not_comma c Hc); exact Hadd.
Qed.

(** A run of plain characters extends the field. *)
Lemma parse_line_plain f : forall (st : pstate) (acc : list ascii) fs (rest : list ascii),
  st = START_FIELD \/ st = IN_FIELD ->
  plain_chars f ->
  Z.of_nat (length acc + length f) <= field_limit ->
  parse_line (mkParser st acc fs) (f ++ rest)
  = parse_line (mkParser (match f with [] => st | _ => IN_FIELD end) (rev f ++ acc) fs)
      rest.
Proof.
  induction f as [|c f IH]; intros st acc fs rest Hst Hplain Hlen; [reflexivity|].
  apply Forall_cons in Hplain as [Hc Hplain]. simpl in Hlen.
  cbn [app parse_line].
  rewrite (parse_plain_char st acc fs c Hst Hc) by lia.
  rewrite (IH IN_FIELD (c :: acc) fs rest) by (auto; simpl; lia).
  simpl. rewrite <- app_assoc. now destruct f.
Qed.

(** A comma closes the field. *)
Lemma parse_line_comma (st : pstate) (acc : list ascii) fs (rest : list ascii) :
  st = START_FIELD \/ st = IN_FIELD ->
  parse_line (mkParser st acc fs) (COMMA :: rest)
  = parse_line (mkParser START_FIELD [] (text (rev acc) :: fs)) rest.
Proof. intros [-> | ->]; reflexivity. Qed.

(** The line end closes the field and the record. *)
Lemma parse_line_end (st : pstate) (acc : list ascii) fs :
  st = START_FIELD \/ st = IN_FIELD ->
  parse_line (mkParser st acc fs) [LF]
  = Ok (mkParser START_RECORD [] (text (rev acc) :: fs)).
Proof. intros [-> | ->]; reflexivity. Qed.

Lemma chars_join_cons (x : string) (y : string) (l : list string) :
  chars (join "," (x :: y :: l)) = chars x ++ COMMA :: chars (join "," (y :: l)).
Proof.
  change (join "," (x :: y :: l)) with (x +:+ "," +:+ join "," (y :: l)).
  now rewrite !chars_app.
Qed.

Lemma field_state f (st : pstate) :
  st = START_FIELD \/ st = IN_FIELD ->
  match f with [] => st | _ => IN_FIELD end = START_FIELD
  \/ match f with [] => st | _ => IN_FIELD end = IN_FIELD.
Proof. destruct f; auto. Qed.

(** The fields of a line, read from the start of a field. *)
Lemma parse_line_fields (fields : list string) : forall fs,
  fields <> [] ->
  Forall readable_field fields ->
  parse_line (mkParser START_FIELD [] fs) (chars (join "," fields) ++ [LF])
  = Ok (mkParser START_RECORD [] (rev fields ++ fs)).
Proof.
  induction fields as [|x [|y l] IH]; intros fs Hne Hall; [contradiction| |].
  - apply Forall_singleton in Hall as [Hplain Hlen]. simpl join.
    rewrite parse_line_plain;
      [|auto | exact Hplain | rewrite chars_length; simpl; lia].
    rewrite parse_line_end by (apply field_state; auto).
    now rewrite app_nil_r, rev_involutive, text_chars.
  - apply Forall_cons in Hall as [[Hplain Hlen] Hall].
    rewrite chars_join_cons, <- app_assoc.
    rewrite parse_line_plain;
      [|auto | exact Hplain | rewrite chars_length; simpl; lia].
    cbn [app]. rewrite parse_line_comma by (apply field_state; auto).
    rewrite app_nil_r, rev_involutive, text_chars.
    rewrite (IH (x :: fs)) by (auto; discriminate).
    cbn [rev]. now rewrite <- !app_assoc.
Qed.

(** At the start of a record a character that is no line end starts a
    field. *)
Lemma parse_line_start_record (c : ascii) (rest : list ascii) :
  is_newline c = false ->
  parse_line parse_reset (c :: rest) = parse_line (mkParser START_FIELD [] []) (c :: rest).
Proof.
  intros Hc. cbn [parse_line]. unfold parse_process_char, parse_reset. simpl.
  now rewrite Hc.
Qed.

(** A readable record is read back from its line. *)
Lemma parse_line_record (fields : list string) :
  readable_record fields ->
  parse_line parse_reset (chars (join "," fields) ++ [LF])
  = Ok (mkParser START_RECORD [] (rev fields)).
Proof.
  intros [Hlen Hall].
  assert (Hne : fields <> [])
    by (destruct fields; [simpl in Hlen; lia | discriminate]).
  rewrite <- (app_nil_r (rev fields)).
  rewrite <- (parse_line_fields fields [] Hne Hall).
  destruct fields as [|x [|y l]]; simpl in Hlen; try lia.
  rewrite chars_join_cons.
  destruct (chars x) as [|c cs] eqn:Hx.
  - cbn [app]. now apply parse_line_start_record.
  - cbn [app]. apply parse_line_start_record, special_not_newline.
    apply Forall_cons in Hall as [[Hplain _] _].
    unfold plain, plain_chars in Hplain. rewrite Hx in Hplain.
    now apply Forall_cons in Hplain as [Hc _].
Qed.

End ReadBack.

Section ReadFile.

Lemma no_newline_join (fields : list string) :
  Forall readable_field fields ->
  Forall (fun c => is_newline c = false) (chars (join "," fields)).
Proof.
  induction fields as [|x [|y l] IH]; intros Hall; [constructor| |].
  - apply Forall_singleton in Hall as [Hplain _]. simpl.
    eapply Forall_impl; [exact Hplain | apply special_not_newline].
  - apply Forall_cons in Hall as [[Hplain _] Hall]. rewrite chars_join_cons.
    apply Forall_app_2.
    + eapply Forall_impl; [exact Hplain | apply special_not_newline].
    + constructor; [reflexivity | now apply IH].
Qed.

Lemma newline_split (c : ascii) :
  is_newline c = false -> Ascii.eqb c CR = false /\ Ascii.eqb c LF = false.
Proof. unfold is_newline. intros H. apply orb_false_iff in H. tauto. Qed.

(** Reading in text mode turns the writer's line end into [\n] and leaves
    the rest of the line alone. *)
Lemma universal_newlines_line (l rest : list ascii) :
  Forall (fun c => is_newline c = false) l ->
  universal_newlines false (l ++ CR :: LF :: rest)
  = l ++ LF :: universal_newlines false rest.
Proof.
  induction 1 as [|c l Hc _ IH]; [reflexivity|].
  destruct (newline_split c Hc) as [Hcr Hlf].
  cbn [app universal_newlines]. now rewrite Hcr, Hlf, IH.
Qed.

Lemma lines_from_line (l : list ascii) : forall (cur rest : list ascii),
  Forall (fun c => is_newline c = false) l ->
  lines_from cur (l ++ LF :: rest) = (rev cur ++ l ++ [LF]) :: lines_from [] rest.
Proof.
  induction l as [|c l IH]; intros cur rest Hl.
  - reflexivity.
  - apply Forall_cons in Hl as [Hc Hl]. destruct (newline_split c Hc) as [_ Hlf].
    cbn [app lines_from]. rewrite Hlf, IH by assumption.
    cbn [rev]. now rewrite <- app_assoc.
Qed.

(** The lines the reader iterates over, for a file of readable records. *)
Lemma lines_of_file (records : list (list string)) :
  Forall readable_record records ->
  lines_from [] (universal_newlines false (chars (file_of records)))
  = map (fun fields => chars (join "," fields) ++ [LF]) records.
Proof.
  induction 1 as [|fields records [_ Hfields] _ IH]; [reflexivity|].
  cbn [file_of fold_right map]. unfold line_of at 1.
  rewrite !chars_app. change (chars crlf) with [CR; LF].
  rewrite <- app_assoc. cbn [app].
  rewrite universal_newlines_line by now apply no_newline_join.
  rewrite lines_from_line by now apply no_newline_join.
  cbn [rev app]. now rewrite <- IH.
Qed.

Lemma read_records_lines (records : list (list string)) :
  Forall readable_record records ->
  read_records parse_reset
    (map (fun fields => chars (join "," fields) ++ [LF]) records)
  = Ok records.
Proof.
  induction 1 as [|fl records Hfl _ IH]; [reflexivity|].
  cbn [map read_records]. rewrite (parse_line_record fl Hfl).
  cbn [state Csv.fields]. rewrite IH. now rewrite rev_involutive.
Qed.

(** The reader gives back the records of the file. *)
Lemma reader_file_of (records : list (list string)) :
  Forall readable_record records ->
  reader (text (universal_newlines false (chars (file_of records)))) = Ok records.
Proof.
  intros Hall. unfold reader, readlines. rewrite chars_text.
  rewrite (lines_of_file records Hall). now apply read_records_lines.
Qed.

Lemma filter_readable (records : list (list string)) :
  Forall readable_record records ->
  List.filter (fun r => negb (is_nil r)) records = records.
Proof.
  induction 1 as [|fields records [Hlen _] _ IH]; [reflexivity|].
  simpl. destruct fields; [simpl in Hlen; lia|]. simpl. now rewrite IH.
Qed.

(** And [DictReader] the rows, one for every record after the header. *)
Lemma data_rows_file_of (header : list string) (records : list (list string)) :
  Forall readable_record (header :: records) ->
  data_rows (file_of (header :: records)) = Ok (map (make_row header) records).
Proof.
  intros Hall. unfold data_rows, DictReader. rewrite (reader_file_of _ Hall).
  apply Forall_cons in Hall as [_ Hall]. now rewrite filter_readable.
Qed.

Lemma app_string_assoc (a b c : string) : (a +:+ b) +:+ c = a +:+ (b +:+ c).
Proof.
  rewrite <- (text_chars ((a +:+ b) +:+ c)), <- (text_chars (a +:+ (b +:+ c))).
  now rewrite !chars_app, app_assoc.
Qed.

Lemma file_of_snoc (records : list (list string)) (fields : list string) :
  file_of (records ++ [fields]) = file_of records +:+ line_of fields.
Proof.
  induction records as [|r records IH]; simpl.
  - unfold line_of. now rewrite (app_string_assoc _ crlf EmptyString).
  - now rewrite IH, app_string_assoc.
Qed.

Lemma quote_field_plain (s : string) : plain s -> quote_field s = s.
Proof.
  intros Hs. unfold quote_field, needs_quote.
  replace (existsb is_special (chars s)) with false; [reflexivity|].
  symmetry. apply not_true_iff_false. intros Hex.
  apply existsb_exists in Hex as (c & Hin & Hc).
  apply list_elem_of_In in Hin.
  unfold plain, plain_chars in Hs. rewrite Forall_forall in Hs.
  rewrite (Hs c Hin) in Hc. discriminate.
Qed.

(** The writer writes a row of plain cells as their line. *)
Lemma writerow_plain (row : list pyval) :
  (2 <= length row)%nat ->
  Forall plain (map py_str row) ->
  writerow row = line_of (map py_str row).
Proof.
  intros Hlen Hplain. unfold writerow, line_of.
  assert (Hmap : map (fun v => quote_field (py_str v)) row = map py_str row).
  { clear Hlen. induction row as [|v row IH]; [reflexivity|].
    apply Forall_cons in Hplain as [Hv Hplain]. simpl.
    now rewrite (quote_field_plain _ Hv), IH. }
  rewrite Hmap.
  destruct row as [|v [|v' row]]; simpl in Hlen; try lia.
  destruct (join "," (map py_str (v :: v' :: row))) eqn:Hbody; [|reflexivity].
  exfalso. apply (f_equal chars) in Hbody. cbn [map] in Hbody.
  rewrite chars_join_cons in Hbody. simpl in Hbody.
  now destruct (chars (py_str v)).
Qed.

End ReadFile.

(* ===================================================================== *)
(** * A round without global reward, written and read back *)
(* ===================================================================== *)

Section RoundTrip.

Import TrainingLogger.

Lemma lookup_node_insert (fs : gmap path node) (p q : path) (n : node) :
  p <> [] ->
  lookup_node (<[p := n]> fs) q = if decide (p = q) then Some n else lookup_node fs q.
Proof.
  intros Hp. unfold lookup_node. destruct q as [|x q'].
  - destruct (decide (p = [])); [contradiction | reflexivity].
  - rewrite lookup_insert. destruct (decide (p = x :: q')); reflexivity.
Qed.

Lemma lookup_node_file_nonempty (fs : gmap path node) (p : path) (c : string) :
  lookup_node fs p = Some (File c) -> p <> [].
Proof. intros H ->. discriminate. Qed.

(** Appending to another file leaves this one as it is. *)
Lemma append_text_other (p q : path) (s : string) (w : world) :
  p <> q ->
  lookup_node (files (fst (append_text q s w))) p = lookup_node (files w) p.
Proof.
  intros Hpq. unfold append_text.
  destruct (open_for_write (files w) q) as [c|e] eqn:Hopen; [|reflexivity].
  simpl. rewrite lookup_node_insert.
  - destruct (decide (q = p)); [congruence | reflexivity].
  - intros ->. unfold open_for_write in Hopen. simpl in Hopen. discriminate.
Qed.

Section OneRound.

Variables (self : logger) (round_num client_id : Z) (mean_reward std_reward : float)
  (episode_length : Z) (loss : float) (global_reward : option float)
  (now now_event : datetime).

(** Whatever happens to the event log afterwards, [log_round] has put the
    line of its row at the end of the metrics file. *)
Lemma log_round_metrics_file (w : world) (old : string) :
  lookup_node (files w) (metrics_file self) = Some (File old) ->
  metrics_file self <> events_file self ->
  lookup_node
    (files (fst (log_round self round_num client_id mean_reward std_reward
                   episode_length loss global_reward now now_event w)))
    (metrics_file self)
  = Some (File (old +:+ writerow
                          (round_row (isoformat now) round_num client_id mean_reward
                             std_reward episode_length loss global_reward))).
Proof.
  intros Hlook Hne.
  pose proof (lookup_node_file_nonempty _ _ _ Hlook) as Hp.
  unfold log_round. unfold mbind at 1. unfold io_bind at 1.
  unfold append_text at 1. unfold open_for_write. rewrite Hlook.
  set (w1 := mkWorld _ _).
  assert (H1 : lookup_node (files w1) (metrics_file self)
               = Some (File (old +:+ writerow
                          (round_row (isoformat now) round_num client_id mean_reward
                             std_reward episode_length loss global_reward)))).
  { unfold w1. simpl. rewrite lookup_node_insert by assumption.
    now rewrite decide_True. }
  unfold _log_event. unfold mbind, io_bind, mret, io_ret.
  match goal with
  | |- context [append_text ?q ?s w1] =>
      pose proof (append_text_other (metrics_file self) q s w1 Hne) as Hother;
      destruct (append_text q s w1) as [w2 [[]|e]]
  end; simpl in *; congruence.
Qed.

End OneRound.

Lemma readable_metrics_columns : readable_record metrics_columns.
Proof.
  split; [simpl; lia|].
  repeat constructor; unfold field_limit; simpl; lia.
Qed.

Lemma cells_fit_readable (row : list pyval) :
  Forall plain (map py_str row) -> cells_fit row = true ->
  Forall readable_field (map py_str row).
Proof.
  unfold cells_fit. induction row as [|v row IH]; intros Hplain Hfit; [constructor|].
  simpl in *. apply Forall_cons in Hplain as [Hv Hplain].
  apply andb_true_iff in Hfit as [Hlen Hfit].
  constructor; [|now apply IH]. split; [assumption | lia].
Qed.

End RoundTrip.

Section RoundTripTheorem.

Import TrainingLogger.

(** C9. A round logged with [global_reward=None] is written with an empty
    last field (the line ends with a comma and the line end), and reading
    the file back yields, after the rows already there, a row whose
    [global_reward] is the empty string: no parse error. *)
Theorem log_round_none_round_trip
    (self : logger) (round_num client_id : Z) (mean_reward std_reward : float)
    (episode_length : Z) (loss : float) (now now_event : datetime)
    (w : world) (records : list (list string)) :
  lookup_node (files w) (metrics_file self)
  = Some (File (file_of (metrics_columns :: records))) ->
  Forall readable_record records ->
  metrics_file self <> events_file self ->
  cells_fit (round_row (isoformat now) round_num client_id mean_reward std_reward
               episode_length loss None) = true ->
  exists (content : string) (rows : list row) (written : row),
    lookup_node
      (files (fst (log_round self round_num client_id mean_reward std_reward
                     episode_length loss None now now_event w)))
      (metrics_file self)
    = Some (File content)
    /\ content
       = file_of (metrics_columns :: records)
           +:+ (join "," [isoformat now; str_of_Z round_num; str_of_Z client_id;
                          repr mean_reward; repr std_reward;
                          str_of_Z episode_length; repr loss]
                  +:+ "," +:+ crlf)
    /\ data_rows content = Ok (rows ++ [written])
    /\ length rows = length records
    /\ written !! Some "global_reward" = Some (CStr EmptyString)
    /\ written !! Some "mean_reward" = Some (CStr (repr mean_reward)).
Proof.
  intros Hlook Hrecords Hne Hfit.
  set (row := round_row (isoformat now) round_num client_id mean_reward std_reward
                episode_length loss None) in *.
  pose proof (plain_round_row now round_num client_id mean_reward std_reward
                episode_length loss) as Hplain. fold row in Hplain.
  assert (Hline : writerow row = line_of (map py_str row))
    by (apply writerow_plain; [simpl; lia | exact Hplain]).
  assert (Hreadable : readable_record (map py_str row))
    by (split; [simpl; lia | now apply cells_fit_readable]).
  exists (file_of (metrics_columns :: records) +:+ writerow row),
    (map (make_row metrics_columns) records),
    (make_row metrics_columns (map py_str row)).
  split; [now apply log_round_metrics_file|].
  split.
  { f_equal. rewrite Hline. unfold line_of. apply chars_inj. simpl.
    rewrite !chars_app. simpl.
    repeat first [rewrite <- app_assoc | rewrite <- app_comm_cons]. reflexivity. }
  split.
  { rewrite Hline, <- file_of_snoc.
    change ((metrics_columns :: records) ++ [map py_str row])
      with (metrics_columns :: (records ++ [map py_str row])).
    rewrite data_rows_file_of.
    - now rewrite map_app.
    - constructor; [apply readable_metrics_columns|].
      apply Forall_app_2; [assumption | now constructor]. }
  split; [apply length_map|].
  split; unfold make_row; simpl; now simplify_map_eq.
Qed.

End RoundTripTheorem.

Lemma log_round_none_round_trip_witness :
  lookup_node (files Scenario.fresh_world)
    (TrainingLogger.metrics_file Scenario.fresh_logger)
  = Some (File (file_of (TrainingLogger.metrics_columns :: [])))
  /\ Forall readable_record []
  /\ TrainingLogger.metrics_file Scenario.fresh_logger
     <> TrainingLogger.events_file Scenario.fresh_logger
  /\ cells_fit
       (TrainingLogger.round_row (isoformat Scenario.t1) 1 0 (Scenario.lit "0.42")
          TrainingLogger.default_std_reward TrainingLogger.default_episode_length
          (Scenario.lit "0.05") None) = true
  /\ exists (content : string) (rows : list row) (written : row),
       lookup_node
         (files (fst (TrainingLogger.log_round Scenario.fresh_logger 1 0
                        (Scenario.lit "0.42") TrainingLogger.default_std_reward
                        TrainingLogger.default_episode_length (Scenario.lit "0.05")
                        None Scenario.t1 Scenario.t1 Scenario.fresh_world)))
         (TrainingLogger.metrics_file Scenario.fresh_logger)
       = Some (File content)
       /\ content
          = file_of (TrainingLogger.metrics_columns :: [])
              +:+ (join "," [isoformat Scenario.t1; str_of_Z 1; str_of_Z 0;
                             repr (Scenario.lit "0.42");
                             repr TrainingLogger.default_std_reward;
                             str_of_Z TrainingLogger.default_episode_length;
                             repr (Scenario.lit "0.05")]
                     +:+ "," +:+ crlf)
       /\ data_rows content = Ok (rows ++ [written])
       /\ length rows = length (@nil (list string))
       /\ written !! Some "global_reward" = Some (CStr EmptyString)
       /\ written !! Some "mean_reward" = Some (CStr (repr (Scenario.lit "0.42"))).
Proof.
  split; [vm_compute; reflexivity|].
  split; [constructor|].
  split; [vm_compute; discriminate|].
  split; [vm_compute; reflexivity|].
  apply (log_round_none_round_trip Scenario.fresh_logger 1 0 (Scenario.lit "0.42")
           TrainingLogger.default_std_reward TrainingLogger.default_episode_length
           (Scenario.lit "0.05") Scenario.t1 Scenario.t1 Scenario.fresh_world []);
    [vm_compute; reflexivity | constructor | vm_compute; discriminate
     | vm_compute; reflexivity].
Defined.

(* ===================================================================== *)
(** * The latest metrics of the specification's scenario *)
(* ===================================================================== *)

(** The rows the logger writes have the columns of [metrics_columns]: there
    is no [accuracy] and no [reward] among them, so both default. *)
Lemma get_latest_metrics_defaults (rows : list row) (l : TrainingMonitor.latest_metrics) :
  Forall (fun r : row => r !! Some "accuracy" = None /\ r !! Some "reward" = None) rows ->
  TrainingMonitor.get_latest_metrics (Some rows) = Ok l ->
  TrainingMonitor.accuracy l = fzero /\ TrainingMonitor.reward l = fzero.
Proof.
  intros Hall. unfold TrainingMonitor.get_latest_metrics.
  destruct (last rows) as [latest|] eqn:Hlast.
  - apply last_Some in Hlast as [front ->].
    apply Forall_app in Hall as [_ Hlatest].
    apply Forall_singleton in Hlatest as [Hacc Hrew].
    io_unfold.
    destruct (TrainingMonitor.get_float latest "round" (of_Z 0)) as [x|e];
      [|discriminate].
    destruct (int_of_float x) as [n|e]; [|discriminate].
    unfold TrainingMonitor.get_float. rewrite Hacc, Hrew.
    intros [= <-]. split; reflexivity.
  - intros [= <-]. split; reflexivity.
Qed.

Lemma zip_insert_lookup_other (k : string) (fieldnames : list string) :
  forall (rec : list string) (d : row),
    k ∉ fieldnames -> zip_insert fieldnames rec d !! Some k = d !! Some k.
Proof.
  induction fieldnames as [|x fieldnames IH]; intros rec d Hk; [reflexivity|].
  apply not_elem_of_cons in Hk as [Hkx Hk].
  destruct rec as [|v rec]; [reflexivity|]. simpl.
  rewrite IH by assumption. apply lookup_insert_ne. congruence.
Qed.

Lemma fill_none_lookup_other (k : string) (keys : list string) : forall d : row,
  k ∉ keys ->
  fold_left (fun d k' => <[Some k' := CNone]> d) keys d !! Some k = d !! Some k.
Proof.
  induction keys as [|x keys IH]; intros d Hk; [reflexivity|].
  apply not_elem_of_cons in Hk as [Hkx Hk]. simpl.
  rewrite IH by assumption. apply lookup_insert_ne. congruence.
Qed.

(** A row has no other named columns than those of the header. *)
Lemma make_row_lookup_other (k : string) (fieldnames rec : list string) :
  k ∉ fieldnames -> make_row fieldnames rec !! Some k = None.
Proof.
  intros Hk. unfold make_row. cbv zeta.
  destruct (length fieldnames <? length rec)%nat.
  - rewrite lookup_insert_ne by discriminate.
    now rewrite zip_insert_lookup_other.
  - destruct (length rec <? length fieldnames)%nat.
    + rewrite fill_none_lookup_other.
      * now rewrite zip_insert_lookup_other.
      * intros Hin. apply Hk. eapply sublist_subseteq; [apply sublist_drop|exact Hin].
    + now rewrite zip_insert_lookup_other.
Qed.

(** Whatever rounds the logger has written, the latest metrics read from
    its file have the default accuracy and the default reward: its columns
    are those of [metrics_columns], and neither is among them. *)
Lemma latest_of_logger_file (records : list (list string)) (rows : list row)
    (l : TrainingMonitor.latest_metrics) :
  Forall readable_record records ->
  data_rows (file_of (TrainingLogger.metrics_columns :: records)) = Ok rows ->
  TrainingMonitor.get_latest_metrics (Some rows) = Ok l ->
  TrainingMonitor.accuracy l = fzero /\ TrainingMonitor.reward l = fzero.
Proof.
  intros Hrecords Hrows. rewrite data_rows_file_of in Hrows
    by (constructor; [apply readable_metrics_columns | assumption]).
  injection Hrows as <-. apply get_latest_metrics_defaults.
  apply Forall_map, Forall_forall. intros rec _.
  split; apply make_row_lookup_other; unfold TrainingLogger.metrics_columns;
    intros Hin; repeat (apply elem_of_cons in Hin as [Hin|Hin]; [discriminate|]);
    now apply elem_of_nil in Hin.
Qed.

(** C3, as the code has it. After the two [log_round] calls of the scenario
    on a fresh log, the latest metrics of the rows read back are round 2,
    accuracy 0.0 and reward 0.0: the file has a [mean_reward] column and no
    [reward] column, so the reward is the default. *)
Theorem latest_after_two_rounds :
  exists rows : list row,
    Scenario.two_rounds_rows = Some rows
    /\ length rows = 2%nat
    /\ TrainingMonitor.get_latest_metrics (Some rows)
       = Ok (TrainingMonitor.mkLatest 2 fzero fzero).
Proof.
  destruct Scenario.two_rounds_rows as [rows|] eqn:Hrows;
    [|vm_compute in Hrows; discriminate].
  exists rows. split; [reflexivity|].
  assert (Hsome : Some rows = Scenario.two_rounds_rows) by now rewrite Hrows.
  split.
  - apply (f_equal (fun o => length (default [] o))) in Hsome.
    simpl in Hsome. rewrite Hsome. vm_compute. reflexivity.
  - rewrite Hsome. vm_compute. reflexivity.
Qed.

(** C3 fails as stated: the reward of the latest metrics is not 0.55. *)
Lemma latest_after_two_rounds_reward_not_logged :
  TrainingMonitor.get_latest_metrics Scenario.two_rounds_rows
  <> Ok (TrainingMonitor.mkLatest 2 fzero (Scenario.lit "0.55")).
Proof. vm_compute. discriminate. Qed.


(* ===================================================================== *)
(** * What the operations leave untouched *)
(* ===================================================================== *)

Section Frames.

Implicit Types (fs : gmap path node) (p q : path) (w : world).

Lemma kept_refl fs : kept fs fs.
Proof. intros q n H. exact H. Qed.

Lemma kept_trans fs1 fs2 fs3 : kept fs1 fs2 -> kept fs2 fs3 -> kept fs1 fs3.
Proof. intros H12 H23 q n H. auto. Qed.

Lemma lookup_node_missing_nonempty fs p : lookup_node fs p = None -> p <> [].
Proof. intros H ->. discriminate. Qed.

(** Putting a node where there was none keeps what was there. *)
Lemma kept_insert_new fs p (n : node) : lookup_node fs p = None -> kept fs (<[p := n]> fs).
Proof.
  intros Hnone q m Hq.
  rewrite lookup_node_insert by (eapply lookup_node_missing_nonempty; eassumption).
  case_decide; [subst; congruence | assumption].
Qed.

Lemma os_mkdir_kept p w : kept (files w) (files (fst (os_mkdir p w))).
Proof.
  unfold os_mkdir. destruct (lookup_node (files w) p) eqn:Hp; [apply kept_refl|].
  destruct (lookup_node (files w) (parent p)) as [[c|]|]; simpl;
    try apply kept_refl.
  now apply kept_insert_new.
Qed.

Lemma mkdir_parents_rev_kept (rp : list string) : forall w,
  kept (files w) (files (fst (mkdir_parents_rev rp w))).
Proof.
  induction rp as [|name rparent IH]; intros w; simpl.
  - apply kept_refl.
  - set (p := rev rparent ++ [name]).
    pose proof (os_mkdir_kept p w) as H0.
    destruct (os_mkdir p w) as [w1 [[]|e]]; simpl in *; [assumption|].
    assert (Hother : kept (files w)
              (files (fst (match lookup_node (files w1) p with
                           | Some Dir => (w1, Ok tt)
                           | _ => (w1, @Raise unit e)
                           end))))
      by (destruct (lookup_node (files w1) p) as [[|]|]; assumption).
    destruct e; try exact Hother. clear Hother.
    pose proof (IH w1) as H1.
    destruct (mkdir_parents_rev rparent w1) as [w2 [[]|e]]; simpl in *;
      [|exact (kept_trans _ _ _ H0 H1)].
    pose proof (kept_trans _ _ _ H0 H1) as H02.
    pose proof (os_mkdir_kept p w2) as H2.
    destruct (os_mkdir p w2) as [w3 [[]|e]]; simpl in *;
      [exact (kept_trans _ _ _ H02 H2)|].
    pose proof (kept_trans _ _ _ H02 H2) as H03.
    destruct (lookup_node (files w3) p) as [[|]|]; assumption.
Qed.

Lemma mkdir_parents_kept p w : kept (files w) (files (fst (mkdir_parents p w))).
Proof. apply mkdir_parents_rev_kept. Qed.

(** A directory that is a regular file cannot be made. *)
Lemma mkdir_parents_on_file p w (c : string) :
  lookup_node (files w) p = Some (File c) ->
  mkdir_parents p w = (w, Raise FileExistsError).
Proof.
  intros Hfile. unfold mkdir_parents.
  rewrite <- (rev_involutive p) in Hfile.
  destruct (rev p) as [|name rparent]; [discriminate|].
  cbn [mkdir_parents_rev]. cbv zeta. unfold os_mkdir. rewrite Hfile. cbv beta iota.
  now rewrite Hfile.
Qed.

Lemma open_for_write_nonempty fs p (c : string) : open_for_write fs p = Ok c -> p <> [].
Proof. intros H ->. discriminate. Qed.

(** Writing a file changes that file only. *)
Lemma write_text_other p q (s : string) w :
  p <> q ->
  lookup_node (files (fst (write_text q s w))) p = lookup_node (files w) p.
Proof.
  intros Hpq. unfold write_text.
  destruct (open_for_write (files w) q) as [c|e] eqn:Hopen; [|reflexivity].
  simpl. rewrite lookup_node_insert by (eapply open_for_write_nonempty; eassumption).
  destruct (decide (q = p)); [congruence | reflexivity].
Qed.

Lemma write_text_new p (s : string) w :
  lookup_node (files w) p = None ->
  lookup_node (files w) (parent p) = Some Dir ->
  write_text p s w = (mkWorld (<[p := File s]> (files w)) (stdout w), Ok tt).
Proof.
  intros Hnone Hdir. unfold write_text, open_for_write. now rewrite Hnone, Hdir.
Qed.

Lemma append_text_new p (s : string) w :
  lookup_node (files w) p = None ->
  lookup_node (files w) (parent p) = Some Dir ->
  append_text p s w = (mkWorld (<[p := File s]> (files w)) (stdout w), Ok tt).
Proof.
  intros Hnone Hdir. unfold append_text, open_for_write. now rewrite Hnone, Hdir.
Qed.

Lemma app_string_empty_r (s : string) : s +:+ EmptyString = s.
Proof. apply chars_inj. rewrite chars_app. apply app_nil_r. Qed.

(** Appending never shortens: what the file held is still its beginning. *)
Lemma append_text_extends p q (s : string) w (c : string) :
  lookup_node (files w) p = Some (File c) ->
  exists suffix : string,
    lookup_node (files (fst (append_text q s w))) p = Some (File (c +:+ suffix)).
Proof.
  intros Hp. destruct (decide (p = q)) as [<-|Hpq].
  - unfold append_text, open_for_write. rewrite Hp. simpl.
    exists s. rewrite lookup_node_insert by (eapply lookup_node_file_nonempty; eassumption).
    now rewrite decide_True.
  - exists EmptyString. rewrite append_text_other by assumption.
    now rewrite app_string_empty_r.
Qed.

End Frames.

(* ===================================================================== *)
(** * Constructing the logger *)
(* ===================================================================== *)

Section LoggerInit.

Import TrainingLogger.

Lemma init_metrics_csv_kept (self : logger) (w : world) :
  kept (files w) (files (fst (_init_metrics_csv self w))).
Proof.
  intros q n Hq. unfold _init_metrics_csv. io_unfold.
  destruct (path_exists (files w) (metrics_file self)) eqn:Hex; [exact Hq|].
  rewrite write_text_other; [exact Hq|].
  intros ->. unfold path_exists in Hex. now rewrite Hq in Hex.
Qed.

Lemma init_actions_csv_kept (self : logger) (w : world) :
  kept (files w) (files (fst (_init_actions_csv self w))).
Proof.
  intros q n Hq. unfold _init_actions_csv. io_unfold.
  destruct (path_exists (files w) (actions_file self)) eqn:Hex; [exact Hq|].
  rewrite write_text_other; [exact Hq|].
  intros ->. unfold path_exists in Hex. now rewrite Hq in Hex.
Qed.

Lemma log_event_other (self : logger) (message level : string) (now : datetime)
    (w : world) (q : path) :
  q <> events_file self ->
  lookup_node (files (fst (_log_event self message level now w))) q
  = lookup_node (files w) q.
Proof.
  intros Hq. unfold _log_event. unfold mbind, io_bind, mret, io_ret.
  match goal with
  | |- context [append_text ?p ?s w] =>
      pose proof (append_text_other q p s w Hq) as Hother;
      destruct (append_text p s w) as [w1 [[]|e]]
  end; exact Hother.
Qed.

Lemma log_event_extends (self : logger) (message level : string) (now : datetime)
    (w : world) (q : path) (c : string) :
  lookup_node (files w) q = Some (File c) ->
  exists suffix : string,
    lookup_node (files (fst (_log_event self message level now w))) q
    = Some (File (c +:+ suffix)).
Proof.
  intros Hq. unfold _log_event. unfold mbind, io_bind, mret, io_ret.
  match goal with
  | |- context [append_text ?p ?s w] =>
      destruct (append_text_extends q p s w c Hq) as [suffix Hs];
      destruct (append_text p s w) as [w1 [[]|e]]
  end; eauto.
Qed.

(** The world in which the constructor makes its first event. *)
Lemma init_reaches (output_dir : path) (experiment_name : option string)
    (now_name now_event : datetime) (w : world) :
  exists w1 : world,
    kept (files w) (files w1)
    /\ (__init__ output_dir experiment_name now_name now_event w
        = _log_event
            (mkLogger output_dir
               (match experiment_name with
                | None => strftime_compact now_name
                | Some n => n
                end)
               (output_dir ++ ["metrics.csv"]) (output_dir ++ ["actions.csv"])
               (output_dir ++ ["training_log.txt"]) (output_dir ++ ["config.json"])
               [] [] [])
            "Logger initialized" "INFO" now_event w1
        \/ exists e, __init__ output_dir experiment_name now_name now_event w
                     = (w1, Raise e)).
Proof.
  unfold __init__. unfold mbind, io_bind.
  pose proof (mkdir_parents_kept output_dir w) as H0.
  destruct (mkdir_parents output_dir w) as [w0 [[]|e]]; simpl in H0;
    [|exists w0; split; [assumption | right; eauto]].
  cbv zeta.
  match goal with
  | |- context [_init_metrics_csv ?l w0] =>
      pose proof (init_metrics_csv_kept l w0) as H1;
      destruct (_init_metrics_csv l w0) as [w1 [[]|e]]; simpl in H1
  end;
    [|exists w1; split; [eapply kept_trans; eassumption | right; eauto]].
  match goal with
  | |- context [_init_actions_csv ?l w1] =>
      pose proof (init_actions_csv_kept l w1) as H2;
      destruct (_init_actions_csv l w1) as [w2 [[]|e]]; simpl in H2
  end;
    (exists w2; split; [eapply kept_trans; [eassumption|];
                         eapply kept_trans; eassumption|]);
    [left; reflexivity | right; eauto].
Qed.

(** X2. Constructing a logger changes nothing that is already there, except
    that it appends to the event log: every other path keeps its node, and
    a file keeps at least the beginning it had.  In particular an existing
    [metrics.csv] or [actions.csv] is not given a second header and loses
    no row. *)
Theorem logger_init_keeps_existing_files
    (output_dir : path) (experiment_name : option string)
    (now_name now_event : datetime) (w : world) (q : path) (n : node) :
  lookup_node (files w) q = Some n ->
  (q <> output_dir ++ ["training_log.txt"] ->
   lookup_node
     (files (fst (__init__ output_dir experiment_name now_name now_event w))) q
   = Some n)
  /\ (forall c : string, n = File c ->
      exists suffix : string,
        lookup_node
          (files (fst (__init__ output_dir experiment_name now_name now_event w))) q
        = Some (File (c +:+ suffix))).
Proof.
  intros Hq.
  destruct (init_reaches output_dir experiment_name now_name now_event w)
    as (w1 & Hkept & [-> | [e ->]]).
  - split.
    + intros Hne. rewrite log_event_other by exact Hne. now apply Hkept.
    + intros c ->. apply log_event_extends. now apply Hkept.
  - simpl. split; [intros _; now apply Hkept|].
    intros c ->. exists EmptyString. rewrite app_string_empty_r. now apply Hkept.
Qed.

Lemma snoc_ne_self (p : path) (x : string) : p ++ [x] <> p.
Proof.
  intros H. apply (f_equal (@length string)) in H.
  rewrite length_app in H. simpl in H. lia.
Qed.

Lemma snoc_ne (p : path) (x y : string) : x <> y -> p ++ [x] <> p ++ [y].
Proof. intros Hxy H. apply app_inv_head in H. congruence. Qed.

(** What [mkdir] makes lies on the way to the directory, not below it. *)
Lemma made_below (fs fs' : gmap path node) (p : path) (x : string) :
  made fs fs' p -> lookup_node fs' (p ++ [x]) = lookup_node fs (p ++ [x]).
Proof.
  intros [_ Hframe]. destruct (Hframe (p ++ [x])) as [H | (Hpre & _)]; [exact H|].
  apply prefix_length in Hpre. rewrite length_app in Hpre. simpl in Hpre. lia.
Qed.

Lemma lookup_node_insert_ne (fs : gmap path node) (p q : path) (n : node) :
  p <> [] -> p <> q -> lookup_node (<[p := n]> fs) q = lookup_node fs q.
Proof. intros Hp Hpq. rewrite lookup_node_insert by exact Hp. now rewrite decide_False. Qed.

Lemma lookup_node_insert_eq (fs : gmap path node) (p : path) (n : node) :
  p <> [] -> lookup_node (<[p := n]> fs) p = Some n.
Proof. intros Hp. rewrite lookup_node_insert by exact Hp. now rewrite decide_True. Qed.

Lemma snoc_nonempty (p : path) (x : string) : p ++ [x] <> [].
Proof. destruct p; discriminate. Qed.

(** X1. In a directory that can be made and holds none of the three logs, the
    constructor succeeds: afterwards [metrics.csv] and [actions.csv] hold
    their header line and nothing else, the event log holds the line of the
    first event, which is also the only entry of the event buffer, the two
    other buffers are empty, and nothing was printed. *)
Theorem logger_init_fresh_directory
    (output_dir : path) (experiment_name : option string)
    (now_name now_event : datetime) (w : world) :
  creatable (files w) output_dir = true ->
  lookup_node (files w) (output_dir ++ ["metrics.csv"]) = None ->
  lookup_node (files w) (output_dir ++ ["actions.csv"]) = None ->
  lookup_node (files w) (output_dir ++ ["training_log.txt"]) = None ->
  exists (w' : world) (l : logger),
    __init__ output_dir experiment_name now_name now_event w = (w', Ok l)
    /\ lookup_node (files w') (output_dir ++ ["metrics.csv"])
       = Some (File (line_of metrics_columns))
    /\ lookup_node (files w') (output_dir ++ ["actions.csv"])
       = Some (File (line_of actions_columns))
    /\ lookup_node (files w') (output_dir ++ ["training_log.txt"])
       = Some (File ("[" +:+ strftime_human now_event
                       +:+ "] [INFO] Logger initialized" +:+ nl))
    /\ metrics_buffer l = []
    /\ actions_buffer l = []
    /\ events_buffer l
       = ["[" +:+ strftime_human now_event +:+ "] [INFO] Logger initialized" +:+ nl]
    /\ stdout w' = stdout w.
Proof.
  intros Hc Hm Ha He.
  destruct (mkdir_parents_ok output_dir w Hc) as (fs1 & Hrun & Hmade).
  pose proof (made_below _ _ _ "metrics.csv" Hmade) as Hm1. rewrite Hm in Hm1.
  pose proof (made_below _ _ _ "actions.csv" Hmade) as Ha1. rewrite Ha in Ha1.
  pose proof (made_below _ _ _ "training_log.txt" Hmade) as He1. rewrite He in He1.
  destruct Hmade as [Hdir _].
  set (fm := output_dir ++ ["metrics.csv"]) in *.
  set (fa := output_dir ++ ["actions.csv"]) in *.
  set (fe := output_dir ++ ["training_log.txt"]) in *.
  assert (Hfm : fm <> []) by apply snoc_nonempty.
  assert (Hfa : fa <> []) by apply snoc_nonempty.
  assert (Hfe : fe <> []) by apply snoc_nonempty.
  assert (Hma : fm <> fa) by (apply snoc_ne; discriminate).
  assert (Hme : fm <> fe) by (apply snoc_ne; discriminate).
  assert (Hae : fa <> fe) by (apply snoc_ne; discriminate).
  assert (Hmd : fm <> output_dir) by apply snoc_ne_self.
  assert (Had : fa <> output_dir) by apply snoc_ne_self.
  assert (Hpm : parent fm = output_dir) by apply parent_snoc.
  assert (Hpa : parent fa = output_dir) by apply parent_snoc.
  assert (Hpe : parent fe = output_dir) by apply parent_snoc.
  unfold __init__, _init_metrics_csv, _init_actions_csv, _log_event.
  unfold mbind, io_bind, mret, io_ret, exists_. rewrite Hrun.
  cbn [files stdout metrics_file actions_file events_file]. fold fm fa fe.
  unfold path_exists. rewrite Hm1.
  rewrite write_text_new by (cbn [files]; rewrite ?Hpm; assumption).
  cbn [files stdout].
  rewrite (lookup_node_insert_ne _ fm fa) by assumption. rewrite Ha1.
  rewrite write_text_new
    by (cbn [files]; rewrite ?Hpa, ?lookup_node_insert_ne by assumption; assumption).
  cbn [files stdout].
  rewrite append_text_new
    by (cbn [files]; rewrite ?Hpe, !lookup_node_insert_ne by congruence; assumption).
  eexists _, _. split; [reflexivity|]. cbn [files stdout].
  split; [rewrite !lookup_node_insert_ne by congruence;
          now rewrite lookup_node_insert_eq|].
  split; [rewrite lookup_node_insert_ne by congruence;
          now rewrite lookup_node_insert_eq|].
  split; [now rewrite lookup_node_insert_eq|].
  repeat split.
Qed.

(** X3. Where the output directory is a regular file, the constructor raises
    [FileExistsError] and leaves the world as it was. *)
Theorem logger_init_on_regular_file
    (output_dir : path) (experiment_name : option string)
    (now_name now_event : datetime) (w : world) (c : string) :
  lookup_node (files w) output_dir = Some (File c) ->
  __init__ output_dir experiment_name now_name now_event w = (w, Raise FileExistsError).
Proof.
  intros Hfile. unfold __init__. unfold mbind, io_bind.
  now rewrite (mkdir_parents_on_file output_dir w c Hfile).
Qed.

End LoggerInit.

(* ===================================================================== *)
(** * A session of rounds, written and read back *)
(* ===================================================================== *)

Section Session.

Import TrainingLogger.

Lemma plain_round_row_any (timestamp : datetime) (round_num client_id : Z)
    (mean_reward std_reward : float) (episode_length : Z) (loss : float)
    (global_reward : option float) :
  Forall plain
    (map py_str
       (round_row (isoformat timestamp) round_num client_id mean_reward std_reward
          episode_length loss global_reward)).
Proof.
  destruct global_reward; simpl; repeat constructor;
    first [apply plain_isoformat | apply plain_str_of_Z | apply plain_repr].
Qed.

(** The logger a successful [log_round] returns: the same files, the row
    at the end of the metrics buffer, one more line in the event buffer. *)
Lemma log_round_result (self : logger) (round_num client_id : Z)
    (mean_reward std_reward : float) (episode_length : Z) (loss : float)
    (global_reward : option float) (now now_event : datetime)
    (w w' : world) (self' : logger) :
  log_round self round_num client_id mean_reward std_reward episode_length loss
    global_reward now now_event w = (w', Ok self') ->
  metrics_file self' = metrics_file self
  /\ events_file self' = events_file self
  /\ actions_file self' = actions_file self
  /\ metrics_buffer self'
     = metrics_buffer self
         ++ [round_row (isoformat now) round_num client_id mean_reward std_reward
               episode_length loss global_reward]
  /\ actions_buffer self' = actions_buffer self
  /\ length (events_buffer self') = S (length (events_buffer self)).
Proof.
  unfold log_round, _log_event. unfold mbind, io_bind, mret, io_ret.
  destruct (append_text (metrics_file self) _ w) as [w1 [[]|e]]; [|discriminate].
  destruct (append_text (events_file self) _ w1) as [w2 [[]|e]]; [|discriminate].
  intros [= _ <-]. cbn. rewrite length_app. simpl. repeat split. lia.
Qed.

Lemma log_rounds_rows (calls : list round_call) :
  forall (self : logger) (w : world) (records : list (list string)),
    lookup_node (files w) (metrics_file self)
    = Some (File (file_of (metrics_columns :: records))) ->
    metrics_file self <> events_file self ->
    Forall (fun c => cells_fit (call_row c) = true) calls ->
    is_ok (snd (log_rounds self calls w)) = true ->
    exists self' : logger,
      snd (log_rounds self calls w) = Ok self'
      /\ metrics_buffer self' = metrics_buffer self ++ map call_row calls
      /\ lookup_node (files (fst (log_rounds self calls w))) (metrics_file self)
         = Some (File (file_of (metrics_columns
                                  :: records
                                       ++ map (fun c => map py_str (call_row c)) calls)))
      /\ Forall readable_record (map (fun c => map py_str (call_row c)) calls).
Proof.
  induction calls as [|c rest IH]; intros self w records Hlook Hne Hfit Hok.
  - exists self. simpl. rewrite !app_nil_r. repeat split; [assumption | constructor].
  - apply Forall_cons in Hfit as [Hc Hfit].
    cbn [log_rounds] in *. unfold mbind, io_bind in *.
    pose proof (log_round_metrics_file self (call_round_num c) (call_client_id c)
                  (call_mean_reward c) (call_std_reward c) (call_episode_length c)
                  (call_loss c) (call_global_reward c) (call_now c) (call_now_event c)
                  w _ Hlook Hne) as Hfile.
    destruct (log_round self (call_round_num c) (call_client_id c)
                (call_mean_reward c) (call_std_reward c) (call_episode_length c)
                (call_loss c) (call_global_reward c) (call_now c) (call_now_event c) w)
      as [w1 [self1|e]] eqn:Hrun; [|discriminate].
    destruct (log_round_result _ _ _ _ _ _ _ _ _ _ _ _ _ Hrun)
      as (Hmf & Hef & _ & Hbuf & _).
    cbn [fst] in Hfile. fold (call_row c) in Hfile, Hbuf.
    pose proof (plain_round_row_any (call_now c) (call_round_num c) (call_client_id c)
                  (call_mean_reward c) (call_std_reward c) (call_episode_length c)
                  (call_loss c) (call_global_reward c)) as Hplain.
    fold (call_row c) in Hplain.
    assert (Hlen : (2 <= length (call_row c))%nat) by (simpl; lia).
    rewrite (writerow_plain _ Hlen Hplain), <- file_of_snoc in Hfile.
    change ((metrics_columns :: records) ++ [map py_str (call_row c)])
      with (metrics_columns :: (records ++ [map py_str (call_row c)])) in Hfile.
    rewrite <- Hmf in Hfile.
    destruct (IH self1 w1 _ Hfile) as (self' & Hres & Hbuf' & Hfile' & Hread);
      [congruence | assumption | assumption |].
    exists self'. split; [assumption|]. split.
    { rewrite Hbuf', Hbuf. cbn [map]. now rewrite <- app_assoc. }
    split.
    { rewrite <- Hmf, Hfile'. cbn [map]. now rewrite <- app_assoc. }
    constructor; [|assumption].
    split; [rewrite length_map; exact Hlen | now apply cells_fit_readable].
Qed.

(** X4. Rounds logged one after the other are read back in the order they were
    written: when every call of a session succeeds, the metrics file read
    with [csv.DictReader] yields the rows that were there followed by one row
    for each call, in call order, and the metrics buffer has grown by the
    same rows. *)
Theorem log_rounds_read_back (self : logger) (calls : list round_call) (w : world)
    (records : list (list string)) :
  lookup_node (files w) (metrics_file self)
  = Some (File (file_of (metrics_columns :: records))) ->
  Forall readable_record records ->
  metrics_file self <> events_file self ->
  Forall (fun c => cells_fit (call_row c) = true) calls ->
  is_ok (snd (log_rounds self calls w)) = true ->
  exists (self' : logger) (content : string),
    snd (log_rounds self calls w) = Ok self'
    /\ metrics_buffer self' = metrics_buffer self ++ map call_row calls
    /\ lookup_node (files (fst (log_rounds self calls w))) (metrics_file self)
       = Some (File content)
    /\ data_rows content
       = Ok (map (make_row metrics_columns) records
               ++ map (fun c => make_row metrics_columns (map py_str (call_row c)))
                    calls).
Proof.
  intros Hlook Hrecords Hne Hfit Hok.
  destruct (log_rounds_rows calls self w records Hlook Hne Hfit Hok)
    as (self' & Hres & Hbuf & Hfile & Hread).
  eexists self', _. split; [exact Hres|]. split; [exact Hbuf|].
  split; [exact Hfile|].
  rewrite data_rows_file_of.
  - now rewrite map_app, map_map.
  - constructor; [apply readable_metrics_columns|].
    now apply Forall_app_2.
Qed.

End Session.

(* ===================================================================== *)
(** * A round whose event cannot be logged *)
(* ===================================================================== *)

Section RoundFailure.

Import TrainingLogger.

(** Replacing the content of a file changes nothing to what can be opened
    elsewhere. *)
Lemma open_for_write_insert_file (fs : gmap path node) (p q : path) (c c' : string) :
  lookup_node fs p = Some (File c) -> p <> q ->
  open_for_write (<[p := File c']> fs) q = open_for_write fs q.
Proof.
  intros Hp Hpq. pose proof (lookup_node_file_nonempty _ _ _ Hp) as Hne.
  unfold open_for_write.
  rewrite (lookup_node_insert_ne _ p q) by assumption.
  destruct (lookup_node fs q) as [[|]|]; try reflexivity.
  rewrite lookup_node_insert by assumption.
  case_decide as Hpar; [|reflexivity]. now rewrite <- Hpar, Hp.
Qed.

(** X5. [log_round] is not all-or-nothing: when the metrics file can be
    appended to but the event log cannot be opened, the call raises the
    error of the event log after the row has been written, so the row is in
    the file although the call failed (and no logger with the row in its
    buffer is returned). *)
Theorem log_round_row_written_before_event_failure
    (self : logger) (round_num client_id : Z) (mean_reward std_reward : float)
    (episode_length : Z) (loss : float) (global_reward : option float)
    (now now_event : datetime) (w : world) (old : string) (e : exn) :
  lookup_node (files w) (metrics_file self) = Some (File old) ->
  metrics_file self <> events_file self ->
  open_for_write (files w) (events_file self) = Raise e ->
  log_round self round_num client_id mean_reward std_reward episode_length loss
    global_reward now now_event w
  = (mkWorld
       (<[metrics_file self :=
            File (old +:+ writerow
                            (round_row (isoformat now) round_num client_id mean_reward
                               std_reward episode_length loss global_reward))]>
          (files w))
       (stdout w),
     Raise e).
Proof.
  intros Hlook Hne Hev.
  unfold log_round, _log_event. unfold mbind, io_bind, mret, io_ret.
  unfold append_text at 1. unfold open_for_write at 1. rewrite Hlook.
  unfold append_text. cbn [files stdout].
  now rewrite (open_for_write_insert_file _ _ _ old _ Hlook Hne), Hev.
Qed.

End RoundFailure.

(* ===================================================================== *)
(** * Action distributions of any length *)
(* ===================================================================== *)

Section ActionRows.

Import TrainingLogger.

Variables (self : logger) (round_num client_id : Z) (now : datetime).

Lemma lookup_map {A B : Type} (f : A -> B) (l : list A) (i : nat) :
  map f l !! i = f <$> (l !! i).
Proof.
  revert i. induction l as [|x l IH]; intros [|i]; simpl; auto.
Qed.

(** The entry at place [i] of the padded counts: the count, or zero past
    the end of the input. *)
Lemma padded_lookup (action_counts : list Z) (i : nat) :
  (i < 12)%nat ->
  (if (length action_counts =? 12)%nat then action_counts
   else action_counts ++ replicate (12 - length action_counts) 0) !! i
  = Some (default 0 (action_counts !! i)).
Proof.
  intros Hi. destruct (Nat.eqb_spec (length action_counts) 12) as [Hlen|Hlen].
  - destruct (lookup_lt_is_Some_2 action_counts i) as [z Hz]; [lia|].
    now rewrite Hz.
  - destruct (action_counts !! i) as [z|] eqn:Hz.
    + now rewrite (lookup_app_l_Some _ _ _ _ Hz).
    + apply lookup_ge_None in Hz. rewrite lookup_app_r by assumption.
      simpl. apply lookup_replicate_2. lia.
Qed.

(** X6. [log_action_distribution] never drops, cuts or reorders counts: the
    row it appends has the timestamp, the round and the client followed by
    the counts as given, then zeros up to twelve entries when there were
    fewer.  The action part has as many entries as the larger of 12 and the
    length of the input. *)
Theorem log_action_distribution_keeps_counts
    (action_counts : list Z) (w : world) (old : string) :
  open_for_write (files w) (actions_file self) = Ok old ->
  exists row : list pyval,
    log_action_distribution self round_num client_id action_counts now w
    = appended_action_row self w old row
    /\ take 3 row = [PStr (isoformat now); PInt round_num; PInt client_id]
    /\ drop 3 row
       = map PInt (action_counts ++ replicate (12 - length action_counts) 0)
    /\ length (drop 3 row) = Nat.max 12 (length action_counts).
Proof.
  intros Hopen.
  eexists. split; [apply log_action_distribution_appends, Hopen|].
  split; [reflexivity|]. cbn [app drop]. rewrite drop_0.
  destruct (Nat.eqb_spec (length action_counts) 12) as [Hlen|Hlen].
  - rewrite Hlen. simpl. rewrite app_nil_r. split; [reflexivity|].
    rewrite length_map. lia.
  - split; [reflexivity|].
    rewrite length_map, length_app, length_replicate. lia.
Qed.

End ActionRows.

(* ===================================================================== *)
(** * Rows longer or shorter than the header *)
(* ===================================================================== *)

Section DictRows.

Lemma zip_insert_lookup (fieldnames : list string) :
  forall (rec : list string) (d : row) (i : nat) (k v : string),
    NoDup fieldnames ->
    fieldnames !! i = Some k -> rec !! i = Some v ->
    zip_insert fieldnames rec d !! Some k = Some (CStr v).
Proof.
  induction fieldnames as [|x fieldnames IH]; intros rec d i k v Hnd Hk Hv;
    [discriminate|].
  apply NoDup_cons in Hnd as [Hx Hnd].
  destruct rec as [|y rec]; [destruct i; discriminate|].
  destruct i as [|i]; simpl in Hk, Hv.
  - injection Hk as ->. injection Hv as ->. simpl.
    rewrite zip_insert_lookup_other by assumption. apply lookup_insert_eq.
  - simpl. eapply IH; eassumption.
Qed.

Lemma zip_insert_lookup_None (fieldnames : list string) :
  forall (rec : list string) (d : row),
    zip_insert fieldnames rec d !! None = d !! None.
Proof.
  induction fieldnames as [|x fieldnames IH]; intros rec d; [reflexivity|].
  destruct rec as [|y rec]; [reflexivity|]. simpl.
  rewrite IH. now apply lookup_insert_ne.
Qed.

Lemma fill_none_lookup_None (keys : list string) : forall d : row,
  fold_left (fun d k' => <[Some k' := CNone]> d) keys d !! None = d !! None.
Proof.
  induction keys as [|x keys IH]; intros d; [reflexivity|]. simpl.
  rewrite IH. now apply lookup_insert_ne.
Qed.

(** A field that is there is found under the name of its column. *)
Lemma make_row_lookup (fieldnames rec : list string) (i : nat) (k v : string) :
  NoDup fieldnames ->
  fieldnames !! i = Some k -> rec !! i = Some v ->
  make_row fieldnames rec !! Some k = Some (CStr v).
Proof.
  intros Hnd Hk Hv. unfold make_row. cbv zeta.
  destruct (length fieldnames <? length rec)%nat.
  - rewrite lookup_insert_ne by discriminate. eapply zip_insert_lookup; eassumption.
  - destruct (length rec <? length fieldnames)%nat.
    + rewrite fill_none_lookup_other; [eapply zip_insert_lookup; eassumption|].
      intros Hin. apply list_elem_of_lookup in Hin as [j Hj].
      rewrite lookup_drop in Hj.
      pose proof (NoDup_lookup _ _ _ _ Hnd Hk Hj) as Hij.
      apply lookup_lt_Some in Hv. lia.
    + eapply zip_insert_lookup; eassumption.
Qed.

(** The fields past the last column sit, as a list, under the key [None];
    a record that is not longer than the header has no such key. *)
Lemma make_row_surplus (fieldnames rec : list string) :
  make_row fieldnames rec !! None
  = if (length fieldnames <? length rec)%nat
    then Some (CList (drop (length fieldnames) rec))
    else None.
Proof.
  unfold make_row. cbv zeta.
  destruct (length fieldnames <? length rec)%nat.
  - apply lookup_insert_eq.
  - destruct (length rec <? length fieldnames)%nat.
    + now rewrite fill_none_lookup_None, zip_insert_lookup_None.
    + now rewrite zip_insert_lookup_None.
Qed.

End DictRows.

Section ActionReadBack.

Import TrainingLogger.

Lemma actions_columns_NoDup : NoDup actions_columns.
Proof.
  unfold actions_columns.
  repeat (apply NoDup_cons_2;
          [intros Hin;
           repeat (apply elem_of_cons in Hin as [Hin|Hin]; [discriminate|]);
           now apply elem_of_nil in Hin|]).
  apply NoDup_nil_2.
Qed.

Lemma readable_actions_columns : readable_record actions_columns.
Proof.
  split; [simpl; lia|].
  repeat constructor; unfold field_limit; simpl; lia.
Qed.

Lemma plain_action_row (now : datetime) (round_num client_id : Z)
    (action_counts : list Z) :
  Forall plain (map py_str (action_row now round_num client_id action_counts)).
Proof.
  unfold action_row. rewrite map_app. apply Forall_app_2.
  - simpl. repeat constructor;
      first [apply plain_isoformat | apply plain_str_of_Z].
  - rewrite map_map. apply Forall_map, Forall_forall. intros z _.
    apply plain_str_of_Z.
Qed.

(** X7. An action distribution is read back under the names of its columns:
    after [log_action_distribution] on an actions file as the logger writes
    it, [csv.DictReader] yields the rows that were there and one more, in
    which the column of action [i] holds the text of the count at place [i]
    (of zero, when the input had no such place), and the counts past the
    twelfth, if any, are not lost but sit as a list under the key [None]. *)
Theorem action_distribution_read_back
    (self : logger) (round_num client_id : Z) (action_counts : list Z)
    (now : datetime) (w : world) (records : list (list string)) :
  lookup_node (files w) (actions_file self)
  = Some (File (file_of (actions_columns :: records))) ->
  Forall readable_record records ->
  cells_fit (action_row now round_num client_id action_counts) = true ->
  exists (content : string) (written : row),
    lookup_node
      (files (fst (log_action_distribution self round_num client_id action_counts
                     now w)))
      (actions_file self)
    = Some (File content)
    /\ data_rows content = Ok (map (make_row actions_columns) records ++ [written])
    /\ (forall (i : nat) (name : string),
          (i < 12)%nat -> actions_columns !! (3 + i)%nat = Some name ->
          written !! Some name
          = Some (CStr (str_of_Z (default 0 (action_counts !! i)))))
    /\ written !! None
       = if (12 <? length action_counts)%nat
         then Some (CList (map str_of_Z (drop 12 action_counts)))
         else None.
Proof.
  intros Hlook Hrecords Hfit.
  pose proof (lookup_node_file_nonempty _ _ _ Hlook) as Hp.
  assert (Hopen : open_for_write (files w) (actions_file self)
                  = Ok (file_of (actions_columns :: records)))
    by (unfold open_for_write; now rewrite Hlook).
  rewrite (log_action_distribution_appends self round_num client_id now
             action_counts w _ Hopen).
  fold (action_row now round_num client_id action_counts).
  set (row := action_row now round_num client_id action_counts) in *.
  pose proof (plain_action_row now round_num client_id action_counts) as Hplain.
  fold row in Hplain.
  assert (Hlen : (2 <= length row)%nat)
    by (unfold row, action_row; rewrite length_app; simpl; lia).
  assert (Hreadable : readable_record (map py_str row))
    by (split; [now rewrite length_map | now apply cells_fit_readable]).
  exists (file_of (actions_columns :: records) +:+ writerow row),
    (make_row actions_columns (map py_str row)).
  split.
  { unfold appended_action_row. cbn [fst files]. now apply lookup_node_insert_eq. }
  split.
  { rewrite (writerow_plain _ Hlen Hplain), <- file_of_snoc.
    change ((actions_columns :: records) ++ [map py_str row])
      with (actions_columns :: (records ++ [map py_str row])).
    rewrite data_rows_file_of.
    - now rewrite map_app.
    - constructor; [apply readable_actions_columns|].
      apply Forall_app_2; [assumption | now constructor]. }
  split.
  { intros i name Hi Hname.
    apply (make_row_lookup _ _ (3 + i)); [apply actions_columns_NoDup | exact Hname|].
    unfold row, action_row. rewrite map_app.
    rewrite lookup_app_r by (simpl; lia).
    replace (3 + i - length (map py_str [PStr (isoformat now); PInt round_num;
                                         PInt client_id]))%nat
      with i by (simpl; lia).
    rewrite !lookup_map, padded_lookup by exact Hi. reflexivity. }
  rewrite make_row_surplus.
  assert (Hl : length (map py_str row)
               = (3 + Nat.max 12 (length action_counts))%nat).
  { unfold row, action_row. rewrite length_map, length_app, length_map. simpl.
    destruct (Nat.eqb_spec (length action_counts) 12) as [H12|H12].
    - rewrite H12. reflexivity.
    - rewrite length_app, length_replicate. lia. }
  rewrite Hl. change (length actions_columns) with 15%nat.
  destruct (Nat.ltb_spec 12 (length action_counts)) as [Hlong|Hshort].
  - replace (15 <? 3 + Nat.max 12 (length action_counts))%nat with true
      by (symmetry; apply Nat.ltb_lt; lia).
    do 2 f_equal. unfold row, action_row.
    replace (length action_counts =? 12)%nat with false
      by (symmetry; apply Nat.eqb_neq; lia).
    replace (12 - length action_counts)%nat with 0%nat by lia.
    simpl replicate. rewrite app_nil_r, map_app, map_map.
    change 15%nat with (length (map py_str [PStr (isoformat now); PInt round_num;
                                            PInt client_id]) + 12)%nat.
    rewrite drop_app_add. now rewrite skipn_map.
  - replace (15 <? 3 + Nat.max 12 (length action_counts))%nat with false
      by (symmetry; apply Nat.ltb_ge; lia).
    reflexivity.
Qed.

End ActionReadBack.

(* ===================================================================== *)
(** * Operations that only log an event *)
(* ===================================================================== *)

Section EventOperations.

Import TrainingLogger.

Lemma log_event_only (self : logger) (message level : string) (now : datetime)
    (w : world) :
  only_event_log self w (_log_event self message level now w).
Proof.
  split; [|split].
  - intros q Hq. now apply log_event_other.
  - unfold _log_event, append_text. unfold mbind, io_bind, mret, io_ret.
    destruct (open_for_write (files w) (events_file self)); reflexivity.
  - intros self'. unfold _log_event, append_text.
    unfold mbind, io_bind, mret, io_ret.
    destruct (open_for_write (files w) (events_file self)) as [old|e] eqn:Hopen;
      [|discriminate].
    cbn [fst snd files]. intros [= <-]. cbn.
    split; [reflexivity|]. split; [reflexivity|].
    eexists _, old. split; [reflexivity|]. split; [reflexivity|].
    apply lookup_node_insert_eq. eapply open_for_write_nonempty; eassumption.
Qed.

(** X8. [log_episode], [log_error] and [log_checkpoint] touch the event log
    and nothing else: no other file changes, in particular neither
    [metrics.csv] nor [actions.csv], nothing is printed, and on success the
    metrics and actions buffers are as before, while the event log and the
    event buffer have each grown by the same single line. *)
Theorem event_operations_touch_only_the_event_log (self : logger) (w : world) :
  (forall (round_num client_id episode_num : Z) (total_reward : float) (length : Z)
          (now : datetime),
      only_event_log self w
        (log_episode self round_num client_id episode_num total_reward length now w))
  /\ (forall (message : string) (exception : option string) (now : datetime),
        only_event_log self w (log_error self message exception now w))
  /\ (forall (round_num : Z) (checkpoint_path : string) (now : datetime),
        only_event_log self w (log_checkpoint self round_num checkpoint_path now w)).
Proof.
  split; [|split]; intros;
    [unfold log_episode | unfold log_error | unfold log_checkpoint];
    apply log_event_only.
Qed.

End EventOperations.

(* ===================================================================== *)
(** * The monitor only reads *)
(* ===================================================================== *)

Section ReadsOnly.

Context {A B : Type}.

Lemma reads_only_ret (a : A) : reads_only (mret a : io A).
Proof. split; reflexivity. Qed.

Lemma reads_only_lift (r : result A) : reads_only (lift r).
Proof. split; reflexivity. Qed.

Lemma reads_only_bind (m : io A) (k : A -> io B) :
  reads_only m -> (forall a, reads_only (k a)) -> reads_only (m ≫= k).
Proof.
  intros [Hm1 Hm2] Hk. unfold mbind, io_bind. split.
  - intros w. specialize (Hm1 w). destruct (m w) as [w1 [a|e]]; simpl in *.
    + now rewrite (proj1 (Hk a) w1).
    + assumption.
  - intros w1 w2 Hw. pose proof (Hm2 w1 w2 Hw) as Hres.
    pose proof (Hm1 w1) as H1. pose proof (Hm1 w2) as H2.
    destruct (m w1) as [w1' [a1|e1]], (m w2) as [w2' [a2|e2]]; simpl in *;
      try discriminate.
    + injection Hres as ->. apply (proj2 (Hk a2)). congruence.
    + congruence.
Qed.

(** The result of a sequence of two such computations: the second can be
    run in the world of the first. *)
Lemma bind_result (m : io A) (k : A -> io B) (w : world) :
  reads_only m -> (forall a, reads_only (k a)) ->
  snd ((m ≫= k) w)
  = match snd (m w) with
    | Ok a => snd (k a w)
    | Raise e => Raise e
    end.
Proof.
  intros [Hm1 _] Hk. unfold mbind, io_bind.
  specialize (Hm1 w). destruct (m w) as [w1 [a|e]]; simpl in *; [|reflexivity].
  now apply (proj2 (Hk a)).
Qed.

Lemma reads_only_try (body : io A) (handler : exn -> io A) :
  reads_only body -> (forall e, reads_only (handler e)) ->
  reads_only (try_except body handler).
Proof.
  intros [Hm1 Hm2] Hk. unfold try_except. split.
  - intros w. specialize (Hm1 w). destruct (body w) as [w1 [a|e]]; simpl in *.
    + assumption.
    + now rewrite (proj1 (Hk e) w1).
  - intros w1 w2 Hw. pose proof (Hm2 w1 w2 Hw) as Hres.
    pose proof (Hm1 w1) as H1. pose proof (Hm1 w2) as H2.
    destruct (body w1) as [w1' [a1|e1]], (body w2) as [w2' [a2|e2]]; simpl in *;
      try discriminate.
    + exact Hres.
    + injection Hres as ->. apply (proj2 (Hk e2)). congruence.
Qed.

Lemma try_result (body : io A) (handler : exn -> io A) (w : world) :
  reads_only body -> (forall e, reads_only (handler e)) ->
  snd (try_except body handler w)
  = match snd (body w) with
    | Ok a => Ok a
    | Raise e => snd (handler e w)
    end.
Proof.
  intros [Hm1 _] Hk. unfold try_except.
  specialize (Hm1 w). destruct (body w) as [w1 [a|e]]; simpl in *; [reflexivity|].
  now apply (proj2 (Hk e)).
Qed.

End ReadsOnly.

Lemma reads_only_print (s : string) : reads_only (print s).
Proof. split; reflexivity. Qed.

Lemma reads_only_exists (p : path) : reads_only (exists_ p).
Proof.
  split; [reflexivity|]. intros w1 w2 Hw. unfold exists_. simpl. now rewrite Hw.
Qed.

Lemma reads_only_read_text (p : path) : reads_only (read_text p).
Proof.
  split.
  - intros w. unfold read_text. now destruct (lookup_node (files w) p) as [[|]|].
  - intros w1 w2 Hw. unfold read_text. rewrite Hw.
    now destruct (lookup_node (files w2) p) as [[|]|].
Qed.

Lemma reads_only_check_files_exist (self : TrainingMonitor.monitor) :
  reads_only (TrainingMonitor.check_files_exist self).
Proof.
  split; [reflexivity|]. intros w1 w2 Hw.
  unfold TrainingMonitor.check_files_exist. simpl. now rewrite Hw.
Qed.

(** The steps by which such a computation is recognised. *)
Ltac reads_only_step :=
  first
    [ apply reads_only_ret
    | apply reads_only_print
    | apply reads_only_exists
    | apply reads_only_read_text
    | apply reads_only_lift
    | apply reads_only_check_files_exist
    | assumption
    | apply reads_only_try
    | apply reads_only_bind
    | match goal with
      | |- reads_only (if ?b then _ else _) => destruct b
      | |- reads_only (match ?x with _ => _ end) => destruct x
      | |- forall _, _ => intro
      end ].

Ltac reads_only_tac := repeat reads_only_step.

Section MonitorReads.

Import TrainingMonitor.

Variable self : monitor.

Lemma reads_only_for_each {A : Type} (f : A -> io unit) (l : list A) :
  (forall x, reads_only (f x)) -> reads_only (for_each f l).
Proof.
  intros Hf. induction l as [|x l IH]; simpl; reads_only_tac. apply Hf.
Qed.

Lemma reads_only_load_metrics (agent_name : string) :
  reads_only (load_metrics self agent_name).
Proof. unfold load_metrics. reads_only_tac. Qed.

Lemma reads_only_load_summary : reads_only (load_summary self).
Proof. unfold load_summary. reads_only_tac. Qed.

Lemma reads_only_display_header (clk : clock_view) :
  reads_only (display_header self clk).
Proof. unfold display_header. reads_only_tac. Qed.

Lemma reads_only_progress_step (available : gmap string bool)
    (all_metrics : metrics_table) (agent : string) :
  reads_only (progress_step self available all_metrics agent).
Proof.
  unfold progress_step. pose proof reads_only_load_metrics. reads_only_tac.
  all: apply reads_only_load_metrics.
Qed.

Lemma reads_only_progress_loop (available : gmap string bool) (agents : list string) :
  forall all_metrics : metrics_table,
    reads_only (progress_loop self available all_metrics agents).
Proof.
  induction agents as [|agent rest IH]; intros all_metrics; simpl.
  - apply reads_only_ret.
  - apply reads_only_bind; [apply reads_only_progress_step | exact IH].
Qed.

Lemma reads_only_display_training_progress :
  reads_only (display_training_progress self).
Proof.
  unfold display_training_progress.
  do 2 (apply reads_only_bind; [apply reads_only_print | intros _]).
  apply reads_only_bind; [apply reads_only_check_files_exist | intros available].
  destruct (negb (any_available available)); [apply reads_only_print|].
  do 2 (apply reads_only_bind; [apply reads_only_print | intros _]).
  apply reads_only_bind; [apply reads_only_progress_loop | intros all_metrics].
  destruct (best_agent all_metrics); reads_only_tac.
Qed.

Lemma reads_only_history_step (agent : string) : reads_only (history_step self agent).
Proof.
  unfold history_step.
  apply reads_only_bind; [apply reads_only_load_metrics | intros data].
  destruct data as [[|r d]|]; try apply reads_only_print.
  cbv zeta. destruct (mapM _ _); apply reads_only_print.
Qed.

Lemma reads_only_display_recent_history : reads_only (display_recent_history self).
Proof.
  unfold display_recent_history.
  do 3 (apply reads_only_bind; [apply reads_only_print | intros _]).
  apply reads_only_for_each, reads_only_history_step.
Qed.

Lemma reads_only_summary_row (r : row) :
  reads_only (line ← lift (summary_line r); print line).
Proof. reads_only_tac. Qed.

Lemma reads_only_display_summary : reads_only (display_summary self).
Proof.
  unfold display_summary.
  apply reads_only_bind; [apply reads_only_load_summary | intros data].
  destruct data as [[|r d]|]; try apply reads_only_ret.
  do 3 (apply reads_only_bind; [apply reads_only_print | intros _]).
  apply reads_only_for_each, reads_only_summary_row.
Qed.

End MonitorReads.

Section CycleReads.

Import TrainingMonitor.

Lemma reads_only_display_cycle (self : monitor) (clk : clock_view) :
  reads_only (display_cycle self clk).
Proof.
  unfold display_cycle. cbv zeta.
  apply reads_only_bind; [apply reads_only_display_header | intros _].
  apply reads_only_bind; [apply reads_only_display_training_progress | intros _].
  apply reads_only_bind; [apply reads_only_display_recent_history | intros _].
  apply reads_only_bind; [apply reads_only_display_summary | intros _].
  reads_only_tac.
Qed.

Lemma reads_only_run_loop (clocks : list clock_view) :
  forall self : monitor, reads_only (run_loop self clocks).
Proof.
  induction clocks as [|clk rest IH]; intros self; simpl.
  - apply reads_only_ret.
  - apply reads_only_bind; [apply reads_only_display_cycle | exact IH].
Qed.

Lemma reads_only_run (self : monitor) (clocks : list clock_view) (total_runtime : Z) :
  reads_only (run self clocks total_runtime).
Proof.
  unfold run.
  do 3 (apply reads_only_bind; [apply reads_only_print | intros _]).
  apply reads_only_bind; [apply reads_only_run_loop | intros self'].
  reads_only_tac.
Qed.

(** X20. The monitor never writes: whatever the files hold, and however many
    display cycles it goes through, [run] leaves the file system exactly as
    it found it (it only prints), also when a cycle ends in an exception. *)
Theorem run_never_writes (self : monitor) (clocks : list clock_view)
    (total_runtime : Z) (w : world) :
  files (fst (run self clocks total_runtime w)) = files w.
Proof. apply (proj1 (reads_only_run self clocks total_runtime)). Qed.

End CycleReads.

(* ===================================================================== *)
(** * The monitor from the command line *)
(* ===================================================================== *)

Section Keeps.

Context {A B : Type}.



End Keeps.

Section Main.

Import TrainingMonitor.



End Main.

(* ===================================================================== *)
(** * Loading never raises *)
(* ===================================================================== *)

Section Loading.

Import TrainingMonitor.

Variable self : monitor.


Lemma load_metrics_result (agent_name : string) (w : world) :
  snd (load_metrics self agent_name w) = Ok (stored_rows self agent_name (files w)).
Proof.
  unfold load_metrics, stored_rows.
  destruct (metric_files self !! agent_name) as [filepath|]; [|reflexivity].
  io_unfold. unfold path_exists, read_text, data_rows. cbv beta.
  destruct (lookup_node (files w) filepath) as [[c|]|] eqn:Hlook;
    cbv beta iota; rewrite ?Hlook; try reflexivity.
  destruct (DictReader _) as [[|r d]|e]; reflexivity.
Qed.


End Loading.

(* ===================================================================== *)
(** * When a display cycle runs to its end *)
(* ===================================================================== *)

Section Loops.

Import TrainingMonitor.

Lemma for_each_result {A : Type} (f : A -> io unit) (g : A -> bool) (l : list A)
    (w : world) :
  (forall x, reads_only (f x)) ->
  (forall x, is_ok (snd (f x w)) = g x) ->
  is_ok (snd (for_each f l w)) = forallb g l.
Proof.
  intros Hf Hg. induction l as [|x l IH]; [reflexivity|]. simpl.
  rewrite bind_result; [|apply Hf | intros _; now apply reads_only_for_each].
  rewrite <- (Hg x). destruct (snd (f x w)) as [[]|e]; [exact IH | reflexivity].
Qed.

Lemma for_each_ok {A : Type} (f : A -> io unit) (l : list A) (w : world) :
  (forall x, reads_only (f x)) ->
  (forall x, snd (f x w) = Ok tt) ->
  snd (for_each f l w) = Ok tt.
Proof.
  intros Hf Hok. induction l as [|x l IH]; [reflexivity|]. simpl.
  rewrite bind_result; [|apply Hf | intros _; now apply reads_only_for_each].
  now rewrite Hok.
Qed.

End Loops.

Section RecentHistory.

Import TrainingMonitor.

Variable self : monitor.

Lemma history_step_ok (agent : string) (w : world) :
  snd (history_step self agent w) = Ok tt.
Proof.
  unfold history_step. rewrite bind_result.
  - rewrite load_metrics_result.
    destruct (stored_rows self agent (files w)) as [[|r d]|]; try reflexivity.
    cbv zeta. now destruct (mapM _ _).
  - apply reads_only_load_metrics.
  - intros data. destruct data as [[|r d]|]; try apply reads_only_print.
    cbv zeta. destruct (mapM _ _); apply reads_only_print.
Qed.

Lemma display_recent_history_ok (w : world) :
  snd (display_recent_history self w) = Ok tt.
Proof.
  unfold display_recent_history.
  do 3 (rewrite bind_result;
        [cbn [snd print]
        | apply reads_only_print
        | intros _;
          repeat (apply reads_only_bind; [apply reads_only_print | intros _]);
          apply reads_only_for_each, reads_only_history_step]).
  apply for_each_ok; [apply reads_only_history_step | intros x; apply history_step_ok].
Qed.

(** X15. The history panel cannot fail and writes nothing: whatever the files
    of the agents hold (missing, unreadable, no rows, fields that are no
    numbers, rounds that are infinite), [display_recent_history] returns
    normally. *)
Theorem display_recent_history_never_raises (w : world) :
  snd (display_recent_history self w) = Ok tt
  /\ files (fst (display_recent_history self w)) = files w.
Proof.
  split; [apply display_recent_history_ok|].
  apply (proj1 (reads_only_display_recent_history self)).
Qed.

End RecentHistory.

Section Summary.

Import TrainingMonitor.

Variable self : monitor.

Lemma load_summary_result (w : world) :
  snd (load_summary self w)
  = Ok (match lookup_node (files w) (summary_file self) with
        | Some (File c) =>
            match data_rows c with
            | Ok rows => Some rows
            | Raise _ => None
            end
        | _ => None
        end).
Proof.
  unfold load_summary. io_unfold. unfold path_exists, read_text, data_rows. cbv beta.
  destruct (lookup_node (files w) (summary_file self)) as [[c|]|] eqn:Hlook;
    cbv beta iota; rewrite ?Hlook; try reflexivity.
  destruct (DictReader _) as [rows|e]; reflexivity.
Qed.

(** X16. Without rows to show, the summary panel is silent: when the summary
    file is missing, is a directory, cannot be parsed or holds no data row,
    [display_summary] prints nothing and returns, the world unchanged; an
    error in reading the file is swallowed without a message. *)
Theorem display_summary_silent_without_rows (w : world) :
  summary_rows self (files w) = [] ->
  display_summary self w = (w, Ok tt).
Proof.
  unfold summary_rows, display_summary, load_summary. io_unfold.
  unfold path_exists, read_text, data_rows. cbv beta.
  destruct (lookup_node (files w) (summary_file self)) as [[c|]|] eqn:Hlook;
    cbv beta iota; rewrite ?Hlook; try reflexivity.
  destruct (DictReader _) as [[|r rows]|e]; [reflexivity | discriminate | reflexivity].
Qed.

Lemma summary_row_ok (r : row) (w : world) :
  is_ok (snd ((line ← lift (summary_line r); print line) w)) = is_ok (summary_line r).
Proof. io_unfold. now destruct (summary_line r). Qed.

Lemma display_summary_ok (w : world) :
  is_ok (snd (display_summary self w)) = summary_readable self (files w).
Proof.
  unfold display_summary, summary_readable, summary_rows.
  rewrite bind_result; [|apply reads_only_load_summary|].
  - rewrite load_summary_result.
    destruct (lookup_node (files w) (summary_file self)) as [[c|]|]; try reflexivity.
    destruct (data_rows c) as [[|r rows]|e]; try reflexivity.
    do 3 (rewrite bind_result;
          [cbn [snd print]
          | apply reads_only_print
          | intros _;
            repeat (apply reads_only_bind; [apply reads_only_print | intros _]);
            apply reads_only_for_each, reads_only_summary_row]).
    apply for_each_result; [apply reads_only_summary_row | intros x; apply summary_row_ok].
  - intros data. destruct data as [[|r d]|]; try apply reads_only_ret.
    do 3 (apply reads_only_bind; [apply reads_only_print | intros _]).
    apply reads_only_for_each, reads_only_summary_row.
Qed.

End Summary.

Section Progress.

Import TrainingMonitor.

Variable self : monitor.

Lemma any_available_false {V : Type} (f : V -> bool) (m : gmap string V) :
  any_available (f <$> m) = false ->
  forall (k : string) (v : V), m !! k = Some v -> f v = false.
Proof.
  unfold any_available. intros Hex k v Hk.
  apply not_true_iff_false. intros Hfv. apply not_true_iff_false in Hex. apply Hex.
  apply existsb_exists. exists (k, true). split; [|reflexivity].
  apply list_elem_of_In, elem_of_map_to_list. rewrite lookup_fmap, Hk. simpl.
  now rewrite Hfv.
Qed.

Lemma any_available_none {V : Type} (f : V -> bool) (m : gmap string V) :
  (forall (k : string) (v : V), m !! k = Some v -> f v = false) ->
  any_available (f <$> m) = false.
Proof.
  unfold any_available. intros Hall.
  apply not_true_iff_false. intros Hex.
  apply existsb_exists in Hex as ([k b] & Hin & Hb). simpl in Hb. subst b.
  apply list_elem_of_In, elem_of_map_to_list in Hin.
  rewrite lookup_fmap in Hin.
  destruct (m !! k) as [v|] eqn:Hk; [|discriminate].
  simpl in Hin. injection Hin as Hfv. rewrite (Hall k v Hk) in Hfv. discriminate.
Qed.

(** An agent whose file is not there has no rows. *)
Lemma stored_rows_missing (agent : string) (fs : gmap path node) :
  (forall p, metric_files self !! agent = Some p -> path_exists fs p = false) ->
  stored_rows self agent fs = None.
Proof.
  intros Hmiss. unfold stored_rows.
  destruct (metric_files self !! agent) as [p|]; [|reflexivity].
  specialize (Hmiss p eq_refl). unfold path_exists in Hmiss.
  now destruct (lookup_node fs p).
Qed.

Lemma progress_step_ok (all_metrics : metrics_table) (agent : string) (w : world) :
  is_ok (snd (progress_step self (path_exists (files w) <$> metric_files self)
                all_metrics agent w))
  = latest_readable self (files w) agent.
Proof.
  unfold progress_step, latest_readable. rewrite lookup_fmap.
  destruct (metric_files self !! agent) as [p|] eqn:Hp; simpl.
  - destruct (path_exists (files w) p) eqn:Hex; simpl.
    + rewrite bind_result; [|apply reads_only_load_metrics|].
      * rewrite load_metrics_result.
        destruct (stored_rows self agent (files w)) as [[|r d]|]; try reflexivity.
        rewrite bind_result; [|apply reads_only_lift | intros latest; reads_only_tac].
        cbn [snd lift].
        now destruct (get_latest_metrics (Some (r :: d))).
      * intros df. destruct df as [[|r d]|]; reads_only_tac.
    + rewrite stored_rows_missing; [reflexivity|]. intros q Hq. congruence.
  - rewrite stored_rows_missing; [reflexivity|]. intros q Hq. congruence.
Qed.

Lemma progress_loop_ok (agents : list string) (w : world) :
  forall all_metrics : metrics_table,
    is_ok (snd (progress_loop self (path_exists (files w) <$> metric_files self)
                  all_metrics agents w))
    = forallb (latest_readable self (files w)) agents.
Proof.
  induction agents as [|agent rest IH]; intros all_metrics; [reflexivity|].
  simpl. rewrite bind_result;
    [|apply reads_only_progress_step | intros t; apply reads_only_progress_loop].
  rewrite <- (progress_step_ok all_metrics agent w).
  destruct (snd (progress_step _ _ _ _ _)) as [t|e]; [apply IH | reflexivity].
Qed.

Lemma print_bind {B : Type} (s : string) (k : unit -> io B) (w : world) :
  (print s ≫= k) w = k tt (mkWorld (files w) (stdout w ++ [s])).
Proof. reflexivity. Qed.

Lemma check_files_exist_bind {B : Type} (k : gmap string bool -> io B) (w : world) :
  (check_files_exist self ≫= k) w = k (path_exists (files w) <$> metric_files self) w.
Proof. reflexivity. Qed.

Lemma latest_readable_waiting (fs : gmap path node) (agents : list string) :
  any_available (path_exists fs <$> metric_files self) = false ->
  forallb (latest_readable self fs) agents = true.
Proof.
  intros Hnone. apply forallb_forall. intros agent _.
  unfold latest_readable. rewrite stored_rows_missing; [reflexivity|].
  intros p Hp. exact (any_available_false _ _ Hnone agent p Hp).
Qed.

Lemma display_training_progress_ok (w : world) :
  is_ok (snd (display_training_progress self w))
  = forallb (latest_readable self (files w)) AGENTS.
Proof.
  unfold display_training_progress.
  rewrite print_bind. cbv beta. rewrite print_bind. cbv beta.
  rewrite check_files_exist_bind. cbn [files].
  destruct (any_available (path_exists (files w) <$> metric_files self)) eqn:Hany;
    cbn [negb].
  - rewrite print_bind. cbv beta. rewrite print_bind. cbv beta.
    match goal with
    | |- context [(progress_loop _ _ _ _ ≫= _) ?w4] =>
        pose proof (progress_loop_ok AGENTS w4 []) as Hloop
    end.
    cbn [files] in Hloop. rewrite <- Hloop.
    rewrite bind_result;
      [|apply reads_only_progress_loop
       |intros t; destruct (best_agent t); reads_only_tac].
    destruct (snd (progress_loop _ _ _ _ _)) as [t|e]; [|reflexivity].
    destruct (best_agent t); reflexivity.
  - symmetry. now apply latest_readable_waiting.
Qed.

(** X13. With no metrics file there, the progress panel shows its two title
    lines and the waiting message, and no table. *)
Theorem display_training_progress_waits_for_files (w : world) :
  (forall (agent : string) (filepath : path),
      metric_files self !! agent = Some filepath ->
      path_exists (files w) filepath = false) ->
  display_training_progress self w
  = (mkWorld (files w)
       (stdout w ++ [nl +:+ "TRAINING PROGRESS"; rule "-";
                     "No training data found. Waiting for training to start..."]),
     Ok tt).
Proof.
  intros Hmissing. unfold display_training_progress.
  rewrite print_bind. cbv beta. rewrite print_bind. cbv beta.
  rewrite check_files_exist_bind. cbn [files].
  rewrite (any_available_none _ _ Hmissing). cbn [negb].
  unfold print. cbn [files stdout]. now rewrite <- !app_assoc.
Qed.

End Progress.

Section Cycle.

Import TrainingMonitor.

Lemma bind_ok {A B : Type} (m : io A) (k : A -> io B) (w : world) (a : A) :
  reads_only m -> (forall x, reads_only (k x)) ->
  snd (m w) = Ok a -> snd ((m ≫= k) w) = snd (k a w).
Proof. intros Hm Hk Ha. rewrite bind_result by assumption. now rewrite Ha. Qed.

Lemma display_header_ok (self : monitor) (clk : clock_view) (w : world) :
  snd (display_header self clk w) = Ok tt.
Proof. reflexivity. Qed.

Lemma reads_only_cycle_end (self : monitor) :
  reads_only (_ ← print (nl +:+ rule "=");
              _ ← print ("Refresh #" +:+ str_of_Z (iteration self)
                           +:+ " | Press Ctrl+C to exit");
              _ ← print (rule "=");
              mret self).
Proof. reads_only_tac. Qed.

Lemma display_cycle_result (self : monitor) (clk : clock_view) (w : world) :
  snd (display_cycle self clk w)
  = if cycle_completes self (files w)
    then Ok (mkMonitor (results_dir self) (metric_files self) (summary_file self)
               (start_time self) (iteration self + 1))
    else match snd (display_cycle self clk w) with
         | Ok m => Raise ValueError
         | Raise e => Raise e
         end.
Proof.
  unfold cycle_completes.
  set (self1 := mkMonitor (results_dir self) (metric_files self) (summary_file self)
                  (start_time self) (iteration self + 1)).
  change (forallb (latest_readable self (files w)) AGENTS)
    with (forallb (latest_readable self1 (files w)) AGENTS).
  change (summary_readable self (files w)) with (summary_readable self1 (files w)).
  rewrite <- (display_training_progress_ok self1 w), <- (display_summary_ok self1 w).
  unfold display_cycle. fold self1. cbv zeta.
  pose proof (reads_only_cycle_end self1) as Hend.
  pose proof (reads_only_display_summary self1) as Hsum.
  pose proof (reads_only_display_recent_history self1) as Hhist.
  pose proof (reads_only_display_training_progress self1) as Hprog.
  pose proof (reads_only_display_header self1 clk) as Hhead.
  rewrite (bind_ok _ _ w tt Hhead); [|intros _; reads_only_tac | reflexivity].
  rewrite bind_result; [|assumption | intros _; reads_only_tac].
  destruct (snd (display_training_progress self1 w)) as [[]|e]; [|reflexivity].
  rewrite (bind_ok _ _ w tt Hhist);
    [|intros _; reads_only_tac
     |apply display_recent_history_ok].
  rewrite bind_result; [|assumption | intros _; reads_only_tac].
  destruct (snd (display_summary self1 w)) as [[]|e]; reflexivity.
Qed.

(** X17. A display cycle runs to its end exactly when the latest metrics of
    every agent can be extracted (the agent has no rows, or the round,
    accuracy and reward of its last row are numbers) and every row of the
    summary can be rendered; otherwise it ends in an exception. *)
Theorem display_cycle_completes_exactly_when
    (self : monitor) (clk : clock_view) (w : world) :
  is_ok (snd (display_cycle self clk w)) = cycle_completes self (files w).
Proof.
  rewrite display_cycle_result.
  destruct (cycle_completes self (files w)); [reflexivity|].
  now destruct (snd (display_cycle self clk w)).
Qed.

End Cycle.

Section Run.

Import TrainingMonitor.

Lemma run_loop_ok (clocks : list clock_view) (w : world) :
  forall self : monitor,
    is_ok (snd (run_loop self clocks w))
    = is_nil clocks || cycle_completes self (files w).
Proof.
  induction clocks as [|clk rest IH]; intros self; [reflexivity|].
  simpl. rewrite bind_result;
    [|apply reads_only_display_cycle | intros self'; apply reads_only_run_loop].
  rewrite display_cycle_result.
  destruct (cycle_completes self (files w)) eqn:Hc.
  - rewrite IH.
    change (cycle_completes (mkMonitor _ _ _ _ _) (files w))
      with (cycle_completes self (files w)).
    rewrite Hc. apply orb_true_r.
  - now destruct (snd (display_cycle self clk w)).
Qed.

(** X18. Over files that do not change, the monitor fails in its first display
    cycle or never: [run] reaches the lines it prints on interruption
    exactly when it was interrupted before the first cycle or a cycle can
    run to its end. *)
Theorem run_completes_exactly_when (self : monitor) (clocks : list clock_view)
    (total_runtime : Z) (w : world) :
  is_ok (snd (run self clocks total_runtime w))
  = is_nil clocks || cycle_completes self (files w).
Proof.
  unfold run.
  rewrite print_bind. cbv beta. rewrite print_bind. cbv beta.
  rewrite print_bind. cbv beta.
  match goal with
  | |- context [(run_loop _ _ ≫= _) ?w3] =>
      pose proof (run_loop_ok clocks w3 self) as Hloop
  end.
  cbn [files] in Hloop. rewrite <- Hloop.
  rewrite bind_result; [|apply reads_only_run_loop | intros self'; reads_only_tac].
  now destruct (snd (run_loop _ _ _)).
Qed.

Lemma run_loop_iteration (clocks : list clock_view) (w : world) :
  forall self self' : monitor,
    snd (run_loop self clocks w) = Ok self' ->
    iteration self' = iteration self + Z.of_nat (length clocks)
    /\ results_dir self' = results_dir self
    /\ metric_files self' = metric_files self
    /\ summary_file self' = summary_file self
    /\ start_time self' = start_time self.
Proof.
  induction clocks as [|clk rest IH]; intros self self'.
  - simpl. intros [= <-]. repeat split. lia.
  - cbn [run_loop]. rewrite bind_result;
      [|apply reads_only_display_cycle | intros self1; apply reads_only_run_loop].
    rewrite display_cycle_result.
    destruct (cycle_completes self (files w)).
    + intros Hrest. destruct (IH _ _ Hrest) as (Hi & Hr & Hm & Hs & Ht).
      cbn [iteration results_dir metric_files summary_file start_time] in *.
      repeat split; try assumption. rewrite Hi, length_cons. lia.
    + destruct (snd (display_cycle self clk w)); discriminate.
Qed.

(** X19. The refresh counter counts the cycles: when [run] is interrupted
    after its display cycles have all run to their end, the monitor's
    [iteration] has grown by the number of cycles, and the directory and
    the files it watches are those it started with. *)
Theorem run_counts_cycles (self self' : monitor) (clocks : list clock_view)
    (total_runtime : Z) (w : world) :
  snd (run self clocks total_runtime w) = Ok self' ->
  iteration self' = iteration self + Z.of_nat (length clocks)
  /\ results_dir self' = results_dir self
  /\ metric_files self' = metric_files self
  /\ summary_file self' = summary_file self.
Proof.
  unfold run.
  rewrite print_bind. cbv beta. rewrite print_bind. cbv beta.
  rewrite print_bind. cbv beta.
  rewrite bind_result; [|apply reads_only_run_loop | intros self1; reads_only_tac].
  destruct (snd (run_loop self clocks _)) as [self1|e] eqn:Hloop; [|discriminate].
  cbn. intros [= <-].
  destruct (run_loop_iteration _ _ _ _ Hloop) as (Hi & Hr & Hm & Hs & _).
  repeat split; assumption.
Qed.

End Run.

(* ===================================================================== *)
(** * A last row cut short *)
(* ===================================================================== *)

Section ShortRow.

Import TrainingMonitor.

Lemma fill_none_lookup_in (k : string) (keys : list string) : forall d : row,
  k ∈ keys ->
  fold_left (fun d k' => <[Some k' := CNone]> d) keys d !! Some k = Some CNone.
Proof.
  induction keys as [|x keys IH]; intros d Hk; [now apply elem_of_nil in Hk|].
  simpl. destruct (decide (k ∈ keys)) as [Hin|Hout]; [now apply IH|].
  apply elem_of_cons in Hk as [->|Hk]; [|contradiction].
  rewrite fill_none_lookup_other by assumption. apply lookup_insert_eq.
Qed.

(** The columns a record is too short for are [None] in its row. *)
Lemma make_row_missing (fieldnames rec : list string) (k : string) :
  k ∈ drop (length rec) fieldnames ->
  make_row fieldnames rec !! Some k = Some CNone.
Proof.
  intros Hk. unfold make_row. cbv zeta.
  assert (Hlen : (length rec < length fieldnames)%nat).
  { destruct (Nat.lt_ge_cases (length rec) (length fieldnames)) as [H|H]; [exact H|].
    rewrite drop_ge in Hk by exact H. now apply elem_of_nil in Hk. }
  replace (length fieldnames <? length rec)%nat with false
    by (symmetry; apply Nat.ltb_ge; lia).
  replace (length rec <? length fieldnames)%nat with true
    by (symmetry; apply Nat.ltb_lt; lia).
  now apply fill_none_lookup_in.
Qed.

Lemma get_float_none (r : row) (key : string) (default : float) :
  r !! Some key = Some CNone -> get_float r key default = Raise TypeError.
Proof. intros H. unfold get_float. now rewrite H. Qed.

(** X10. A last line that is cut short breaks [get_latest_metrics]: when the
    last record of the table has fewer fields than the header and the
    column [round], [accuracy] or [reward] is among those it lacks, the
    call raises, whatever the rows before it hold (the reader fills the
    missing column with [None], which [float] does not accept). *)
Theorem get_latest_metrics_raises_on_short_last_row
    (fieldnames : list string) (records : list (list string)) (rec : list string)
    (key : string) :
  key ∈ ["round"; "accuracy"; "reward"] ->
  key ∈ drop (length rec) fieldnames ->
  is_ok (get_latest_metrics (Some (map (make_row fieldnames) (records ++ [rec]))))
  = false.
Proof.
  intros Hkey Hmissing. pose proof (make_row_missing _ _ _ Hmissing) as Hnone.
  unfold get_latest_metrics. rewrite map_app. cbn [map]. rewrite last_snoc.
  unfold mbind, result_bind, rbind.
  repeat (apply elem_of_cons in Hkey as [->|Hkey]).
  - now rewrite (get_float_none _ _ _ Hnone).
  - destruct (get_float _ "round" _) as [x|e]; [|reflexivity].
    destruct (int_of_float x) as [n|e]; [|reflexivity].
    now rewrite (get_float_none _ _ _ Hnone).
  - destruct (get_float _ "round" _) as [x|e]; [|reflexivity].
    destruct (int_of_float x) as [n|e]; [|reflexivity].
    destruct (get_float _ "accuracy" _) as [a|e]; [|reflexivity].
    now rewrite (get_float_none _ _ _ Hnone).
  - now apply elem_of_nil in Hkey.
Qed.

End ShortRow.

(* ===================================================================== *)
(** * Statistics: rows without a value, largest and smallest *)
(* ===================================================================== *)

Section StatisticsMore.

Import TrainingMonitor.

Lemma selected_app (d1 d2 : list row) (column : string) :
  selected (d1 ++ d2) column = selected d1 column ++ selected d2 column.
Proof. unfold selected. apply omap_app. Qed.

Lemma selected_blank (r : row) (column : string) :
  blank r column -> selected [r] column = [].
Proof.
  unfold blank, selected. simpl.
  destruct (r !! Some column) as [c|]; [|reflexivity]. now intros ->.
Qed.

(** [get_statistics] looks at the rows only through the values it selects. *)
Lemma get_statistics_selected (d1 d2 : list row) (column : string) :
  selected d1 column = selected d2 column ->
  get_statistics (Some d1) column = get_statistics (Some d2) column.
Proof.
  intros Hsel.
  assert (Hbody : forall d, selected d column = [] ->
                            get_statistics (Some d) column = zero_stats).
  { intros d Hd. unfold get_statistics. destruct d as [|r d]; [reflexivity|].
    unfold statistics_body. now rewrite Hd. }
  destruct d1 as [|r1 d1], d2 as [|r2 d2]; [reflexivity | | |].
  - rewrite (Hbody (r2 :: d2)) by (now rewrite <- Hsel). reflexivity.
  - rewrite (Hbody (r1 :: d1)) by (now rewrite Hsel). reflexivity.
  - unfold get_statistics, statistics_body. now rewrite Hsel.
Qed.

(** X11. A row without a value in the column counts for nothing: a row that
    lacks the column, or holds an empty cell in it, can be removed (or
    added) anywhere without changing the statistics; it is not taken as a
    zero. *)
Theorem get_statistics_ignores_blank_rows
    (before after : list row) (r : row) (column : string) :
  blank r column ->
  get_statistics (Some (before ++ r :: after)) column
  = get_statistics (Some (before ++ after)) column.
Proof.
  intros Hblank. apply get_statistics_selected.
  change (r :: after) with ([r] ++ after).
  now rewrite !selected_app, (selected_blank r column Hblank).
Qed.

Lemma flt_opp (a b : float) : flt (SFopp a) (SFopp b) = flt b a.
Proof.
  apply eq_true_iff_eq. rewrite !flt_rank.
  destruct a as [[]|[]| |[] m e], b as [[]|[]| |[] m' e']; simpl; unfold rank_lt;
    try tauto; lia.
Qed.

Lemma fold_left_ext_fn {X Y : Type} (f g : X -> Y -> X) (l : list Y) :
  (forall x y, f x y = g x y) -> forall x, fold_left f l x = fold_left g l x.
Proof.
  intros Hfg. induction l as [|y l IH]; intros x; simpl; [reflexivity|].
  now rewrite Hfg, IH.
Qed.

Lemma py_max_is_max_by (values : list float) :
  values <> [] -> py_max_by (fun x => x) values = Some (py_max values).
Proof. destruct values; [contradiction | reflexivity]. Qed.

Lemma py_min_is_max_by (values : list float) :
  values <> [] -> py_max_by SFopp values = Some (py_min values).
Proof.
  destruct values as [|x rest]; [contradiction|]. intros _. simpl. f_equal.
  apply fold_left_ext_fn. intros cur y. now rewrite flt_opp.
Qed.

(** X12. The largest and the smallest value [get_statistics] reports are
    values of the column, and bound it: no value is greater than the
    maximum, none smaller than the minimum. *)
Theorem get_statistics_extremes (data : list row) (column : string) :
  Forall numeric (selected data column) ->
  Forall (fun x => is_finite
                     (squared_deviation (arithmetic_mean (valid_values data column)) x)
                   = true)
    (valid_values data column) ->
  valid_values data column <> [] ->
  max (get_statistics (Some data) column) ∈ valid_values data column
  /\ min (get_statistics (Some data) column) ∈ valid_values data column
  /\ forall v : float, v ∈ valid_values data column ->
       flt (max (get_statistics (Some data) column)) v = false
       /\ flt v (min (get_statistics (Some data) column)) = false.
Proof.
  intros Hnum Hfin Hne. rewrite (get_statistics_valid data column Hnum Hfin).
  set (values := valid_values data column) in *.
  assert (Hspec : spec_statistics values
                  = mkStats (arithmetic_mean values) (population_std values)
                      (py_max values) (py_min values))
    by (destruct values; [contradiction | reflexivity]).
  rewrite Hspec. cbn [max min].
  destruct (py_max_by_first_maximal _ _ _ (py_max_is_max_by values Hne))
    as (i & Hi & Hmax & _).
  destruct (py_max_by_first_maximal _ _ _ (py_min_is_max_by values Hne))
    as (j & Hj & Hmin & _).
  split; [apply list_elem_of_lookup; eauto|].
  split; [apply list_elem_of_lookup; eauto|].
  intros v [k Hk]%list_elem_of_lookup. split; [eauto|].
  rewrite <- flt_opp. eauto.
Qed.

End StatisticsMore.

(* ===================================================================== *)
(** * The agents of the table *)
(* ===================================================================== *)

Section TableAgents.

Import TrainingMonitor.

Variable self : monitor.

Lemma has_rows_missing (agent : string) (fs : gmap path node) :
  (forall p, metric_files self !! agent = Some p -> path_exists fs p = false) ->
  has_rows self fs agent = false.
Proof. intros H. unfold has_rows. now rewrite stored_rows_missing. Qed.

Lemma stored_rows_nonempty (agent : string) (fs : gmap path node) :
  stored_rows self agent fs <> Some [].
Proof.
  unfold stored_rows.
  destruct (metric_files self !! agent) as [p|]; [|discriminate].
  destruct (lookup_node fs p) as [[c|]|]; try discriminate.
  destruct (data_rows c) as [[|r d]|e]; discriminate.
Qed.

Lemma progress_step_agents (all_metrics t : metrics_table) (agent : string)
    (w : world) :
  snd (progress_step self (path_exists (files w) <$> metric_files self)
         all_metrics agent w) = Ok t ->
  map fst t
  = map fst all_metrics ++ (if has_rows self (files w) agent then [agent] else []).
Proof.
  unfold progress_step. rewrite lookup_fmap.
  destruct (metric_files self !! agent) as [p|] eqn:Hp; simpl.
  - destruct (path_exists (files w) p) eqn:Hex; simpl.
    + rewrite bind_result; [|apply reads_only_load_metrics|].
      * rewrite load_metrics_result. unfold has_rows.
        destruct (stored_rows self agent (files w)) as [[|r d]|] eqn:Hstored.
        -- now apply stored_rows_nonempty in Hstored.
        -- rewrite bind_result; [|apply reads_only_lift | intros latest; reads_only_tac].
           cbn [snd lift].
           destruct (get_latest_metrics (Some (r :: d))) as [latest|e]; [|discriminate].
           intros [= <-]. now rewrite map_app.
        -- intros [= <-]. now rewrite app_nil_r.
      * intros df. destruct df as [[|r d]|]; reads_only_tac.
    + rewrite has_rows_missing by (intros q Hq; congruence).
      intros [= <-]. now rewrite app_nil_r.
  - rewrite has_rows_missing by (intros q Hq; congruence).
    intros [= <-]. now rewrite app_nil_r.
Qed.

Lemma progress_loop_agents (agents : list string) (w : world) :
  forall all_metrics t : metrics_table,
    snd (progress_loop self (path_exists (files w) <$> metric_files self)
           all_metrics agents w) = Ok t ->
    map fst t = map fst all_metrics ++ List.filter (has_rows self (files w)) agents.
Proof.
  induction agents as [|agent rest IH]; intros all_metrics t; simpl.
  - intros [= <-]. now rewrite app_nil_r.
  - rewrite bind_result;
      [|apply reads_only_progress_step | intros t1; apply reads_only_progress_loop].
    destruct (snd (progress_step _ _ _ _ _)) as [t1|e] eqn:Hstep; [|discriminate].
    intros Hrest. rewrite (IH _ _ Hrest), (progress_step_agents _ _ _ _ Hstep).
    rewrite <- app_assoc. now destruct (has_rows self (files w) agent).
Qed.

(** X14. The table from which the best performer is chosen lists exactly the
    agents that have at least one row in their file, in the order PPO, SAC,
    TD3, Random: an agent whose file is missing, unreadable or without rows
    is shown as N/A and takes no part in the choice. *)
Theorem progress_table_lists_agents_with_rows (w : world) (t : metrics_table) :
  snd (progress_loop self (path_exists (files w) <$> metric_files self) [] AGENTS w)
  = Ok t ->
  map fst t = List.filter (has_rows self (files w)) AGENTS.
Proof. intros Hrun. exact (progress_loop_agents AGENTS w [] t Hrun). Qed.

End TableAgents.

(* ===================================================================== *)
(** * The properties on concrete inputs *)
(* ===================================================================== *)

Lemma logger_init_keeps_existing_files_witness :
  lookup_node (files Scenario.fresh_world) ["drl_outputs"; "metrics.csv"]
  = Some (File (line_of TrainingLogger.metrics_columns))
  /\ (["drl_outputs"; "metrics.csv"] <> ["drl_outputs"] ++ ["training_log.txt"] ->
      lookup_node
        (files (fst (TrainingLogger.__init__ ["drl_outputs"] None Scenario.t1
                       Scenario.t1 Scenario.fresh_world)))
        ["drl_outputs"; "metrics.csv"]
      = Some (File (line_of TrainingLogger.metrics_columns)))
  /\ (forall c : string, File (line_of TrainingLogger.metrics_columns) = File c ->
      exists suffix : string,
        lookup_node
          (files (fst (TrainingLogger.__init__ ["drl_outputs"] None Scenario.t1
                         Scenario.t1 Scenario.fresh_world)))
          ["drl_outputs"; "metrics.csv"]
        = Some (File (c +:+ suffix))).
Proof.
  split; [vm_compute; reflexivity|].
  apply (logger_init_keeps_existing_files ["drl_outputs"] None Scenario.t1 Scenario.t1
           Scenario.fresh_world ["drl_outputs"; "metrics.csv"]
           (File (line_of TrainingLogger.metrics_columns))).
  vm_compute. reflexivity.
Defined.

Lemma logger_init_fresh_directory_witness :
  creatable (files Scenario.empty_world) ["runs"; "drl_outputs"] = true
  /\ lookup_node (files Scenario.empty_world) (["runs"; "drl_outputs"] ++ ["metrics.csv"])
     = None
  /\ lookup_node (files Scenario.empty_world) (["runs"; "drl_outputs"] ++ ["actions.csv"])
     = None
  /\ lookup_node (files Scenario.empty_world)
       (["runs"; "drl_outputs"] ++ ["training_log.txt"])
     = None
  /\ exists (w' : world) (l : TrainingLogger.logger),
       TrainingLogger.__init__ ["runs"; "drl_outputs"] (Some "exp") Scenario.t0
         Scenario.t0 Scenario.empty_world
       = (w', Ok l)
       /\ lookup_node (files w') (["runs"; "drl_outputs"] ++ ["metrics.csv"])
          = Some (File (line_of TrainingLogger.metrics_columns))
       /\ lookup_node (files w') (["runs"; "drl_outputs"] ++ ["actions.csv"])
          = Some (File (line_of TrainingLogger.actions_columns))
       /\ lookup_node (files w') (["runs"; "drl_outputs"] ++ ["training_log.txt"])
          = Some (File ("[" +:+ strftime_human Scenario.t0
                          +:+ "] [INFO] Logger initialized" +:+ nl))
       /\ TrainingLogger.metrics_buffer l = []
       /\ TrainingLogger.actions_buffer l = []
       /\ TrainingLogger.events_buffer l
          = ["[" +:+ strftime_human Scenario.t0
               +:+ "] [INFO] Logger initialized" +:+ nl]
       /\ stdout w' = stdout Scenario.empty_world.
Proof.
  split; [vm_compute; reflexivity|].
  split; [vm_compute; reflexivity|].
  split; [vm_compute; reflexivity|].
  split; [vm_compute; reflexivity|].
  apply (logger_init_fresh_directory ["runs"; "drl_outputs"] (Some "exp") Scenario.t0
           Scenario.t0 Scenario.empty_world); vm_compute; reflexivity.
Defined.

Lemma logger_init_on_regular_file_witness :
  lookup_node (files Examples.blocked_world) ["drl_outputs"]
  = Some (File "not a directory")
  /\ TrainingLogger.__init__ ["drl_outputs"] None Scenario.t0 Scenario.t0
       Examples.blocked_world
     = (Examples.blocked_world, Raise FileExistsError).
Proof.
  split; [vm_compute; reflexivity|].
  apply (logger_init_on_regular_file ["drl_outputs"] None Scenario.t0 Scenario.t0
           Examples.blocked_world "not a directory").
  vm_compute. reflexivity.
Defined.

Lemma log_rounds_read_back_witness :
  lookup_node (files Scenario.fresh_world)
    (TrainingLogger.metrics_file Scenario.fresh_logger)
  = Some (File (file_of (TrainingLogger.metrics_columns :: [])))
  /\ Forall readable_record []
  /\ TrainingLogger.metrics_file Scenario.fresh_logger
     <> TrainingLogger.events_file Scenario.fresh_logger
  /\ Forall (fun c => cells_fit (call_row c) = true)
       [Examples.first_call; Examples.second_call]
  /\ is_ok (snd (log_rounds Scenario.fresh_logger
                   [Examples.first_call; Examples.second_call] Scenario.fresh_world))
     = true
  /\ exists (self' : TrainingLogger.logger) (content : string),
       snd (log_rounds Scenario.fresh_logger
              [Examples.first_call; Examples.second_call] Scenario.fresh_world)
       = Ok self'
       /\ TrainingLogger.metrics_buffer self'
          = TrainingLogger.metrics_buffer Scenario.fresh_logger
              ++ map call_row [Examples.first_call; Examples.second_call]
       /\ lookup_node
            (files (fst (log_rounds Scenario.fresh_logger
                           [Examples.first_call; Examples.second_call]
                           Scenario.fresh_world)))
            (TrainingLogger.metrics_file Scenario.fresh_logger)
          = Some (File content)
       /\ data_rows content
          = Ok (map (make_row TrainingLogger.metrics_columns) []
                  ++ map (fun c => make_row TrainingLogger.metrics_columns
                                     (map py_str (call_row c)))
                       [Examples.first_call; Examples.second_call]).
Proof.
  assert (Hfit : Forall (fun c => cells_fit (call_row c) = true)
                   [Examples.first_call; Examples.second_call])
    by (repeat (apply Forall_cons_2; [vm_compute; reflexivity|]); apply Forall_nil_2).
  split; [vm_compute; reflexivity|].
  split; [constructor|].
  split; [vm_compute; discriminate|].
  split; [exact Hfit|].
  split; [vm_compute; reflexivity|].
  apply (log_rounds_read_back Scenario.fresh_logger
           [Examples.first_call; Examples.second_call] Scenario.fresh_world []);
    [vm_compute; reflexivity | constructor | vm_compute; discriminate
     | exact Hfit | vm_compute; reflexivity].
Defined.

Lemma log_round_row_written_before_event_failure_witness :
  lookup_node (files Examples.event_log_is_directory)
    (TrainingLogger.metrics_file Scenario.fresh_logger)
  = Some (File (line_of TrainingLogger.metrics_columns))
  /\ TrainingLogger.metrics_file Scenario.fresh_logger
     <> TrainingLogger.events_file Scenario.fresh_logger
  /\ open_for_write (files Examples.event_log_is_directory)
       (TrainingLogger.events_file Scenario.fresh_logger)
     = Raise IsADirectoryError
  /\ TrainingLogger.log_round Scenario.fresh_logger 1 0 (Scenario.lit "0.42")
       TrainingLogger.default_std_reward TrainingLogger.default_episode_length
       (Scenario.lit "0.05") None Scenario.t1 Scenario.t1
       Examples.event_log_is_directory
     = (mkWorld
          (<[TrainingLogger.metrics_file Scenario.fresh_logger :=
               File (line_of TrainingLogger.metrics_columns
                       +:+ writerow
                             (TrainingLogger.round_row (isoformat Scenario.t1) 1 0
                                (Scenario.lit "0.42") TrainingLogger.default_std_reward
                                TrainingLogger.default_episode_length
                                (Scenario.lit "0.05") None))]>
             (files Examples.event_log_is_directory))
          (stdout Examples.event_log_is_directory),
        Raise IsADirectoryError).
Proof.
  split; [vm_compute; reflexivity|].
  split; [vm_compute; discriminate|].
  split; [vm_compute; reflexivity|].
  apply (log_round_row_written_before_event_failure Scenario.fresh_logger 1 0
           (Scenario.lit "0.42") TrainingLogger.default_std_reward
           TrainingLogger.default_episode_length (Scenario.lit "0.05") None
           Scenario.t1 Scenario.t1 Examples.event_log_is_directory);
    [vm_compute; reflexivity | vm_compute; discriminate | vm_compute; reflexivity].
Defined.

Lemma log_action_distribution_keeps_counts_witness :
  open_for_write (files Scenario.fresh_world)
    (TrainingLogger.actions_file Scenario.fresh_logger)
  = Ok (writerow (map PStr TrainingLogger.actions_columns))
  /\ exists row : list pyval,
       TrainingLogger.log_action_distribution Scenario.fresh_logger 3 1
         Examples.twelve_counts Scenario.t1 Scenario.fresh_world
       = appended_action_row Scenario.fresh_logger Scenario.fresh_world
           (writerow (map PStr TrainingLogger.actions_columns)) row
       /\ take 3 row = [PStr (isoformat Scenario.t1); PInt 3; PInt 1]
       /\ drop 3 row
          = map PInt (Examples.twelve_counts
                        ++ replicate (12 - length Examples.twelve_counts) 0)
       /\ length (drop 3 row) = Nat.max 12 (length Examples.twelve_counts).
Proof.
  split; [vm_compute; reflexivity|].
  apply (log_action_distribution_keeps_counts Scenario.fresh_logger 3 1 Scenario.t1).
  vm_compute. reflexivity.
Defined.

Lemma action_distribution_read_back_witness :
  lookup_node (files Scenario.fresh_world)
    (TrainingLogger.actions_file Scenario.fresh_logger)
  = Some (File (file_of (TrainingLogger.actions_columns :: [])))
  /\ Forall readable_record []
  /\ cells_fit (action_row Scenario.t1 3 1 Examples.fourteen_counts) = true
  /\ exists (content : string) (written : row),
       lookup_node
         (files (fst (TrainingLogger.log_action_distribution Scenario.fresh_logger 3 1
                        Examples.fourteen_counts Scenario.t1 Scenario.fresh_world)))
         (TrainingLogger.actions_file Scenario.fresh_logger)
       = Some (File content)
       /\ data_rows content
          = Ok (map (make_row TrainingLogger.actions_columns) [] ++ [written])
       /\ (forall (i : nat) (name : string),
             (i < 12)%nat ->
             TrainingLogger.actions_columns !! (3 + i)%nat = Some name ->
             written !! Some name
             = Some (CStr (str_of_Z (default 0 (Examples.fourteen_counts !! i)))))
       /\ written !! None
          = if (12 <? length Examples.fourteen_counts)%nat
            then Some (CList (map str_of_Z (drop 12 Examples.fourteen_counts)))
            else None.
Proof.
  split; [vm_compute; reflexivity|].
  split; [constructor|].
  split; [vm_compute; reflexivity|].
  apply (action_distribution_read_back Scenario.fresh_logger 3 1
           Examples.fourteen_counts Scenario.t1 Scenario.fresh_world []);
    [vm_compute; reflexivity | constructor | vm_compute; reflexivity].
Defined.

Lemma display_summary_silent_without_rows_witness :
  summary_rows Scenario.the_monitor (files Examples.empty_results) = []
  /\ TrainingMonitor.display_summary Scenario.the_monitor Examples.empty_results
     = (Examples.empty_results, Ok tt).
Proof.
  split; [vm_compute; reflexivity|].
  apply (display_summary_silent_without_rows Scenario.the_monitor
           Examples.empty_results).
  vm_compute. reflexivity.
Defined.

Lemma display_training_progress_waits_for_files_witness :
  (forall (agent : string) (filepath : path),
      TrainingMonitor.metric_files Scenario.the_monitor !! agent = Some filepath ->
      path_exists (files Examples.empty_results) filepath = false)
  /\ TrainingMonitor.display_training_progress Scenario.the_monitor
       Examples.empty_results
     = (mkWorld (files Examples.empty_results)
          (stdout Examples.empty_results
             ++ [nl +:+ "TRAINING PROGRESS"; TrainingMonitor.rule "-";
                 "No training data found. Waiting for training to start..."]),
        Ok tt).
Proof.
  assert (Hmissing : forall (agent : string) (filepath : path),
             TrainingMonitor.metric_files Scenario.the_monitor !! agent
             = Some filepath ->
             path_exists (files Examples.empty_results) filepath = false).
  { intros agent filepath Hfile. unfold Scenario.the_monitor in Hfile.
    cbn [TrainingMonitor.metric_files] in Hfile.
    repeat (apply lookup_insert_Some in Hfile as [[_ <-]|[_ Hfile]];
            [vm_compute; reflexivity|]).
    now rewrite lookup_empty in Hfile. }
  split; [exact Hmissing|].
  exact (display_training_progress_waits_for_files Scenario.the_monitor
           Examples.empty_results Hmissing).
Defined.

Lemma get_latest_metrics_raises_on_short_last_row_witness :
  "reward" ∈ ["round"; "accuracy"; "reward"]
  /\ "reward" ∈ drop (length ["2"; "0.6"]) ["round"; "accuracy"; "reward"]
  /\ is_ok (TrainingMonitor.get_latest_metrics
              (Some (map (make_row ["round"; "accuracy"; "reward"])
                       ([["1"; "0.5"; "0.1"]] ++ [["2"; "0.6"]]))))
     = false.
Proof.
  assert (H1 : "reward" ∈ ["round"; "accuracy"; "reward"]) by (repeat constructor).
  assert (H2 : "reward" ∈ drop (length ["2"; "0.6"]) ["round"; "accuracy"; "reward"])
    by (simpl; repeat constructor).
  split; [exact H1|]. split; [exact H2|].
  exact (get_latest_metrics_raises_on_short_last_row ["round"; "accuracy"; "reward"]
           [["1"; "0.5"; "0.1"]] ["2"; "0.6"] "reward" H1 H2).
Defined.

Lemma get_statistics_ignores_blank_rows_witness :
  blank (make_row ["round"; "accuracy"] ["2"; EmptyString]) "accuracy"
  /\ TrainingMonitor.get_statistics
       (Some (Scenario.one_column "accuracy" ["0.5"]
                ++ make_row ["round"; "accuracy"] ["2"; EmptyString]
                     :: Scenario.one_column "accuracy" ["0.7"]))
       "accuracy"
     = TrainingMonitor.get_statistics
         (Some (Scenario.one_column "accuracy" ["0.5"]
                  ++ Scenario.one_column "accuracy" ["0.7"]))
         "accuracy".
Proof.
  split; [vm_compute; reflexivity|].
  apply (get_statistics_ignores_blank_rows (Scenario.one_column "accuracy" ["0.5"])
           (Scenario.one_column "accuracy" ["0.7"])
           (make_row ["round"; "accuracy"] ["2"; EmptyString]) "accuracy").
  vm_compute. reflexivity.
Defined.

Lemma get_statistics_extremes_witness :
  Forall numeric
    (TrainingMonitor.selected (Scenario.one_column "accuracy" ["0.5"; "0.7"; "0.6"])
       "accuracy")
  /\ Forall (fun x => is_finite
                        (squared_deviation
                           (arithmetic_mean
                              (valid_values
                                 (Scenario.one_column "accuracy" ["0.5"; "0.7"; "0.6"])
                                 "accuracy")) x) = true)
       (valid_values (Scenario.one_column "accuracy" ["0.5"; "0.7"; "0.6"]) "accuracy")
  /\ valid_values (Scenario.one_column "accuracy" ["0.5"; "0.7"; "0.6"]) "accuracy"
     <> []
  /\ TrainingMonitor.max
       (TrainingMonitor.get_statistics
          (Some (Scenario.one_column "accuracy" ["0.5"; "0.7"; "0.6"])) "accuracy")
     ∈ valid_values (Scenario.one_column "accuracy" ["0.5"; "0.7"; "0.6"]) "accuracy"
  /\ TrainingMonitor.min
       (TrainingMonitor.get_statistics
          (Some (Scenario.one_column "accuracy" ["0.5"; "0.7"; "0.6"])) "accuracy")
     ∈ valid_values (Scenario.one_column "accuracy" ["0.5"; "0.7"; "0.6"]) "accuracy"
  /\ forall v : float,
       v ∈ valid_values (Scenario.one_column "accuracy" ["0.5"; "0.7"; "0.6"])
             "accuracy" ->
       flt (TrainingMonitor.max
              (TrainingMonitor.get_statistics
                 (Some (Scenario.one_column "accuracy" ["0.5"; "0.7"; "0.6"]))
                 "accuracy")) v = false
       /\ flt v (TrainingMonitor.min
                   (TrainingMonitor.get_statistics
                      (Some (Scenario.one_column "accuracy" ["0.5"; "0.7"; "0.6"]))
                      "accuracy")) = false.
Proof.
  assert (Hnum : Forall numeric
                   (TrainingMonitor.selected
                      (Scenario.one_column "accuracy" ["0.5"; "0.7"; "0.6"])
                      "accuracy")).
  { replace (TrainingMonitor.selected _ _)
      with [CStr "0.5"; CStr "0.7"; CStr "0.6"] by (vm_compute; reflexivity).
    repeat constructor. }
  assert (Hfin : Forall (fun x => is_finite
                        (squared_deviation
                           (arithmetic_mean
                              (valid_values
                                 (Scenario.one_column "accuracy" ["0.5"; "0.7"; "0.6"])
                                 "accuracy")) x) = true)
                   (valid_values (Scenario.one_column "accuracy" ["0.5"; "0.7"; "0.6"])
                      "accuracy")).
  { replace (valid_values _ _)
      with [Scenario.lit "0.5"; Scenario.lit "0.7"; Scenario.lit "0.6"]
      by (vm_compute; reflexivity).
    repeat constructor. }
  assert (Hne : valid_values (Scenario.one_column "accuracy" ["0.5"; "0.7"; "0.6"])
                  "accuracy" <> [])
    by (vm_compute; discriminate).
  split; [exact Hnum|]. split; [exact Hfin|]. split; [exact Hne|].
  exact (get_statistics_extremes _ _ Hnum Hfin Hne).
Defined.

Lemma progress_table_lists_agents_with_rows_witness :
  snd (TrainingMonitor.progress_loop Scenario.the_monitor
         (path_exists
            (files (Scenario.results_with_ppo
                      (Scenario.header_line +:+ "1,0.5,0.1" +:+ nl)))
            <$> TrainingMonitor.metric_files Scenario.the_monitor)
         [] TrainingMonitor.AGENTS
         (Scenario.results_with_ppo (Scenario.header_line +:+ "1,0.5,0.1" +:+ nl)))
  = Ok [("PPO", (TrainingMonitor.mkLatest 1 (Scenario.lit "0.5") (Scenario.lit "0.1"),
                 TrainingMonitor.mkStats (Scenario.lit "0.5") fzero (Scenario.lit "0.5")
                   (Scenario.lit "0.5")))]
  /\ map fst
       [("PPO", (TrainingMonitor.mkLatest 1 (Scenario.lit "0.5") (Scenario.lit "0.1"),
                 TrainingMonitor.mkStats (Scenario.lit "0.5") fzero (Scenario.lit "0.5")
                   (Scenario.lit "0.5")))]
     = List.filter
         (has_rows Scenario.the_monitor
            (files (Scenario.results_with_ppo
                      (Scenario.header_line +:+ "1,0.5,0.1" +:+ nl))))
         TrainingMonitor.AGENTS.
Proof.
  split; [vm_compute; reflexivity|].
  apply (progress_table_lists_agents_with_rows Scenario.the_monitor
           (Scenario.results_with_ppo (Scenario.header_line +:+ "1,0.5,0.1" +:+ nl))).
  vm_compute. reflexivity.
Defined.

Lemma run_counts_cycles_witness :
  snd (TrainingMonitor.run Scenario.the_monitor [Scenario.a_clock; Scenario.a_clock] 4
         Examples.empty_results)
  = Ok (TrainingMonitor.mkMonitor ["results"]
          (TrainingMonitor.metric_files Scenario.the_monitor)
          ["results"; "summary.csv"] fzero 2)
  /\ TrainingMonitor.iteration
       (TrainingMonitor.mkMonitor ["results"]
          (TrainingMonitor.metric_files Scenario.the_monitor)
          ["results"; "summary.csv"] fzero 2)
     = TrainingMonitor.iteration Scenario.the_monitor
       + Z.of_nat (length [Scenario.a_clock; Scenario.a_clock])
  /\ TrainingMonitor.results_dir
       (TrainingMonitor.mkMonitor ["results"]
          (TrainingMonitor.metric_files Scenario.the_monitor)
          ["results"; "summary.csv"] fzero 2)
     = TrainingMonitor.results_dir Scenario.the_monitor
  /\ TrainingMonitor.metric_files
       (TrainingMonitor.mkMonitor ["results"]
          (TrainingMonitor.metric_files Scenario.the_monitor)
          ["results"; "summary.csv"] fzero 2)
     = TrainingMonitor.metric_files Scenario.the_monitor
  /\ TrainingMonitor.summary_file
       (TrainingMonitor.mkMonitor ["results"]
          (TrainingMonitor.metric_files Scenario.the_monitor)
          ["results"; "summary.csv"] fzero 2)
     = TrainingMonitor.summary_file Scenario.the_monitor.
Proof.
  split; [vm_compute; reflexivity|].
  apply (run_counts_cycles Scenario.the_monitor _ [Scenario.a_clock; Scenario.a_clock]
           4 Examples.empty_results).
  vm_compute. reflexivity.
Defined.
